(** * DarkDiskz: drive inventory, enrichment and setup wizards

    A shallow embedding of [main.py].  A Python [str] is modelled as a
    [string] whose characters are the code points below 256, with the
    case mapping, whitespace, line boundaries and digits Python gives to
    those code points; objects read from JSON are [pyval]s, fallible code
    lives in the [result] monad, and every call to an external tool is an
    answer supplied by the caller of the embedded function. *)

From Stdlib Require Import ZArith QArith Ascii String List Bool Lia.
From stdpp Require Import base tactics option list strings gmap pretty.

Set Warnings "-register-all".
Open Scope string_scope.
Open Scope list_scope.
Open Scope Z_scope.

(** ** Python values and exceptions *)

Module Py.

Inductive exn_kind :=
  | AttributeError | KeyError | TypeError | ValueError | IndexError
  | OverflowError | RecursionError | CalledProcessError | JSONDecodeError
  | OSError.

Record exn := Exn { exn_kind_of : exn_kind; exn_msg : string }.

Inductive result (A : Type) :=
  | Ok (a : A)
  | Raise (e : exn).
Arguments Ok {A} a.
Arguments Raise {A} e.

#[global] Instance result_ret : MRet result := fun _ a => Ok a.

#[global] Instance result_bind : MBind result := fun _ _ k m =>
  match m with
  | Ok a => k a
  | Raise e => Raise e
  end.

(** [try: m except Exception as e: h e] *)
Definition try_except {A} (m : result A) (h : exn -> A) : A :=
  match m with
  | Ok a => a
  | Raise e => h e
  end.

(** What [json.loads] builds.  A float is kept abstract: only its truth
    value is ever inspected by the program. *)
Inductive pyval :=
  | PNone
  | PBool (b : bool)
  | PInt (z : Z)
  | PFloat (nonzero : bool)
  | PStr (s : string)
  | PList (l : list pyval)
  | PDict (kvs : list (string * pyval)).

(** *** Strings *)

Definition between (lo hi : nat) (c : ascii) : bool :=
  let n := nat_of_ascii c in (Nat.leb lo n && Nat.leb n hi)%bool.

(** Upper-case letters: A-Z and the Latin-1 ones (the sign at 215 is
    not a letter). *)
Definition is_upper (c : ascii) : bool :=
  (between 65 90 c || between 192 214 c || between 216 222 c)%bool.

Definition lower_ascii (c : ascii) : ascii :=
  if is_upper c then ascii_of_nat (nat_of_ascii c + 32) else c.

(** [s.lower()] *)
Fixpoint lower (s : string) : string :=
  match s with
  | EmptyString => EmptyString
  | String c r => String (lower_ascii c) (lower r)
  end.

(** [s.startswith(p)] *)
Fixpoint startswith (s p : string) : bool :=
  match p, s with
  | EmptyString, _ => true
  | String a p', String b s' => (Ascii.eqb a b && startswith s' p')%bool
  | String _ _, EmptyString => false
  end.

(** [p in s] for strings *)
Fixpoint contains (s p : string) : bool :=
  (startswith s p ||
   match s with
   | EmptyString => false
   | String _ s' => contains s' p
   end)%bool.

Definition rev_string (s : string) : string :=
  string_of_list_ascii (rev (list_ascii_of_string s)).

(** [s.endswith(p)] *)
Definition endswith (s p : string) : bool :=
  startswith (rev_string s) (rev_string p).

(** The characters [str.strip()] and [str.split()] treat as blank. *)
Definition is_space (c : ascii) : bool :=
  (between 9 13 c || between 28 32 c || between 133 133 c
   || between 160 160 c)%bool.

Fixpoint lstrip (s : string) : string :=
  match s with
  | EmptyString => EmptyString
  | String c r => if is_space c then lstrip r else s
  end.

(** [s.strip()] *)
Definition strip (s : string) : string :=
  rev_string (lstrip (rev_string (lstrip s))).

(** Truth value of a string: [if s]. *)
Definition str_truthy (s : string) : bool :=
  match s with
  | EmptyString => false
  | String _ _ => true
  end.

(** Truth value of an object read from JSON. *)
Definition truthy (v : pyval) : bool :=
  match v with
  | PNone => false
  | PBool b => b
  | PInt z => negb (z =? 0)
  | PFloat nz => nz
  | PStr s => str_truthy s
  | PList l => match l with [] => false | _ => true end
  | PDict kvs => match kvs with [] => false | _ => true end
  end.

(** [v == s] for a string literal [s]. *)
Definition eq_str (v : pyval) (s : string) : bool :=
  match v with
  | PStr t => String.eqb t s
  | _ => false
  end.

(** [s[:-1]] *)
Fixpoint drop_last (s : string) : string :=
  match s with
  | EmptyString => EmptyString
  | String c EmptyString => EmptyString
  | String c r => String c (drop_last r)
  end.

(** [s.split(sep)] for a one-character separator. *)
Fixpoint split_on (sep : ascii) (s : string) : list string :=
  match s with
  | EmptyString => [EmptyString]
  | String c r =>
      if Ascii.eqb c sep then EmptyString :: split_on sep r
      else match split_on sep r with
           | [] => [String c EmptyString]
           | w :: ws => String c w :: ws
           end
  end.

(** [s.split(sep, 1)] when [sep in s]: the text before the first
    separator and the text after it. *)
Fixpoint split_once (sep : ascii) (s : string) : option (string * string) :=
  match s with
  | EmptyString => None
  | String c r =>
      if Ascii.eqb c sep then Some (EmptyString, r)
      else match split_once sep r with
           | Some (a, b) => Some (String c a, b)
           | None => None
           end
  end.

(** [s.split()]: the maximal runs of non-blank characters.  [cur] is
    the run being read, reversed. *)
Fixpoint split_ws_go (cur : list ascii) (s : string) : list string :=
  let flush rest :=
    match cur with
    | [] => rest
    | _ => string_of_list_ascii (rev cur) :: rest
    end in
  match s with
  | EmptyString => flush []
  | String c r =>
      if is_space c then flush (split_ws_go [] r)
      else split_ws_go (c :: cur) r
  end.

Definition split_ws (s : string) : list string := split_ws_go [] s.

(** Line boundaries of [str.splitlines()] below code point 256. *)
Definition is_linebreak (c : ascii) : bool :=
  (between 10 13 c || between 28 30 c || between 133 133 c)%bool.

(** [s.splitlines()]; a carriage return followed by a line feed is one
    boundary. *)
Fixpoint splitlines_go (cur : list ascii) (s : string) : list string :=
  match s with
  | EmptyString =>
      match cur with
      | [] => []
      | _ => [string_of_list_ascii (rev cur)]
      end
  | String c r =>
      if is_linebreak c then
        string_of_list_ascii (rev cur) ::
        match r with
        | String d r' =>
            if (Ascii.eqb c "013" && Ascii.eqb d "010")%bool
            then splitlines_go [] r'
            else splitlines_go [] r
        | EmptyString => []
        end
      else splitlines_go (c :: cur) r
  end.

Definition splitlines (s : string) : list string := splitlines_go [] s.

(** [sep.join(parts)] *)
Fixpoint join (sep : string) (parts : list string) : string :=
  match parts with
  | [] => EmptyString
  | [p] => p
  | p :: ps => p +:+ sep +:+ join sep ps
  end.

(** [c.isdigit()] below code point 256: 0-9 and the three superscript
    digits. *)
Definition is_digit_char (c : ascii) : bool :=
  (between 48 57 c || between 178 179 c || between 185 185 c)%bool.

(** [s.isdigit()] *)
Definition isdigit (s : string) : bool :=
  (str_truthy s && forallb is_digit_char (list_ascii_of_string s))%bool.

(** [s.replace(pat, EmptyString)] for a non-empty [pat]: [skip] counts
    the characters of a match still to be dropped. *)
Fixpoint remove_all_go (pat : string) (skip : nat) (s : string) : string :=
  match s with
  | EmptyString => EmptyString
  | String c r =>
      match skip with
      | S k => remove_all_go pat k r
      | O =>
          if startswith s pat
          then remove_all_go pat (Nat.pred (String.length pat)) r
          else String c (remove_all_go pat O r)
      end
  end.

Definition remove_all (s pat : string) : string := remove_all_go pat O s.

(** [os.path.basename(p)]: what follows the last slash. *)
Fixpoint basename (p : string) : string :=
  match p with
  | EmptyString => EmptyString
  | String c r =>
      if contains r "/" then basename r
      else if Ascii.eqb c "/" then r else p
  end.

(** *** Objects read from JSON *)

Fixpoint dict_lookup (k : string) (kvs : list (string * pyval))
  : option pyval :=
  match kvs with
  | [] => None
  | (k', v) :: rest => if String.eqb k' k then Some v else dict_lookup k rest
  end.

Definition no_attribute (attr : string) : exn :=
  Exn AttributeError ("object has no attribute '" +:+ attr +:+ "'").

(** [v.get(k, dflt)]: only a dict has the method. *)
Definition py_get (v : pyval) (k : string) (dflt : pyval)
  : result pyval :=
  match v with
  | PDict kvs => Ok (default dflt (dict_lookup k kvs))
  | _ => Raise (no_attribute "get")
  end.

(** [v[k]] for a string key. *)
Definition py_getitem (v : pyval) (k : string) : result pyval :=
  match v with
  | PDict kvs =>
      match dict_lookup k kvs with
      | Some x => Ok x
      | None => Raise (Exn KeyError k)
      end
  | PList _ | PStr _ => Raise (Exn TypeError "indices must be integers")
  | _ => Raise (Exn TypeError "object is not subscriptable")
  end.

(** [v[0]] *)
Definition py_first (v : pyval) : result pyval :=
  match v with
  | PList (x :: _) => Ok x
  | PList [] => Raise (Exn IndexError "list index out of range")
  | PStr (String c _) => Ok (PStr (String c EmptyString))
  | PStr EmptyString => Raise (Exn IndexError "string index out of range")
  | PDict _ => Raise (Exn KeyError "0")
  | _ => Raise (Exn TypeError "object is not subscriptable")
  end.

(** The items [for x in v] visits. *)
Definition py_iter (v : pyval) : result (list pyval) :=
  match v with
  | PList l => Ok l
  | PStr s =>
      Ok (map (fun c => PStr (String c EmptyString)) (list_ascii_of_string s))
  | PDict kvs => Ok (map (fun kv => PStr (fst kv)) kvs)
  | _ => Raise (Exn TypeError "object is not iterable")
  end.

(** The receiver of a [str] method: anything else has no such method. *)
Definition as_str (attr : string) (v : pyval) : result string :=
  match v with
  | PStr s => Ok s
  | _ => Raise (no_attribute attr)
  end.

(** [v.lower()] *)
Definition py_lower (v : pyval) : result string :=
  s ← as_str "lower" v; Ok (lower s).

(** *** Processes *)

(** What [subprocess.run(..., capture_output=True, text=True)]
    returns. *)
Record CompletedProcess := {
  returncode : Z;
  stdout : string;
  stderr : string
}.

(** [subprocess.run(argv, check=check)] on the outcome [r] of the
    process: with [check], a non-zero exit status raises. *)
Definition subprocess_run (r : result CompletedProcess) (check : bool)
  : result CompletedProcess :=
  p ← r;
  if (check && negb (returncode p =? 0))%bool
  then Raise (Exn CalledProcessError "returned non-zero exit status")
  else Ok p.

(** *** [shlex.quote] *)

(** The characters [shlex.quote] leaves alone: letters, digits and
    [_@%+=:,./-]. *)
Definition is_safe_char (c : ascii) : bool :=
  (between 48 57 c || between 65 90 c || between 97 122 c
   || existsb (Ascii.eqb c)
        ["_"; "@"; "%"; "+"; "="; ":"; ","; "."; "/"; "-"]%char)%bool.

Definition squote : string := "'".
Definition dquote : string := String "034" EmptyString.

(** Each single quote becomes quote, double-quoted quote, quote. *)
Fixpoint escape_squotes (s : string) : string :=
  match s with
  | EmptyString => EmptyString
  | String c r =>
      if Ascii.eqb c "'"
      then squote +:+ dquote +:+ squote +:+ dquote +:+ squote
           +:+ escape_squotes r
      else String c (escape_squotes r)
  end.

Definition shlex_quote (s : string) : string :=
  if negb (str_truthy s) then squote +:+ squote
  else if forallb is_safe_char (list_ascii_of_string s) then s
  else squote +:+ escape_squotes s +:+ squote.

End Py.

Import Py.

(** ** Device inventory *)

Module DriveInfo.

(** The dictionary [get_drives] builds for a disk.  The fields that
    the function can only fill from a string are strings, the others
    hold whatever lsblk reported. *)
Record Drive := {
  name : string;
  display_name : string;
  size : pyval;
  model : pyval;
  transport : string;
  rotational : pyval;
  is_nvme : bool;
  is_removable : pyval;
  is_hotplug : pyval;
  is_usb : bool
}.

(** The test of the loop body of [filter_drives]:
    [drive['is_usb'] and drive['transport'].lower() == 'usb']. *)
Definition true_usb (drive : Drive) : bool :=
  (is_usb drive && String.eqb (lower (transport drive)) "usb")%bool.

(** One iteration of the loop of [filter_drives], on the pair
    [(main_drives, usb_drives)]. *)
Definition filter_step (acc : list Drive * list Drive) (drive : Drive)
  : list Drive * list Drive :=
  let '(main_drives, usb_drives) := acc in
  if true_usb drive
  then (main_drives, usb_drives ++ [drive])
  else (main_drives ++ [drive], usb_drives).

(** [filter_drives(drives, show_usb=True)]: one pass, appending to one
    of two lists; [show_usb] is not read. *)
Definition filter_drives (drives : list Drive) (show_usb : bool)
  : list Drive * list Drive :=
  fold_left filter_step drives ([], []).

(** *** [get_drives] *)

Section Inventory.

(** [json.loads], a library function: the object it builds from a text,
    or the exception it raises. *)
Variable json_loads : string -> result pyval.

(** The dictionary literal of [get_drives], its entries evaluated in
    the order they are written.  Once the [lower()] calls have passed,
    the name and the transport are strings. *)
Definition build_drive (device : pyval) : result Drive :=
  nm ← py_getitem device "name";
  sz ← py_get device "size" (PStr "Unknown");
  mdl ← py_get device "model" (PStr "Unknown Drive");
  tran ← py_get device "tran" (PStr "Unknown");
  rota ← py_get device "rota" (PBool false);
  nm_lower ← py_get device "name" (PStr EmptyString) ≫= py_lower;
  rm ← py_get device "rm" (PBool false);
  hotplug ← py_get device "hotplug" (PBool false);
  tran_lower ← py_get device "tran" (PStr EmptyString) ≫= py_lower;
  nm_s ← as_str "lower" nm;
  tran_s ← as_str "lower" tran;
  Ok {| name := "/dev/" +:+ nm_s;
        display_name := nm_s;
        size := sz;
        model := mdl;
        transport := tran_s;
        rotational := rota;
        is_nvme := contains nm_lower "nvme";
        is_removable := rm;
        is_hotplug := hotplug;
        is_usb := String.eqb tran_lower "usb" |}.

(** The loop over [data.get('blockdevices', [])]. *)
Fixpoint collect_disks (devices : list pyval) (drives : list Drive)
  : result (list Drive) :=
  match devices with
  | [] => Ok drives
  | device :: rest =>
      ty ← py_get device "type" PNone;
      if eq_str ty "disk"
      then d ← build_drive device; collect_disks rest (drives ++ [d])
      else collect_disks rest drives
  end.

(** The body of the [try] of [get_drives]; [lsblk] is the outcome of
    the lsblk process. *)
Definition get_drives_try (lsblk : result CompletedProcess)
  : result (list Drive) :=
  res ← subprocess_run lsblk true;
  data ← json_loads (stdout res);
  devices ← py_get data "blockdevices" (PList []) ≫= py_iter;
  collect_disks devices [].

(** [get_drives()]: [except Exception] prints the error and returns the
    empty list. *)
Definition get_drives (lsblk : result CompletedProcess)
  : result (list Drive) :=
  match get_drives_try lsblk with
  | Ok drives => Ok drives
  | Raise e => Ok []
  end.

End Inventory.

(** *** [get_smart_info] *)

Definition attribute := list (string * string).

(** The dictionary [get_smart_info] returns; a key that a branch does
    not set is [None]. *)
Record SmartInfo := {
  available : bool;
  output : string;
  health : option bool;
  needs_sudo : option bool;
  attributes : option (list attribute);
  error : option string
}.

(** The processes started so far, oldest first. *)
Definition cmdlog := list (list string).

(** The machine as [get_smart_info] sees it: the outcome of the process
    started with a given command line after [n] earlier ones. *)
Definition World := nat -> list string -> result CompletedProcess.

Definition spawn (w : World) (argv : list string) (check : bool)
    (log : cmdlog) : result CompletedProcess * cmdlog :=
  (subprocess_run (w (length log) argv) check, log ++ [argv]).

Definition is_called_process_error (e : exn) : bool :=
  match exn_kind_of e with
  | CalledProcessError => true
  | _ => false
  end.

(** [check_smartctl_available()]: only [CalledProcessError] is
    caught. *)
Definition check_smartctl_available (w : World) (log : cmdlog)
  : result bool * cmdlog :=
  let '(r, log) := spawn w ["which"; "smartctl"] true log in
  match r with
  | Ok _ => (Ok true, log)
  | Raise e =>
      if is_called_process_error e then (Ok false, log) else (Raise e, log)
  end.

Definition nth_str (parts : list string) (i : nat) : string :=
  nth i parts EmptyString.

(** One line of the classic attribute table scan, on the pair
    [(in_table, attributes)]. *)
Definition smart_table_step (acc : bool * list attribute) (line : string)
  : bool * list attribute :=
  let '(in_table, attrs) := acc in
  if (startswith (strip line) "ID#" || startswith (strip line) "ID")%bool
  then (true, attrs)
  else
    let in_table :=
      if (in_table && String.eqb (strip line) EmptyString)%bool
      then false else in_table in
    if in_table then
      let parts := split_ws line in
      if (Nat.leb 10 (length parts) && isdigit (nth_str parts 0))%bool
      then (in_table,
            attrs ++ [[("id", nth_str parts 0); ("name", nth_str parts 1);
                       ("value", nth_str parts 3); ("worst", nth_str parts 4);
                       ("thresh", nth_str parts 5); ("type", nth_str parts 6);
                       ("updated", nth_str parts 7);
                       ("when_failed", nth_str parts 8);
                       ("raw", join " " (drop 9 parts))]])
      else (in_table, attrs)
    else (in_table, attrs).

(** The scan of the NVMe health section, which stops at the first
    blank line of the section. *)
Fixpoint nvme_scan (nvme_section : bool) (lines : list string)
    (attrs : list attribute) : list attribute :=
  match lines with
  | [] => attrs
  | line :: rest =>
      if contains line "SMART/Health Information"
      then nvme_scan true rest attrs
      else if (nvme_section && String.eqb (strip line) EmptyString)%bool
      then attrs
      else if (nvme_section && contains line ":")%bool
      then match split_once ":" line with
           | Some (k, v) =>
               nvme_scan nvme_section rest
                 (attrs ++ [[("name", strip k); ("value", strip v);
                             ("raw", strip v)]])
           | None => nvme_scan nvme_section rest attrs
           end
      else nvme_scan nvme_section rest attrs
  end.

Definition parse_attributes (out : string) : list attribute :=
  let attrs := snd (fold_left smart_table_step (splitlines out) (false, [])) in
  match attrs with
  | [] => nvme_scan false (splitlines out) []
  | _ => attrs
  end.

(** [returncode in [0, 4]] *)
Definition query_succeeded (p : CompletedProcess) : bool :=
  ((returncode p =? 0) || (returncode p =? 4))%bool.

Definition unavailable (out err : string) : SmartInfo :=
  {| available := false; output := out; health := None;
     needs_sudo := None; attributes := None; error := Some err |}.

Definition command_failed (p : CompletedProcess) : SmartInfo :=
  unavailable ("Command failed: " +:+ stderr p)
              ("smartctl returned code " +:+ pretty (returncode p)).

(** [get_smart_info(device)].  [depth] is the number of frames the
    interpreter still allows: a call made with none left raises
    [RecursionError]. *)
Fixpoint get_smart_info (depth : nat) (w : World) (device : string)
    (log : cmdlog) : result SmartInfo * cmdlog :=
  match depth with
  | O => (Raise (Exn RecursionError "maximum recursion depth exceeded"), log)
  | S depth' =>
    let '(avail, log) := check_smartctl_available w log in
    match avail with
    | Raise e => (Raise e, log)
    | Ok false =>
        (Ok (unavailable "smartctl not found" "smartctl not installed"), log)
    | Ok true =>
      let '(r, log) := spawn w ["smartctl"; "-H"; "-A"; device] false log in
      match r with
      | Raise e => (Ok (unavailable ("Error: " +:+ exn_msg e) (exn_msg e)), log)
      | Ok res =>
        if query_succeeded res then
          (Ok {| available := true; output := stdout res;
                 health := Some (contains (stdout res) "PASSED");
                 needs_sudo := Some false;
                 attributes := Some (parse_attributes (stdout res));
                 error := None |}, log)
        else if ((returncode res =? 1)
                 && contains (stderr res) "Permission denied")%bool then
          let '(r2, log) :=
            spawn w ["sudo"; "smartctl"; "-H"; "-A"; device] false log in
          match r2 with
          | Raise e =>
              (Ok (unavailable ("Sudo failed: " +:+ exn_msg e) (exn_msg e)),
               log)
          | Ok res2 =>
              if query_succeeded res2 then
                let '(again, log) := get_smart_info depth' w device log in
                match again with
                | Ok info => (Ok info, log)
                | Raise e =>
                    (Ok (unavailable ("Sudo failed: " +:+ exn_msg e)
                                     (exn_msg e)), log)
                end
              else (Ok (command_failed res2), log)
          end
        else (Ok (command_failed res), log)
      end
    end
  end.

(** The privileged queries among the processes started. *)
Definition is_sudo_query (argv : list string) : bool :=
  match argv with
  | cmd :: _ => String.eqb cmd "sudo"
  | [] => false
  end.

Definition escalations (log : cmdlog) : nat :=
  length (List.filter is_sudo_query log).

(** *** [get_technical_details] *)

(** The [details] dictionary: one optional field per key the function
    may set. *)
Record Details := {
  rotation : option pyval;
  partition_table : option pyval;
  d_transport : option pyval;
  removable : option pyval;
  d_model : option pyval;
  trim : option pyval;
  rpm : option string;
  nvme_pci : option string;
  link_speed : option string;
  rotation_speed : option string;
  in_raid : option bool;
  in_bcache : option bool;
  d_error : option string
}.

Definition no_details : Details :=
  {| rotation := None; partition_table := None; d_transport := None;
     removable := None; d_model := None; trim := None; rpm := None;
     nvme_pci := None; link_speed := None; rotation_speed := None;
     in_raid := None; in_bcache := None; d_error := None |}.

Definition set_lsblk (d : Details) (rota pttype tran rm mdl : pyval)
  : Details :=
  {| rotation := Some rota; partition_table := Some pttype;
     d_transport := Some tran; removable := Some rm; d_model := Some mdl;
     trim := trim d; rpm := rpm d; nvme_pci := nvme_pci d;
     link_speed := link_speed d; rotation_speed := rotation_speed d;
     in_raid := in_raid d; in_bcache := in_bcache d; d_error := d_error d |}.

Definition set_trim (d : Details) (v : pyval) : Details :=
  {| rotation := rotation d; partition_table := partition_table d;
     d_transport := d_transport d; removable := removable d;
     d_model := d_model d; trim := Some v; rpm := rpm d;
     nvme_pci := nvme_pci d; link_speed := link_speed d;
     rotation_speed := rotation_speed d; in_raid := in_raid d;
     in_bcache := in_bcache d; d_error := d_error d |}.

Definition set_rpm (d : Details) (v : string) : Details :=
  {| rotation := rotation d; partition_table := partition_table d;
     d_transport := d_transport d; removable := removable d;
     d_model := d_model d; trim := trim d; rpm := Some v;
     nvme_pci := nvme_pci d; link_speed := link_speed d;
     rotation_speed := rotation_speed d; in_raid := in_raid d;
     in_bcache := in_bcache d; d_error := d_error d |}.

Definition set_nvme_pci (d : Details) (v : string) : Details :=
  {| rotation := rotation d; partition_table := partition_table d;
     d_transport := d_transport d; removable := removable d;
     d_model := d_model d; trim := trim d; rpm := rpm d;
     nvme_pci := Some v; link_speed := link_speed d;
     rotation_speed := rotation_speed d; in_raid := in_raid d;
     in_bcache := in_bcache d; d_error := d_error d |}.

Definition set_link_speed (d : Details) (v : string) : Details :=
  {| rotation := rotation d; partition_table := partition_table d;
     d_transport := d_transport d; removable := removable d;
     d_model := d_model d; trim := trim d; rpm := rpm d;
     nvme_pci := nvme_pci d; link_speed := Some v;
     rotation_speed := rotation_speed d; in_raid := in_raid d;
     in_bcache := in_bcache d; d_error := d_error d |}.

Definition set_rotation_speed (d : Details) (v : string) : Details :=
  {| rotation := rotation d; partition_table := partition_table d;
     d_transport := d_transport d; removable := removable d;
     d_model := d_model d; trim := trim d; rpm := rpm d;
     nvme_pci := nvme_pci d; link_speed := link_speed d;
     rotation_speed := Some v; in_raid := in_raid d;
     in_bcache := in_bcache d; d_error := d_error d |}.

Definition set_membership (d : Details) (raid bcache : bool) : Details :=
  {| rotation := rotation d; partition_table := partition_table d;
     d_transport := d_transport d; removable := removable d;
     d_model := d_model d; trim := trim d; rpm := rpm d;
     nvme_pci := nvme_pci d; link_speed := link_speed d;
     rotation_speed := rotation_speed d; in_raid := Some raid;
     in_bcache := Some bcache; d_error := d_error d |}.

Definition set_error (d : Details) (v : string) : Details :=
  {| rotation := rotation d; partition_table := partition_table d;
     d_transport := d_transport d; removable := removable d;
     d_model := d_model d; trim := trim d; rpm := rpm d;
     nvme_pci := nvme_pci d; link_speed := link_speed d;
     rotation_speed := rotation_speed d; in_raid := in_raid d;
     in_bcache := in_bcache d; d_error := Some v |}.

(** What the function asks of the machine: the two lsblk runs, the
    udevadm run, the read of /proc/mdstat and the ls of the sysfs bcache
    directory. *)
Record Probes := {
  lsblk_columns : result CompletedProcess;
  lsblk_discard : result CompletedProcess;
  udevadm_info : result CompletedProcess;
  proc_mdstat : result string;
  ls_bcache : result CompletedProcess
}.

Section Technical.

Variable json_loads : string -> result pyval.

(** The search for the device among the block devices, up to the
    [break]. *)
Fixpoint find_device (devname : string) (devs : list pyval) (d : Details)
  : result Details :=
  match devs with
  | [] => Ok d
  | dev :: rest =>
      nm ← py_get dev "name" PNone;
      if eq_str nm devname then
        rota ← py_get dev "rota" PNone;
        pttype ← py_get dev "pttype" PNone;
        tran ← py_get dev "tran" PNone;
        rm ← py_get dev "rm" PNone;
        mdl ← py_get dev "model" PNone;
        Ok (set_lsblk d rota pttype tran rm mdl)
      else find_device devname rest d
  end.

(** [line.split('=')[1]] *)
Definition after_equals (line : string) : result string :=
  match split_on "=" line with
  | _ :: v :: _ => Ok v
  | _ => Raise (Exn IndexError "list index out of range")
  end.

(** The three tests made on one line of the udevadm output. *)
Definition udev_line (d : Details) (line : string) : result Details :=
  d ← (if contains line "ID_ATA_ROTATION_RATE_RPM"
       then v ← after_equals line; Ok (set_rpm d v) else Ok d);
  d ← (if contains line "ID_NVME_PCI_SUBSYS"
       then v ← after_equals line; Ok (set_nvme_pci d v) else Ok d);
  if (contains line "ID_ATA_SPEED"
      || contains line "ID_NVME_PCI_LINK_SPEED")%bool
  then v ← after_equals line; Ok (set_link_speed d v) else Ok d.

(** The udevadm block with its own [except Exception: pass].  A line
    can only raise in [split('=')[1]], and then does so at the first test
    it passes, before anything of that line is stored: what the earlier
    lines stored stays. *)
Fixpoint udev_scan (lines : list string) (d : Details) : Details :=
  match lines with
  | [] => d
  | line :: rest =>
      match udev_line d line with
      | Ok d' => udev_scan rest d'
      | Raise _ => d
      end
  end.

Definition udev_probe (udevadm : result CompletedProcess) (d : Details)
  : Details :=
  match subprocess_run udevadm false with
  | Ok res => udev_scan (splitlines (stdout res)) d
  | Raise _ => d
  end.

(** [is_nvme]: the transport is only looked at when the name does not
    decide. *)
Definition detect_nvme (devname : string) (d : Details) : result bool :=
  if contains (lower devname) "nvme" then Ok true
  else t ← py_lower (default (PStr EmptyString) (d_transport d));
       Ok (String.eqb t "nvme").

(** The PCIe generation read off the link speed. *)
Definition pcie_gen (d : Details) : string :=
  match link_speed d with
  | Some speed =>
      if str_truthy speed then
        if contains speed "8.0" then "PCIe Gen 3"
        else if contains speed "16.0" then "PCIe Gen 4"
        else if contains speed "32.0" then "PCIe Gen 5"
        else "Unknown"
      else "Unknown"
  | None => "Unknown"
  end.

(** [details.get('rpm') and details['rpm'] != '0'] *)
Definition rpm_known (d : Details) : bool :=
  match rpm d with
  | Some r => (str_truthy r && negb (String.eqb r "0"))%bool
  | None => false
  end.

(** The "NVMe/SSD/HDD logic" block. *)
Definition classify (devname : string) (d : Details) : result Details :=
  detect_nvme devname d ≫= fun nvme : bool =>
  let is_rotational := truthy (default PNone (rotation d)) in
  let d := if nvme then set_trim d (PStr "Supported") else d in
  Ok (if is_rotational then
        if rpm_known d
        then set_rotation_speed d (default EmptyString (rpm d) +:+ " rpm")
        else set_rotation_speed d "Unknown (HDD)"
      else if nvme then set_rotation_speed d (pcie_gen d +:+ " (NVMe)")
      else set_rotation_speed d "Solid State (SSD)").

(** The membership checks, each with its own [except Exception: pass]. *)
Definition membership (devname : string) (p : Probes) (d : Details)
  : Details :=
  let raid :=
    match proc_mdstat p with
    | Ok text => contains text devname
    | Raise _ => false
    end in
  let bcache :=
    match subprocess_run (ls_bcache p) false with
    | Ok res => returncode res =? 0
    | Raise _ => false
    end in
  set_membership d raid bcache.

(** The statements of the outer [try], threaded through the [details]
    built so far: an exception leaves [details] as it was when raised. *)
Definition technical_steps (device : string) (p : Probes)
  : Details * option exn :=
  let devname := remove_all device "/dev/" in
  let d := no_details in
  match (res ← subprocess_run (lsblk_columns p) true;
         data ← json_loads (stdout res);
         devs ← py_get data "blockdevices" (PList []) ≫= py_iter;
         find_device devname devs d) with
  | Raise e => (d, Some e)
  | Ok d =>
    match (res ← subprocess_run (lsblk_discard p) false;
           trim_data ← json_loads (stdout res);
           devs ← py_get trim_data "blockdevices" PNone;
           if truthy devs then
             first ← py_getitem trim_data "blockdevices" ≫= py_first;
             v ← py_get first "discard" PNone;
             Ok (set_trim d v)
           else Ok d) with
    | Raise e => (d, Some e)
    | Ok d =>
      let d := udev_probe (udevadm_info p) d in
      match classify devname d with
      | Raise e => (d, Some e)
      | Ok d => (membership devname p d, None)
      end
    end
  end.

(** [get_technical_details(device)] *)
Definition get_technical_details (device : string) (p : Probes) : Details :=
  match technical_steps device p with
  | (d, None) => d
  | (d, Some e) => set_error d (exn_msg e)
  end.

End Technical.

End DriveInfo.

(** ** Numbers read from text *)

Module PyFloat.

(** The value [float(text)] denotes.  A finite value is kept as the
    exact decimal [mant * 10 ^ exp10] the text spells: the rounding to
    binary64 is not modelled, so a finite result is CPython's whenever
    binary64 holds the decimal exactly, as it does for every integer
    below 2^53; the scaling by 1024 used below is exact in either
    reading. *)
Inductive pyfloat :=
  | FNan
  | FInf (negative : bool)
  | FDec (negative : bool) (mant : Z) (exp10 : Z).

Definition is_dec (c : ascii) : bool := between 48 57 c.

Definition dec_val (c : ascii) : Z := Z.of_nat (nat_of_ascii c) - 48.

(** The rest of a [digitpart]: digits, each optionally preceded by one
    underscore.  Returns the digits read and the text left. *)
Fixpoint digits_go (s : list ascii) (acc : list Z) : list Z * list ascii :=
  match s with
  | [] => (acc, [])
  | c :: r =>
      if is_dec c then digits_go r (acc ++ [dec_val c])
      else if Ascii.eqb c "_" then
        match r with
        | d :: r' =>
            if is_dec d then digits_go r' (acc ++ [dec_val d]) else (acc, s)
        | [] => (acc, s)
        end
      else (acc, s)
  end.

(** [digitpart ::= digit (["_"] digit)*] *)
Definition digitpart (s : list ascii) : option (list Z * list ascii) :=
  match s with
  | c :: r => if is_dec c then Some (digits_go r [dec_val c]) else None
  | [] => None
  end.

Definition digits_value (ds : list Z) : Z :=
  fold_left (fun n d => 10 * n + d) ds 0.

(** [sign ::= "+" | "-"], optional. *)
Definition read_sign (s : list ascii) : bool * list ascii :=
  match s with
  | c :: r =>
      if Ascii.eqb c "-" then (true, r)
      else if Ascii.eqb c "+" then (false, r)
      else (false, s)
  | [] => (false, s)
  end.

(** [exponent ::= ("e" | "E") [sign] digitpart], optional; the text must
    end after it. *)
Definition read_exponent (s : list ascii) : option Z :=
  match s with
  | [] => Some 0
  | c :: r =>
      if (Ascii.eqb c "e" || Ascii.eqb c "E")%bool then
        let '(neg, r) := read_sign r in
        match digitpart r with
        | Some (ds, []) =>
            Some (if neg then - digits_value ds else digits_value ds)
        | _ => None
        end
      else None
  end.

(** [number ::= [digitpart] "." digitpart | digitpart ["."]], followed
    by the optional exponent. *)
Definition read_number (s : list ascii) : option (Z * Z) :=
  let with_fraction (ints : list Z) (r : list ascii) (need : bool) :=
    match digitpart r with
    | Some (frac, r') =>
        e ← read_exponent r';
        Some (digits_value (ints ++ frac), e - Z.of_nat (length frac))
    | None =>
        if need then None
        else e ← read_exponent r; Some (digits_value ints, e)
    end in
  match digitpart s with
  | Some (ints, r) =>
      match r with
      | c :: r' =>
          if Ascii.eqb c "." then with_fraction ints r' false
          else e ← read_exponent r; Some (digits_value ints, e)
      | [] => Some (digits_value ints, 0)
      end
  | None =>
      match s with
      | c :: r' => if Ascii.eqb c "." then with_fraction [] r' true else None
      | [] => None
      end
  end.

(** [float(text)]: blanks around the text are dropped, the case of inf,
    infinity and nan does not matter. *)
Definition py_float (text : string) : result pyfloat :=
  let '(neg, body) := read_sign (list_ascii_of_string (strip text)) in
  let word := lower (string_of_list_ascii body) in
  if (String.eqb word "inf" || String.eqb word "infinity")%bool
  then Ok (FInf neg)
  else if String.eqb word "nan" then Ok FNan
  else match read_number body with
       | Some (m, e) => Ok (FDec neg m e)
       | None =>
           Raise (Exn ValueError
                    ("could not convert string to float: '" +:+ text +:+ "'"))
       end.

(** [f * k] for an integer [k]. *)
Definition float_mul (f : pyfloat) (k : Z) : pyfloat :=
  match f with
  | FDec neg m e => FDec neg (m * k) e
  | _ => f
  end.

(** [int(f)]: truncation towards zero. *)
Definition py_int (f : pyfloat) : result Z :=
  match f with
  | FNan => Raise (Exn ValueError "cannot convert float NaN to integer")
  | FInf _ =>
      Raise (Exn OverflowError "cannot convert float infinity to integer")
  | FDec neg m e =>
      let magnitude := if 0 <=? e then m * 10 ^ e else m / 10 ^ (- e) in
      Ok (if neg then - magnitude else magnitude)
  end.

End PyFloat.

(** ** Benchmark wizard: the block count *)

Module BenchmarkCount.
Import PyFloat.

(** [str(int(float(size[:-1]) * k))] *)
Definition scaled_count (size : string) (k : Z) : result string :=
  f ← py_float (drop_last size);
  n ← py_int (float_mul f k);
  Ok (pretty n).

(** [str(int(float(size[:-1])))] *)
Definition plain_count (size : string) : result string :=
  f ← py_float (drop_last size);
  n ← py_int f;
  Ok (pretty n).

(** Lines 3616 to 3622 of [BenchmarkWizard._on_next]: the conditional
    expression of line 3616 is evaluated first, whatever the suffix, and
    its value is then replaced by the [if]/[elif]/[else] that follows. *)
Definition block_count (size : string) : result string :=
  count ← (if endswith (lower size) "g"
           then scaled_count size 1024
           else plain_count size);
  if endswith (lower size) "g" then scaled_count size 1024
  else if endswith (lower size) "m" then plain_count size
  else Ok "1024".

End BenchmarkCount.

(** ** [repr] of strings *)

Module PyRepr.

Definition hex_digit (n : nat) : ascii :=
  nth n (list_ascii_of_string "0123456789abcdef") "0"%char.

(** Code points below 256 that [repr] writes as an escape. *)
Definition is_unprintable (c : ascii) : bool :=
  (between 0 31 c || between 127 160 c || between 173 173 c)%bool.

(** One character inside the quotes [q]. *)
Definition repr_char (q : ascii) (c : ascii) : string :=
  let bs := String "092" EmptyString in
  if (Ascii.eqb c q || Ascii.eqb c "092")%bool then bs +:+ String c EmptyString
  else if Ascii.eqb c "010" then bs +:+ "n"
  else if Ascii.eqb c "013" then bs +:+ "r"
  else if Ascii.eqb c "009" then bs +:+ "t"
  else if is_unprintable c then
    bs +:+ "x"
    +:+ String (hex_digit (Nat.div (nat_of_ascii c) 16))
          (String (hex_digit (Nat.modulo (nat_of_ascii c) 16)) EmptyString)
  else String c EmptyString.

(** [repr(s)]: double quotes are used when the text holds a single
    quote and no double quote. *)
Definition repr_str (s : string) : string :=
  let q : ascii :=
    if (contains s squote && negb (contains s dquote))%bool
    then "034"%char else "'"%char in
  String q (join EmptyString (map (repr_char q) (list_ascii_of_string s)))
  +:+ String q EmptyString.

(** [repr] of a list of strings. *)
Definition repr_list (l : list string) : string :=
  "[" +:+ join ", " (map repr_str l) +:+ "]".

End PyRepr.

(** ** The benchmark history *)

Module BenchmarkResultsHelper.

(** One record of the history file. *)
Record BenchmarkResult := {
  timestamp : string;
  device : string;
  test_type : string;
  options : option (string * string);
  summary : string;
  raw_output : string
}.

(** [str(options)] for the dictionary of the two options, empty before
    the Options step. *)
Definition options_str (options : option (string * string)) : string :=
  match options with
  | None => "{}"
  | Some (size, duration) =>
      "{'size': " +:+ PyRepr.repr_str size +:+ ", 'duration': "
      +:+ PyRepr.repr_str duration +:+ "}"
  end.

(** What the wizard reads of one entry of the history file: the string
    under its key [device] (the result of [r.get("device")], which only
    an object has; [None] when the key is missing or holds no string),
    and the caption of its row, which needs the keys [timestamp],
    [test_type], [options] and [summary]. *)
Record Entry := {
  entry_device : result (option string);
  entry_caption : result string
}.

(** The caption of the row of a result. *)
Definition caption (r : BenchmarkResult) : string :=
  timestamp r +:+ ": " +:+ test_type r +:+ " " +:+ options_str (options r)
  +:+ " " +:+ summary r.

(** The entry [save_result] writes for a result. *)
Definition written (r : BenchmarkResult) : Entry :=
  {| entry_device := Ok (Some (device r));
     entry_caption := Ok (caption r) |}.

(** [get_results_for_device(device)] on the entries [load_results()]
    returns: the comprehension asks every entry for its device, in
    order. *)
Fixpoint get_results_for_device (results : list Entry) (dev : string)
  : result (list Entry) :=
  match results with
  | [] => Ok []
  | r :: rest =>
      d ← entry_device r;
      kept ← get_results_for_device rest dev;
      Ok (if bool_decide (d = Some dev) then r :: kept else kept)
  end.

End BenchmarkResultsHelper.

(** ** The machine and the toolkit, as the wizards use them *)

Module Sys.

(** What a handler can ask of the machine while it runs: the outcome of
    a process by its command line, [json.loads], [shutil.which],
    [glob.glob], [os.path.exists], [os.path.isdir], the time as
    [datetime.now().isoformat()] gives it, the entries of the benchmark
    history file (none when the file is missing or unreadable) and the
    exception that [save_result] raises, if any. *)
Record World := {
  run : list string -> result CompletedProcess;
  json_loads : string -> result pyval;
  which : string -> bool;
  glob : string -> list string;
  path_exists : string -> bool;
  isdir : string -> bool;
  clock : string;
  stored_results : list BenchmarkResultsHelper.Entry;
  store_error : option exn
}.

(** What a handler does to the outside, in order: an error dialog, a
    command launched in a terminal, a callback queued with
    [GLib.idle_add], the refresh callback, closing the window, and an
    exception that leaves the handler. *)
Inductive effect (C : Type) :=
  | ShowError (message : string)
  | Launch (argv : list string)
  | IdleAdd (callback : C)
  | Refresh
  | Close
  | Uncaught (e : exn).
Arguments ShowError {C} message.
Arguments Launch {C} argv.
Arguments IdleAdd {C} callback.
Arguments Refresh {C}.
Arguments Close {C}.
Arguments Uncaught {C} e.

Definition terminals : list string :=
  ["gnome-terminal"; "x-terminal-emulator"; "xterm"; "konsole";
   "xfce4-terminal"; "lxterminal"].

(** [DriveInfo.detect_terminal()] *)
Definition detect_terminal (w : World) : option string :=
  List.find (which w) terminals.

Definition no_terminal : string :=
  "No supported terminal emulator found. Please install gnome-terminal, xterm, or similar.".

Definition pause : string :=
  "; read -n 1 -s -r -p 'Press any key to close...'".

(** The command line that runs [shell_cmd] in the terminal [term]. *)
Definition terminal_command (term shell_cmd : string) : list string :=
  if (contains term "gnome-terminal" || contains term "xfce4-terminal"
      || contains term "lxterminal")%bool
  then [term; "--"; "bash"; "-c"; shell_cmd]
  else [term; "-e"; "bash"; "-c"; shell_cmd].

(** [DriveInfo.get_drives()], which always returns a list. *)
Definition drives (w : World) : list DriveInfo.Drive :=
  match DriveInfo.get_drives (json_loads w)
          (run w ["lsblk"; "-d"; "-J"; "-o";
                  "NAME,SIZE,MODEL,TRAN,ROTA,TYPE,HOTPLUG,RM"]) with
  | Ok l => l
  | Raise _ => []
  end.

End Sys.

Module RaidManager.
Import Sys.

Record RaidArray := {
  name : string;
  level : string;
  status : string;
  devices : list string
}.

(** One line of /proc/mdstat. *)
Definition parse_line (line : string) : list RaidArray :=
  if startswith line "md" then
    let parts := split_ws line in
    if Nat.leb 4 (length parts) then
      [{| name := "/dev/" +:+ nth 0 parts EmptyString;
          level := nth 3 parts EmptyString;
          status := if contains line "active" then "active" else "inactive";
          devices := drop 4 parts |}]
    else []
  else [].

(** [RaidManager.get_raid_arrays()] *)
Definition get_raid_arrays (w : World) : list RaidArray :=
  match subprocess_run (run w ["cat"; "/proc/mdstat"]) true with
  | Ok res => concat (map parse_line (split_on "010" (stdout res)))
  | Raise _ => []
  end.

End RaidManager.

Module BcacheManager.
Import Sys.

Record BcacheDevice := {
  name : string;
  size : pyval;
  mountpoint : pyval
}.

Fixpoint collect (devices : list pyval) (found : list BcacheDevice)
  : result (list BcacheDevice) :=
  match devices with
  | [] => Ok found
  | device :: rest =>
      nm_lower ← py_get device "name" (PStr EmptyString) ≫= py_lower;
      if contains nm_lower "bcache" then
        nm ← py_getitem device "name" ≫= as_str "lower";
        sz ← py_get device "size" (PStr "Unknown");
        mp ← py_get device "mountpoint" (PStr "Not mounted");
        collect rest (found ++ [{| name := nm; size := sz;
                                   mountpoint := mp |}])
      else collect rest found
  end.

(** [BcacheManager.get_bcache_devices()] *)
Definition get_bcache_devices (w : World) : list BcacheDevice :=
  match (res ← subprocess_run
                 (run w ["lsblk"; "-J"; "-o"; "NAME,TYPE,SIZE,MOUNTPOINT"])
                 true;
         data ← json_loads w (stdout res);
         devices ← py_get data "blockdevices" (PList []) ≫= py_iter;
         collect devices []) with
  | Ok found => found
  | Raise _ => []
  end.

(** [BcacheManager.build_bcache_command(backing_device, cache_device)] *)
Definition build_bcache_command (backing_device : string)
    (cache_device : option string) : list string :=
  match cache_device with
  | Some c =>
      if str_truthy c
      then ["sudo"; "make-bcache"; "-B"; backing_device; "-C"; c]
      else ["sudo"; "make-bcache"; "-B"; backing_device]
  | None => ["sudo"; "make-bcache"; "-B"; backing_device]
  end.

End BcacheManager.

Module Gtk.

(** A button: whether it reacts, whether it is shown, its label. *)
Record Button := {
  btn_sensitive : bool;
  btn_visible : bool;
  btn_label : string
}.

Definition new_button (label : string) : Button :=
  {| btn_sensitive := true; btn_visible := true; btn_label := label |}.

Definition set_sensitive (v : bool) (b : Button) : Button :=
  {| btn_sensitive := v; btn_visible := btn_visible b;
     btn_label := btn_label b |}.

Definition set_visible (v : bool) (b : Button) : Button :=
  {| btn_sensitive := btn_sensitive b; btn_visible := v;
     btn_label := btn_label b |}.

Definition set_label (v : string) (b : Button) : Button :=
  {| btn_sensitive := btn_sensitive b; btn_visible := btn_visible b;
     btn_label := v |}.

(** A label: its text and whether it is shown. *)
Record Label := {
  lbl_text : string;
  lbl_visible : bool
}.

Definition new_label (text : string) : Label :=
  {| lbl_text := text; lbl_visible := true |}.

Definition set_text (v : string) (l : Label) : Label :=
  {| lbl_text := v; lbl_visible := lbl_visible l |}.

Definition show_label (v : bool) (l : Label) : Label :=
  {| lbl_text := lbl_text l; lbl_visible := v |}.

(** A list box: for each row the device it stands for (its [device]
    attribute; for a fixed list, its caption), and the indices of the
    selected rows in row order. *)
Record ListBox := {
  lb_rows : list string;
  lb_selected : list nat
}.

Definition new_listbox (rows : list string) : ListBox :=
  {| lb_rows := rows; lb_selected := [] |}.

(** Removing every row and appending new ones: nothing is selected. *)
Definition repopulate (rows : list string) (lb : ListBox) : ListBox :=
  new_listbox rows.

(** [get_selected_rows()], as the devices of the rows. *)
Definition get_selected_rows (lb : ListBox) : list string :=
  omap (fun i => lb_rows lb !! i) (lb_selected lb).

(** [get_selected_row()], as its index. *)
Definition get_selected_index (lb : ListBox) : option nat :=
  head (List.filter (fun i => Nat.ltb i (length (lb_rows lb)))
          (lb_selected lb)).

(** [get_selected_row()], as its device. *)
Definition get_selected_row (lb : ListBox) : option string :=
  head (get_selected_rows lb).

(** The user changes the selection; a box in single mode keeps at most
    one row. *)
Definition select (multiple : bool) (idxs : list nat) (lb : ListBox)
  : ListBox :=
  let valid := List.filter (fun i => Nat.ltb i (length (lb_rows lb))) idxs in
  {| lb_rows := lb_rows lb;
     lb_selected := if multiple then valid else take 1 valid |}.

End Gtk.

(** ** The RAID wizard *)

Module RaidWizard.
Import Sys Gtk.

(** The pages of the stack. *)
Inductive page :=
  | intro_box | level_box | drive_box | cleanse_box | review_box
  | result_box.

#[global] Instance page_eq_dec : EqDecision page.
Proof. solve_decision. Defined.

(** The attributes and widgets of the window that its handlers read or
    write.  The two wiped flags are created by [_update_cleanse_ui], which
    runs before anything reads them; they start here as [false]. *)
Record State := Build_State {
  current_step : Z;
  selected_level : option Z;
  selected_drives : list string;
  drive1_wiped : bool;
  drive2_wiped : bool;
  visible_child : page;
  back_btn : Button;
  next_btn : Button;
  finish_btn : Button;
  level_list : ListBox;
  drive_list : ListBox;
  wipe_drive1_btn : Button;
  wipe_drive2_btn : Button;
  wipe_drive1_status : Label;
  wipe_drive2_status : Label;
  review_summary : Label;
  result_label : Label
}.

Definition set_current_step (v : Z) (s : State) : State :=
  let 'Build_State x0 x1 x2 x3 x4 x5 x6 x7 x8 x9 x10 x11 x12 x13 x14 x15
    x16 := s in
  Build_State v x1 x2 x3 x4 x5 x6 x7 x8 x9 x10 x11 x12 x13 x14 x15 x16.

Definition set_selected_level (v : option Z) (s : State) : State :=
  let 'Build_State x0 x1 x2 x3 x4 x5 x6 x7 x8 x9 x10 x11 x12 x13 x14 x15
    x16 := s in
  Build_State x0 v x2 x3 x4 x5 x6 x7 x8 x9 x10 x11 x12 x13 x14 x15 x16.

Definition set_selected_drives (v : list string) (s : State) : State :=
  let 'Build_State x0 x1 x2 x3 x4 x5 x6 x7 x8 x9 x10 x11 x12 x13 x14 x15
    x16 := s in
  Build_State x0 x1 v x3 x4 x5 x6 x7 x8 x9 x10 x11 x12 x13 x14 x15 x16.

Definition set_drive1_wiped (v : bool) (s : State) : State :=
  let 'Build_State x0 x1 x2 x3 x4 x5 x6 x7 x8 x9 x10 x11 x12 x13 x14 x15
    x16 := s in
  Build_State x0 x1 x2 v x4 x5 x6 x7 x8 x9 x10 x11 x12 x13 x14 x15 x16.

Definition set_drive2_wiped (v : bool) (s : State) : State :=
  let 'Build_State x0 x1 x2 x3 x4 x5 x6 x7 x8 x9 x10 x11 x12 x13 x14 x15
    x16 := s in
  Build_State x0 x1 x2 x3 v x5 x6 x7 x8 x9 x10 x11 x12 x13 x14 x15 x16.

Definition set_visible_child (v : page) (s : State) : State :=
  let 'Build_State x0 x1 x2 x3 x4 x5 x6 x7 x8 x9 x10 x11 x12 x13 x14 x15
    x16 := s in
  Build_State x0 x1 x2 x3 x4 v x6 x7 x8 x9 x10 x11 x12 x13 x14 x15 x16.

Definition set_back_btn (v : Button) (s : State) : State :=
  let 'Build_State x0 x1 x2 x3 x4 x5 x6 x7 x8 x9 x10 x11 x12 x13 x14 x15
    x16 := s in
  Build_State x0 x1 x2 x3 x4 x5 v x7 x8 x9 x10 x11 x12 x13 x14 x15 x16.

Definition set_next_btn (v : Button) (s : State) : State :=
  let 'Build_State x0 x1 x2 x3 x4 x5 x6 x7 x8 x9 x10 x11 x12 x13 x14 x15
    x16 := s in
  Build_State x0 x1 x2 x3 x4 x5 x6 v x8 x9 x10 x11 x12 x13 x14 x15 x16.

Definition set_finish_btn (v : Button) (s : State) : State :=
  let 'Build_State x0 x1 x2 x3 x4 x5 x6 x7 x8 x9 x10 x11 x12 x13 x14 x15
    x16 := s in
  Build_State x0 x1 x2 x3 x4 x5 x6 x7 v x9 x10 x11 x12 x13 x14 x15 x16.

Definition set_level_list (v : ListBox) (s : State) : State :=
  let 'Build_State x0 x1 x2 x3 x4 x5 x6 x7 x8 x9 x10 x11 x12 x13 x14 x15
    x16 := s in
  Build_State x0 x1 x2 x3 x4 x5 x6 x7 x8 v x10 x11 x12 x13 x14 x15 x16.

Definition set_drive_list (v : ListBox) (s : State) : State :=
  let 'Build_State x0 x1 x2 x3 x4 x5 x6 x7 x8 x9 x10 x11 x12 x13 x14 x15
    x16 := s in
  Build_State x0 x1 x2 x3 x4 x5 x6 x7 x8 x9 v x11 x12 x13 x14 x15 x16.

Definition set_wipe_drive1_btn (v : Button) (s : State) : State :=
  let 'Build_State x0 x1 x2 x3 x4 x5 x6 x7 x8 x9 x10 x11 x12 x13 x14 x15
    x16 := s in
  Build_State x0 x1 x2 x3 x4 x5 x6 x7 x8 x9 x10 v x12 x13 x14 x15 x16.

Definition set_wipe_drive2_btn (v : Button) (s : State) : State :=
  let 'Build_State x0 x1 x2 x3 x4 x5 x6 x7 x8 x9 x10 x11 x12 x13 x14 x15
    x16 := s in
  Build_State x0 x1 x2 x3 x4 x5 x6 x7 x8 x9 x10 x11 v x13 x14 x15 x16.

Definition set_wipe_drive1_status (v : Label) (s : State) : State :=
  let 'Build_State x0 x1 x2 x3 x4 x5 x6 x7 x8 x9 x10 x11 x12 x13 x14 x15
    x16 := s in
  Build_State x0 x1 x2 x3 x4 x5 x6 x7 x8 x9 x10 x11 x12 v x14 x15 x16.

Definition set_wipe_drive2_status (v : Label) (s : State) : State :=
  let 'Build_State x0 x1 x2 x3 x4 x5 x6 x7 x8 x9 x10 x11 x12 x13 x14 x15
    x16 := s in
  Build_State x0 x1 x2 x3 x4 x5 x6 x7 x8 x9 x10 x11 x12 x13 v x15 x16.

Definition set_review_summary (v : Label) (s : State) : State :=
  let 'Build_State x0 x1 x2 x3 x4 x5 x6 x7 x8 x9 x10 x11 x12 x13 x14 x15
    x16 := s in
  Build_State x0 x1 x2 x3 x4 x5 x6 x7 x8 x9 x10 x11 x12 x13 x14 v x16.

Definition set_result_label (v : Label) (s : State) : State :=
  let 'Build_State x0 x1 x2 x3 x4 x5 x6 x7 x8 x9 x10 x11 x12 x13 x14 x15
    x16 := s in
  Build_State x0 x1 x2 x3 x4 x5 x6 x7 x8 x9 x10 x11 x12 x13 x14 x15 v.

(** The window after [__init__] has run [_setup_ui], before its call of
    [_show_step(0)]. *)
Definition setup_ui : State :=
  {| current_step := 0;
     selected_level := None;
     selected_drives := [];
     drive1_wiped := false;
     drive2_wiped := false;
     visible_child := intro_box;
     back_btn := new_button "Back";
     next_btn := new_button "Next";
     finish_btn := set_sensitive false (new_button "Finish");
     level_list := new_listbox ["RAID 0 (Stripe)"; "RAID 1 (Mirror)"];
     drive_list := new_listbox [];
     wipe_drive1_btn := new_button "Wipe Drive 1";
     wipe_drive2_btn := new_button "Wipe Drive 2";
     wipe_drive1_status := new_label "Not wiped yet.";
     wipe_drive2_status := new_label "Not wiped yet.";
     review_summary := new_label EmptyString;
     result_label := new_label EmptyString |}.

(** The four calls every step but the last makes: the visible page,
    the two navigation buttons and the caption of Next. *)
Definition navigate (pg : page) (back next : bool) (caption : string)
    (st : State) : State :=
  let st := set_visible_child pg st in
  let st := set_back_btn (set_sensitive back (back_btn st)) st in
  let st := set_next_btn (set_sensitive next (next_btn st)) st in
  set_next_btn (set_label caption (next_btn st)) st.

(** [_populate_drive_list()]: arrays, bcache devices, further
    /dev/bcache* nodes, then the disks. *)
Definition populate_drive_list (w : World) (st : State) : State :=
  let arrays := map RaidManager.name (RaidManager.get_raid_arrays w) in
  let bcache_names :=
    map (fun b => "/dev/" +:+ BcacheManager.name b)
        (BcacheManager.get_bcache_devices w) in
  let nodes :=
    List.filter
      (fun path => (path_exists w path
                    && negb (bool_decide (path ∈ bcache_names)))%bool)
      (glob w "/dev/bcache*") in
  let disks := map DriveInfo.name (drives w) in
  set_drive_list
    (repopulate (arrays ++ bcache_names ++ nodes ++ disks) (drive_list st)) st.

(** [_update_cleanse_ui()] *)
Definition update_cleanse_ui (st : State) : State :=
  let st := set_drive1_wiped false st in
  let st := set_drive2_wiped false st in
  let st := set_wipe_drive1_status
              (set_text "Not wiped yet." (wipe_drive1_status st)) st in
  let st := set_wipe_drive2_status
              (set_text "Not wiped yet." (wipe_drive2_status st)) st in
  let st := set_wipe_drive1_btn (set_sensitive true (wipe_drive1_btn st)) st in
  set_wipe_drive2_btn (set_sensitive true (wipe_drive2_btn st)) st.

(** [_populate_review()] *)
Definition populate_review (st : State) : State :=
  let level_str :=
    match selected_level st with
    | Some 0 => "RAID 0 (Stripe)"
    | _ => "RAID 1 (Mirror)"
    end in
  let drives_str := join (String "010" EmptyString) (selected_drives st) in
  set_review_summary
    (set_text ("RAID Level: " +:+ level_str +:+ String "010" "Drives:"
               +:+ String "010" drives_str +:+ String "010" (String "010"
               "Are you sure you want to proceed? This will erase all data on the selected drives."))
       (review_summary st)) st.

(** [_show_step(step)] *)
Definition show_step (w : World) (step : Z) (st : State) : State :=
  let st := set_current_step step st in
  match step with
  | 0 => navigate intro_box false true "Next" st
  | 1 => navigate level_box true true "Next" st
  | 2 => navigate drive_box true true "Next" (populate_drive_list w st)
  | 3 =>
      let st := update_cleanse_ui st in
      navigate cleanse_box true (drive1_wiped st && drive2_wiped st) "Next" st
  | 4 => navigate review_box true true "Confirm" (populate_review st)
  | 5 =>
      let st := set_visible_child result_box st in
      let st := set_back_btn (set_sensitive false (back_btn st)) st in
      let st := set_next_btn (set_sensitive false (next_btn st)) st in
      set_finish_btn (set_sensitive false (finish_btn st)) st
  | _ => st
  end.

(** [RaidWizard(parent)] *)
Definition init (w : World) : State := show_step w 0 setup_ui.

(** The loop over [range(0, 10)] with its [break] and its [else]. *)
Fixpoint scan_names (candidates : list nat) (used_names : gset string)
  : string :=
  match candidates with
  | [] => "md10"
  | i :: rest =>
      let array_name := "md" +:+ pretty i in
      if decide ("/dev/" +:+ array_name ∉ used_names) then array_name
      else scan_names rest used_names
  end.

(** The array name the worker chooses. *)
Definition choose_array_name (w : World) : string :=
  let used_names : gset string :=
    list_to_set (map RaidManager.name (RaidManager.get_raid_arrays w)) in
  scan_names (seq 0 10) used_names.

(** [f"{level}"] for the selected level. *)
Definition level_str (level : option Z) : string :=
  match level with
  | Some l => pretty l
  | None => "None"
  end.

(** The shell command of the worker. *)
Definition mdadm_cmd (array_name : string) (level : option Z)
    (device0 device1 : string) : string :=
  "sudo mdadm --create /dev/" +:+ array_name +:+ " --level="
  +:+ level_str level +:+ " --raid-devices=2 " +:+ shlex_quote device0
  +:+ " " +:+ shlex_quote device1 +:+ pause.

(** The arguments of a queued [_show_raid_result]. *)
Definition callback : Type := bool * string.

(** The worker thread of [_run_raid_creation], run to its end. *)
Definition worker (w : World) (st : State) : list (effect callback) :=
  let array_name := choose_array_name w in
  match detect_terminal w with
  | None => [IdleAdd (false, no_terminal)]
  | Some term =>
      match selected_drives st with
      | device0 :: device1 :: _ =>
          let cmd :=
            terminal_command term
              (mdadm_cmd array_name (selected_level st) device0 device1) in
          match subprocess_run (run w cmd) true with
          | Ok _ =>
              [Launch cmd;
               IdleAdd (true, "RAID array /dev/" +:+ array_name
                              +:+ " created (check terminal for details)")]
          | Raise e =>
              [Launch cmd;
               IdleAdd (false, "Failed to create RAID array: " +:+ exn_msg e)]
          end
      | _ => [Uncaught (Exn IndexError "list index out of range")]
      end
  end.

(** [_run_raid_creation()] *)
Definition run_raid_creation (w : World) (st : State)
  : State * list (effect callback) :=
  let st := set_result_label
              (set_text "Creating RAID array... Please wait."
                 (result_label st)) st in
  let st := set_finish_btn (set_sensitive false (finish_btn st)) st in
  (st, worker w st).

(** [_show_raid_result(success, msg)]; [has_refresh] tells whether a
    refresh callback was given to the wizard. *)
Definition show_raid_result (has_refresh : bool) (success : bool)
    (msg : string) (st : State) : State * list (effect callback) :=
  let nl2 := String "010" (String "010" EmptyString) in
  let st :=
    set_result_label
      (set_text
         (if success
          then "<span foreground='green' weight='bold'>RAID array created successfully!</span>"
               +:+ nl2 +:+ msg
          else "<span foreground='red' weight='bold'>Failed to create RAID array.</span>"
               +:+ nl2 +:+ msg)
         (result_label st)) st in
  (set_finish_btn (set_sensitive true (finish_btn st)) st,
   if (success && has_refresh)%bool then [Refresh] else []).

(** The forward gates of [_on_next]. *)
Definition level_gate (st : State) : bool :=
  bool_decide (is_Some (get_selected_index (level_list st))).

Definition drives_gate (st : State) : bool :=
  Nat.eqb (length (get_selected_rows (drive_list st))) 2.

Definition cleanse_gate (st : State) : bool :=
  negb (negb (drive1_wiped st) || negb (drive2_wiped st)).

(** [_on_next(btn)] *)
Definition on_next (w : World) (st : State)
  : State * list (effect callback) :=
  match current_step st with
  | 0 => (show_step w 1 st, [])
  | 1 =>
      match get_selected_index (level_list st) with
      | None => (st, [ShowError "Please select a RAID level to continue."])
      | Some i =>
          let st := set_selected_level
                      (Some (if Nat.eqb i 0 then 0 else 1)) st in
          (show_step w 2 st, [])
      end
  | 2 =>
      let selected_rows := get_selected_rows (drive_list st) in
      if negb (Nat.eqb (length selected_rows) 2)
      then (st, [ShowError "Please select exactly two drives."])
      else (show_step w 3 (set_selected_drives selected_rows st), [])
  | 3 =>
      if (negb (drive1_wiped st) || negb (drive2_wiped st))%bool
      then (st, [ShowError "You must wipe both drives before proceeding."])
      else (show_step w 4 st, [])
  | 4 => run_raid_creation w (show_step w 5 st)
  | _ => (st, [])
  end.

(** [_on_back(btn)] *)
Definition on_back (w : World) (st : State) : State :=
  match current_step st with
  | 1 => show_step w 0 st
  | 2 => show_step w 1 st
  | 3 => show_step w 2 st
  | _ => st
  end.

(** [_launch_wipefs(device, is_drive2)] *)
Definition launch_wipefs (w : World) (device : string) (is_drive2 : bool)
    (st : State) : State * list (effect callback) :=
  match detect_terminal w with
  | None => (st, [ShowError no_terminal])
  | Some term =>
      let cmd :=
        terminal_command term
          ("sudo wipefs -a " +:+ shlex_quote device +:+ pause) in
      match subprocess_run (run w cmd) true with
      | Ok _ =>
          let st :=
            if is_drive2 then
              set_wipe_drive2_status
                (set_text "Drive 2 wiped." (wipe_drive2_status st))
                (set_drive2_wiped true st)
            else
              set_wipe_drive1_status
                (set_text "Drive 1 wiped." (wipe_drive1_status st))
                (set_drive1_wiped true st) in
          (set_next_btn
             (set_sensitive (drive1_wiped st && drive2_wiped st)
                (next_btn st)) st,
           [Launch cmd])
      | Raise e =>
          (if is_drive2 then
             set_wipe_drive2_status
               (set_text ("Failed: " +:+ exn_msg e) (wipe_drive2_status st)) st
           else
             set_wipe_drive1_status
               (set_text ("Failed: " +:+ exn_msg e) (wipe_drive1_status st)) st,
           [Launch cmd])
      end
  end.

(** [_on_wipe_drive1(btn)] and [_on_wipe_drive2(btn)] *)
Definition on_wipe_drive (w : World) (is_drive2 : bool) (st : State)
  : State * list (effect callback) :=
  match selected_drives st !! (if is_drive2 then 1 else 0)%nat with
  | Some device => launch_wipefs w device is_drive2 st
  | None => (st, [Uncaught (Exn IndexError "list index out of range")])
  end.

(** What can happen to the window: a click on one of its buttons, a
    change of selection in one of its lists, or a queued result
    callback. *)
Inductive event :=
  | Next | Back | Cancel | Finish
  | WipeDrive1 | WipeDrive2
  | SelectLevel (idxs : list nat)
  | SelectDrives (idxs : list nat)
  | ShowRaidResult (success : bool) (msg : string).

Definition clickable (b : Button) : bool :=
  (btn_sensitive b && btn_visible b)%bool.

Definition on_page (pg : page) (st : State) : bool :=
  bool_decide (visible_child st = pg).

(** The toolkit only delivers a click to a button that is sensitive
    and on the visible page of the stack, and a selection to a list on
    the visible page; the navigation bar is always shown. *)
Definition enabled (st : State) (ev : event) : bool :=
  match ev with
  | Next => clickable (next_btn st)
  | Back => clickable (back_btn st)
  | Cancel => true
  | Finish => (on_page result_box st && clickable (finish_btn st))%bool
  | WipeDrive1 =>
      (on_page cleanse_box st && clickable (wipe_drive1_btn st))%bool
  | WipeDrive2 =>
      (on_page cleanse_box st && clickable (wipe_drive2_btn st))%bool
  | SelectLevel _ => on_page level_box st
  | SelectDrives _ => on_page drive_box st
  | ShowRaidResult _ _ => true
  end.

(** One turn of the main loop. *)
Definition handle (has_refresh : bool) (w : World) (st : State) (ev : event)
  : State * list (effect callback) :=
  if enabled st ev then
    match ev with
    | Next => on_next w st
    | Back => (on_back w st, [])
    | Cancel | Finish => (st, [Close])
    | WipeDrive1 => on_wipe_drive w false st
    | WipeDrive2 => on_wipe_drive w true st
    | SelectLevel idxs =>
        (set_level_list (select false idxs (level_list st)) st, [])
    | SelectDrives idxs =>
        (set_drive_list (select true idxs (drive_list st)) st, [])
    | ShowRaidResult success msg => show_raid_result has_refresh success msg st
    end
  else (st, []).

(** A run of the main loop: each event with the machine as it is when
    the event is handled. *)
Definition run_events (has_refresh : bool) (evs : list (World * event))
    (st : State) : State :=
  fold_left (fun st we => fst (handle has_refresh (fst we) st (snd we)))
    evs st.

End RaidWizard.


(** ** The Bcache wizard *)

Module BcacheWizard.
Import Sys Gtk.

(** The pages of the stack. *)
Inductive page :=
  | intro_box | backing_box | cache_box | detach_box | cleanse_box
  | review_box | result_box.

#[global] Instance page_eq_dec : EqDecision page.
Proof. solve_decision. Defined.

(** The attributes and widgets of the window that its handlers read or
    write.  The detach and wiped flags are created by [_update_detach_ui]
    and [_update_cleanse_ui], which run before anything reads them; they
    start here as [false]. *)
Record State := Build_State {
  current_step : Z;
  selected_backing : option string;
  selected_cache : option string;
  backing_needs_detach : bool;
  cache_needs_detach : bool;
  backing_detached : bool;
  cache_detached : bool;
  backing_wiped : bool;
  cache_wiped : bool;
  visible_child : page;
  back_btn : Button;
  next_btn : Button;
  finish_btn : Button;
  backing_list : ListBox;
  cache_list : ListBox;
  wipe_backing_btn : Button;
  wipe_cache_btn : Button;
  wipe_backing_status : Label;
  wipe_cache_status : Label;
  detach_warn : Label;
  detach_backing_btn : Button;
  detach_cache_btn : Button;
  detach_backing_status : Label;
  detach_cache_status : Label;
  review_summary : Label;
  result_label : Label
}.

Definition set_current_step (v : Z) (s : State) : State :=
  let 'Build_State x0 x1 x2 x3 x4 x5 x6 x7 x8 x9 x10 x11 x12 x13 x14 x15
    x16 x17 x18 x19 x20 x21 x22 x23 x24 x25 := s in
  Build_State v x1 x2 x3 x4 x5 x6 x7 x8 x9 x10 x11 x12 x13 x14 x15 x16 x17
    x18 x19 x20 x21 x22 x23 x24 x25.

Definition set_selected_backing (v : option string) (s : State) : State :=
  let 'Build_State x0 x1 x2 x3 x4 x5 x6 x7 x8 x9 x10 x11 x12 x13 x14 x15
    x16 x17 x18 x19 x20 x21 x22 x23 x24 x25 := s in
  Build_State x0 v x2 x3 x4 x5 x6 x7 x8 x9 x10 x11 x12 x13 x14 x15 x16 x17
    x18 x19 x20 x21 x22 x23 x24 x25.

Definition set_selected_cache (v : option string) (s : State) : State :=
  let 'Build_State x0 x1 x2 x3 x4 x5 x6 x7 x8 x9 x10 x11 x12 x13 x14 x15
    x16 x17 x18 x19 x20 x21 x22 x23 x24 x25 := s in
  Build_State x0 x1 v x3 x4 x5 x6 x7 x8 x9 x10 x11 x12 x13 x14 x15 x16 x17
    x18 x19 x20 x21 x22 x23 x24 x25.

Definition set_backing_needs_detach (v : bool) (s : State) : State :=
  let 'Build_State x0 x1 x2 x3 x4 x5 x6 x7 x8 x9 x10 x11 x12 x13 x14 x15
    x16 x17 x18 x19 x20 x21 x22 x23 x24 x25 := s in
  Build_State x0 x1 x2 v x4 x5 x6 x7 x8 x9 x10 x11 x12 x13 x14 x15 x16 x17
    x18 x19 x20 x21 x22 x23 x24 x25.

Definition set_cache_needs_detach (v : bool) (s : State) : State :=
  let 'Build_State x0 x1 x2 x3 x4 x5 x6 x7 x8 x9 x10 x11 x12 x13 x14 x15
    x16 x17 x18 x19 x20 x21 x22 x23 x24 x25 := s in
  Build_State x0 x1 x2 x3 v x5 x6 x7 x8 x9 x10 x11 x12 x13 x14 x15 x16 x17
    x18 x19 x20 x21 x22 x23 x24 x25.

Definition set_backing_detached (v : bool) (s : State) : State :=
  let 'Build_State x0 x1 x2 x3 x4 x5 x6 x7 x8 x9 x10 x11 x12 x13 x14 x15
    x16 x17 x18 x19 x20 x21 x22 x23 x24 x25 := s in
  Build_State x0 x1 x2 x3 x4 v x6 x7 x8 x9 x10 x11 x12 x13 x14 x15 x16 x17
    x18 x19 x20 x21 x22 x23 x24 x25.

Definition set_cache_detached (v : bool) (s : State) : State :=
  let 'Build_State x0 x1 x2 x3 x4 x5 x6 x7 x8 x9 x10 x11 x12 x13 x14 x15
    x16 x17 x18 x19 x20 x21 x22 x23 x24 x25 := s in
  Build_State x0 x1 x2 x3 x4 x5 v x7 x8 x9 x10 x11 x12 x13 x14 x15 x16 x17
    x18 x19 x20 x21 x22 x23 x24 x25.

Definition set_backing_wiped (v : bool) (s : State) : State :=
  let 'Build_State x0 x1 x2 x3 x4 x5 x6 x7 x8 x9 x10 x11 x12 x13 x14 x15
    x16 x17 x18 x19 x20 x21 x22 x23 x24 x25 := s in
  Build_State x0 x1 x2 x3 x4 x5 x6 v x8 x9 x10 x11 x12 x13 x14 x15 x16 x17
    x18 x19 x20 x21 x22 x23 x24 x25.

Definition set_cache_wiped (v : bool) (s : State) : State :=
  let 'Build_State x0 x1 x2 x3 x4 x5 x6 x7 x8 x9 x10 x11 x12 x13 x14 x15
    x16 x17 x18 x19 x20 x21 x22 x23 x24 x25 := s in
  Build_State x0 x1 x2 x3 x4 x5 x6 x7 v x9 x10 x11 x12 x13 x14 x15 x16 x17
    x18 x19 x20 x21 x22 x23 x24 x25.

Definition set_visible_child (v : page) (s : State) : State :=
  let 'Build_State x0 x1 x2 x3 x4 x5 x6 x7 x8 x9 x10 x11 x12 x13 x14 x15
    x16 x17 x18 x19 x20 x21 x22 x23 x24 x25 := s in
  Build_State x0 x1 x2 x3 x4 x5 x6 x7 x8 v x10 x11 x12 x13 x14 x15 x16 x17
    x18 x19 x20 x21 x22 x23 x24 x25.

Definition set_back_btn (v : Button) (s : State) : State :=
  let 'Build_State x0 x1 x2 x3 x4 x5 x6 x7 x8 x9 x10 x11 x12 x13 x14 x15
    x16 x17 x18 x19 x20 x21 x22 x23 x24 x25 := s in
  Build_State x0 x1 x2 x3 x4 x5 x6 x7 x8 x9 v x11 x12 x13 x14 x15 x16 x17
    x18 x19 x20 x21 x22 x23 x24 x25.

Definition set_next_btn (v : Button) (s : State) : State :=
  let 'Build_State x0 x1 x2 x3 x4 x5 x6 x7 x8 x9 x10 x11 x12 x13 x14 x15
    x16 x17 x18 x19 x20 x21 x22 x23 x24 x25 := s in
  Build_State x0 x1 x2 x3 x4 x5 x6 x7 x8 x9 x10 v x12 x13 x14 x15 x16 x17
    x18 x19 x20 x21 x22 x23 x24 x25.

Definition set_finish_btn (v : Button) (s : State) : State :=
  let 'Build_State x0 x1 x2 x3 x4 x5 x6 x7 x8 x9 x10 x11 x12 x13 x14 x15
    x16 x17 x18 x19 x20 x21 x22 x23 x24 x25 := s in
  Build_State x0 x1 x2 x3 x4 x5 x6 x7 x8 x9 x10 x11 v x13 x14 x15 x16 x17
    x18 x19 x20 x21 x22 x23 x24 x25.

Definition set_backing_list (v : ListBox) (s : State) : State :=
  let 'Build_State x0 x1 x2 x3 x4 x5 x6 x7 x8 x9 x10 x11 x12 x13 x14 x15
    x16 x17 x18 x19 x20 x21 x22 x23 x24 x25 := s in
  Build_State x0 x1 x2 x3 x4 x5 x6 x7 x8 x9 x10 x11 x12 v x14 x15 x16 x17
    x18 x19 x20 x21 x22 x23 x24 x25.

Definition set_cache_list (v : ListBox) (s : State) : State :=
  let 'Build_State x0 x1 x2 x3 x4 x5 x6 x7 x8 x9 x10 x11 x12 x13 x14 x15
    x16 x17 x18 x19 x20 x21 x22 x23 x24 x25 := s in
  Build_State x0 x1 x2 x3 x4 x5 x6 x7 x8 x9 x10 x11 x12 x13 v x15 x16 x17
    x18 x19 x20 x21 x22 x23 x24 x25.

Definition set_wipe_backing_btn (v : Button) (s : State) : State :=
  let 'Build_State x0 x1 x2 x3 x4 x5 x6 x7 x8 x9 x10 x11 x12 x13 x14 x15
    x16 x17 x18 x19 x20 x21 x22 x23 x24 x25 := s in
  Build_State x0 x1 x2 x3 x4 x5 x6 x7 x8 x9 x10 x11 x12 x13 x14 v x16 x17
    x18 x19 x20 x21 x22 x23 x24 x25.

Definition set_wipe_cache_btn (v : Button) (s : State) : State :=
  let 'Build_State x0 x1 x2 x3 x4 x5 x6 x7 x8 x9 x10 x11 x12 x13 x14 x15
    x16 x17 x18 x19 x20 x21 x22 x23 x24 x25 := s in
  Build_State x0 x1 x2 x3 x4 x5 x6 x7 x8 x9 x10 x11 x12 x13 x14 x15 v x17
    x18 x19 x20 x21 x22 x23 x24 x25.

Definition set_wipe_backing_status (v : Label) (s : State) : State :=
  let 'Build_State x0 x1 x2 x3 x4 x5 x6 x7 x8 x9 x10 x11 x12 x13 x14 x15
    x16 x17 x18 x19 x20 x21 x22 x23 x24 x25 := s in
  Build_State x0 x1 x2 x3 x4 x5 x6 x7 x8 x9 x10 x11 x12 x13 x14 x15 x16 v
    x18 x19 x20 x21 x22 x23 x24 x25.

Definition set_wipe_cache_status (v : Label) (s : State) : State :=
  let 'Build_State x0 x1 x2 x3 x4 x5 x6 x7 x8 x9 x10 x11 x12 x13 x14 x15
    x16 x17 x18 x19 x20 x21 x22 x23 x24 x25 := s in
  Build_State x0 x1 x2 x3 x4 x5 x6 x7 x8 x9 x10 x11 x12 x13 x14 x15 x16
    x17 v x19 x20 x21 x22 x23 x24 x25.

Definition set_detach_warn (v : Label) (s : State) : State :=
  let 'Build_State x0 x1 x2 x3 x4 x5 x6 x7 x8 x9 x10 x11 x12 x13 x14 x15
    x16 x17 x18 x19 x20 x21 x22 x23 x24 x25 := s in
  Build_State x0 x1 x2 x3 x4 x5 x6 x7 x8 x9 x10 x11 x12 x13 x14 x15 x16
    x17 x18 v x20 x21 x22 x23 x24 x25.

Definition set_detach_backing_btn (v : Button) (s : State) : State :=
  let 'Build_State x0 x1 x2 x3 x4 x5 x6 x7 x8 x9 x10 x11 x12 x13 x14 x15
    x16 x17 x18 x19 x20 x21 x22 x23 x24 x25 := s in
  Build_State x0 x1 x2 x3 x4 x5 x6 x7 x8 x9 x10 x11 x12 x13 x14 x15 x16
    x17 x18 x19 v x21 x22 x23 x24 x25.

Definition set_detach_cache_btn (v : Button) (s : State) : State :=
  let 'Build_State x0 x1 x2 x3 x4 x5 x6 x7 x8 x9 x10 x11 x12 x13 x14 x15
    x16 x17 x18 x19 x20 x21 x22 x23 x24 x25 := s in
  Build_State x0 x1 x2 x3 x4 x5 x6 x7 x8 x9 x10 x11 x12 x13 x14 x15 x16
    x17 x18 x19 x20 v x22 x23 x24 x25.

Definition set_detach_backing_status (v : Label) (s : State) : State :=
  let 'Build_State x0 x1 x2 x3 x4 x5 x6 x7 x8 x9 x10 x11 x12 x13 x14 x15
    x16 x17 x18 x19 x20 x21 x22 x23 x24 x25 := s in
  Build_State x0 x1 x2 x3 x4 x5 x6 x7 x8 x9 x10 x11 x12 x13 x14 x15 x16
    x17 x18 x19 x20 x21 v x23 x24 x25.

Definition set_detach_cache_status (v : Label) (s : State) : State :=
  let 'Build_State x0 x1 x2 x3 x4 x5 x6 x7 x8 x9 x10 x11 x12 x13 x14 x15
    x16 x17 x18 x19 x20 x21 x22 x23 x24 x25 := s in
  Build_State x0 x1 x2 x3 x4 x5 x6 x7 x8 x9 x10 x11 x12 x13 x14 x15 x16
    x17 x18 x19 x20 x21 x22 v x24 x25.

Definition set_review_summary (v : Label) (s : State) : State :=
  let 'Build_State x0 x1 x2 x3 x4 x5 x6 x7 x8 x9 x10 x11 x12 x13 x14 x15
    x16 x17 x18 x19 x20 x21 x22 x23 x24 x25 := s in
  Build_State x0 x1 x2 x3 x4 x5 x6 x7 x8 x9 x10 x11 x12 x13 x14 x15 x16
    x17 x18 x19 x20 x21 x22 x23 v x25.

Definition set_result_label (v : Label) (s : State) : State :=
  let 'Build_State x0 x1 x2 x3 x4 x5 x6 x7 x8 x9 x10 x11 x12 x13 x14 x15
    x16 x17 x18 x19 x20 x21 x22 x23 x24 x25 := s in
  Build_State x0 x1 x2 x3 x4 x5 x6 x7 x8 x9 x10 x11 x12 x13 x14 x15 x16
    x17 x18 x19 x20 x21 x22 x23 x24 v.

(** The window after [_setup_ui]. *)
Definition setup_ui : State :=
  {| current_step := 0;
     selected_backing := None;
     selected_cache := None;
     backing_needs_detach := false;
     cache_needs_detach := false;
     backing_detached := false;
     cache_detached := false;
     backing_wiped := false;
     cache_wiped := false;
     visible_child := intro_box;
     back_btn := new_button "Back";
     next_btn := new_button "Next";
     finish_btn := set_sensitive false (new_button "Finish");
     backing_list := new_listbox [];
     cache_list := new_listbox [];
     wipe_backing_btn := new_button "Wipe Backing Device";
     wipe_cache_btn := new_button "Wipe Cache Device";
     wipe_backing_status := new_label "Not wiped yet.";
     wipe_cache_status := new_label "Not wiped yet.";
     detach_warn := new_label EmptyString;
     detach_backing_btn := new_button "Detach Backing Device from Bcache";
     detach_cache_btn := new_button "Detach Cache Device from Bcache";
     detach_backing_status := new_label "Not detached yet.";
     detach_cache_status := new_label "Not detached yet.";
     review_summary := new_label EmptyString;
     result_label := new_label EmptyString |}.

(** The four calls every step but the last makes: the visible page,
    the two navigation buttons and the caption of Next. *)
Definition navigate (pg : page) (back next : bool) (caption : string)
    (st : State) : State :=
  let st := set_visible_child pg st in
  let st := set_back_btn (set_sensitive back (back_btn st)) st in
  let st := set_next_btn (set_sensitive next (next_btn st)) st in
  set_next_btn (set_label caption (next_btn st)) st.

(** Truth value of an optional device: [None] and the empty string are
    false. *)
Definition chosen (device : option string) : bool :=
  match device with
  | Some d => str_truthy d
  | None => false
  end.

(** [_populate_backing_list()]: the arrays, then the disks that are
    neither USB nor NVMe and rotate. *)
Definition populate_backing_list (w : World) (st : State) : State :=
  let arrays := map RaidManager.name (RaidManager.get_raid_arrays w) in
  let hdds :=
    List.filter
      (fun d => (negb (DriveInfo.is_usb d) && negb (DriveInfo.is_nvme d)
                 && truthy (DriveInfo.rotational d))%bool)
      (drives w) in
  set_backing_list
    (repopulate (arrays ++ map DriveInfo.name hdds) (backing_list st)) st.

(** [_populate_cache_list()]: the disks that are not USB and do not
    rotate. *)
Definition populate_cache_list (w : World) (st : State) : State :=
  let ssds :=
    List.filter
      (fun d => (negb (DriveInfo.is_usb d)
                 && negb (truthy (DriveInfo.rotational d)))%bool)
      (drives w) in
  set_cache_list (repopulate (map DriveInfo.name ssds) (cache_list st)) st.

(** The sysfs entries that show [device] as a member of a bcache set. *)
Definition slaves (w : World) (device : string) : list string :=
  glob w ("/sys/block/bcache*/slaves/" +:+ basename device).

(** [_update_detach_ui()] *)
Definition update_detach_ui (w : World) (st : State) : State :=
  let st := set_backing_needs_detach false st in
  let st := set_cache_needs_detach false st in
  let st := set_backing_detached false st in
  let st := set_cache_detached false st in
  let st :=
    match selected_backing st with
    | Some device =>
        if str_truthy device then
          match slaves w device with
          | _ :: _ =>
              let st := set_backing_needs_detach true st in
              let st := set_detach_backing_btn
                          (set_visible true (detach_backing_btn st)) st in
              set_detach_backing_status
                (set_text "Not detached yet."
                   (show_label true (detach_backing_status st))) st
          | [] =>
              let st := set_detach_backing_btn
                          (set_visible false (detach_backing_btn st)) st in
              let st := set_detach_backing_status
                          (show_label false (detach_backing_status st)) st in
              set_backing_detached true st
          end
        else st
    | None => st
    end in
  let st :=
    match selected_cache st with
    | Some device =>
        if str_truthy device then
          match slaves w device with
          | _ :: _ =>
              let st := set_cache_needs_detach true st in
              let st := set_detach_cache_btn
                          (set_visible true (detach_cache_btn st)) st in
              set_detach_cache_status
                (set_text "Not detached yet."
                   (show_label true (detach_cache_status st))) st
          | [] =>
              let st := set_detach_cache_btn
                          (set_visible false (detach_cache_btn st)) st in
              let st := set_detach_cache_status
                          (show_label false (detach_cache_status st)) st in
              set_cache_detached true st
          end
        else st
    | None => st
    end in
  let name_of (device : option string) :=
    match device with Some d => d | None => "None" end in
  let warn :=
    (if backing_needs_detach st
     then ["Backing device " +:+ name_of (selected_backing st)
           +:+ " is currently attached to a bcache set. You must detach it before proceeding."]
     else [])
    ++ (if cache_needs_detach st
        then ["Cache device " +:+ name_of (selected_cache st)
              +:+ " is currently attached to a bcache set. You must detach it before proceeding."]
        else []) in
  let warn :=
    match warn with
    | [] => ["No devices need detaching. You can proceed."]
    | _ => warn
    end in
  let st := set_detach_warn
              (set_text (join (String "010" EmptyString) warn)
                 (detach_warn st)) st in
  if chosen (selected_cache st) then st
  else
    let st := set_detach_cache_btn
                (set_visible false (detach_cache_btn st)) st in
    set_detach_cache_status (show_label false (detach_cache_status st)) st.

(** [_update_cleanse_ui()] *)
Definition update_cleanse_ui (st : State) : State :=
  let st := set_backing_wiped false st in
  let st := set_cache_wiped false st in
  let st := set_wipe_backing_status
              (set_text "Not wiped yet." (wipe_backing_status st)) st in
  let st := set_wipe_cache_status
              (set_text "Not wiped yet." (wipe_cache_status st)) st in
  let st := set_wipe_backing_btn
              (set_sensitive true (wipe_backing_btn st)) st in
  if chosen (selected_cache st) then
    let st := set_wipe_cache_btn (set_visible true (wipe_cache_btn st)) st in
    let st := set_wipe_cache_status
                (show_label true (wipe_cache_status st)) st in
    set_wipe_cache_btn (set_sensitive true (wipe_cache_btn st)) st
  else
    let st := set_wipe_cache_btn (set_visible false (wipe_cache_btn st)) st in
    set_wipe_cache_status (show_label false (wipe_cache_status st)) st.

(** [_populate_review()] *)
Definition populate_review (st : State) : State :=
  let or_none (device : option string) :=
    match device with
    | Some d => if str_truthy d then d else "(none)"
    | None => "(none)"
    end in
  set_review_summary
    (set_text
       ("Backing device: " +:+ or_none (selected_backing st)
        +:+ String "010" "Cache device: " +:+ or_none (selected_cache st)
        +:+ String "010" (String "010"
        "Are you sure you want to proceed? This will erase all data on the selected drives."))
       (review_summary st)) st.

(** [can_next] of the detach step. *)
Definition detach_can_next (st : State) : bool :=
  ((negb (backing_needs_detach st) || backing_detached st)
   && (negb (cache_needs_detach st) || cache_detached st))%bool.

(** [can_next] of the cleanse step. *)
Definition cleanse_can_next (st : State) : bool :=
  (backing_wiped st
   && (bool_decide (selected_cache st = None) || cache_wiped st))%bool.

(** [_show_step(step)] *)
Definition show_step (w : World) (step : Z) (st : State) : State :=
  let st := set_current_step step st in
  match step with
  | 0 => navigate intro_box false true "Next" st
  | 1 => navigate backing_box true true "Next" (populate_backing_list w st)
  | 2 => navigate cache_box true true "Next" (populate_cache_list w st)
  | 3 =>
      let st := update_detach_ui w st in
      navigate detach_box true (detach_can_next st) "Next" st
  | 4 =>
      let st := update_cleanse_ui st in
      navigate cleanse_box true (cleanse_can_next st) "Next" st
  | 5 => navigate review_box true true "Confirm" (populate_review st)
  | 6 =>
      let st := set_visible_child result_box st in
      let st := set_back_btn (set_sensitive false (back_btn st)) st in
      let st := set_next_btn (set_sensitive false (next_btn st)) st in
      set_finish_btn (set_sensitive false (finish_btn st)) st
  | _ => st
  end.

(** [BcacheWizard(parent)] *)
Definition init (w : World) : State := show_step w 0 setup_ui.

(** The arguments of a queued [_show_bcache_result]. *)
Definition callback : Type := bool * string.

(** The worker thread of [_run_bcache_creation], run to its end. *)
Definition worker (w : World) (st : State) : list (effect callback) :=
  match detect_terminal w with
  | None => [IdleAdd (false, no_terminal)]
  | Some term =>
      match selected_backing st with
      | None => [Uncaught (Exn TypeError "expected string or bytes-like object")]
      | Some backing =>
          let cmd :=
            BcacheManager.build_bcache_command backing (selected_cache st) in
          let shell_cmd := join " " (map shlex_quote cmd) +:+ pause in
          let term_cmd := terminal_command term shell_cmd in
          match subprocess_run (run w term_cmd) true with
          | Ok _ =>
              match BcacheManager.get_bcache_devices w with
              | [] =>
                  [Launch term_cmd;
                   IdleAdd (false, "No bcache device found after creation.")]
              | devs =>
                  [Launch term_cmd;
                   IdleAdd (true, "Created bcache device(s): "
                                  +:+ PyRepr.repr_list
                                        (map BcacheManager.name devs))]
              end
          | Raise e =>
              [Launch term_cmd;
               IdleAdd (false, "Failed to launch terminal: " +:+ exn_msg e)]
          end
      end
  end.

(** [_run_bcache_creation()] *)
Definition run_bcache_creation (w : World) (st : State)
  : State * list (effect callback) :=
  let st := set_result_label
              (set_text "Creating Bcache device... Please wait."
                 (result_label st)) st in
  let st := set_finish_btn (set_sensitive false (finish_btn st)) st in
  (st, worker w st).

(** [_show_bcache_result(success, msg)] *)
Definition show_bcache_result (success : bool) (msg : string) (st : State)
  : State :=
  let nl2 := String "010" (String "010" EmptyString) in
  let st :=
    set_result_label
      (set_text
         (if success
          then "<span foreground='green' weight='bold'>Bcache device created successfully!</span>"
               +:+ nl2 +:+ msg
          else "<span foreground='red' weight='bold'>Failed to create Bcache device.</span>"
               +:+ nl2 +:+ msg)
         (result_label st)) st in
  set_finish_btn (set_sensitive true (finish_btn st)) st.

(** The forward gates of [_on_next]: what the handler tests before it
    advances. *)
Definition backing_gate (st : State) : bool :=
  bool_decide (is_Some (get_selected_row (backing_list st))).

Definition detach_gate (st : State) : bool :=
  negb ((backing_needs_detach st && negb (backing_detached st))
        || (cache_needs_detach st && negb (cache_detached st))).

Definition cleanse_gate (st : State) : bool :=
  negb (negb (backing_wiped st)
        || (chosen (selected_cache st) && negb (cache_wiped st))).

(** [_on_next(btn)] *)
Definition on_next (w : World) (st : State)
  : State * list (effect callback) :=
  match current_step st with
  | 0 => (show_step w 1 st, [])
  | 1 =>
      match get_selected_row (backing_list st) with
      | None =>
          (st, [ShowError "Please select a backing device (HDD) to continue."])
      | Some device =>
          (show_step w 2 (set_selected_backing (Some device) st), [])
      end
  | 2 =>
      let st :=
        match get_selected_row (cache_list st) with
        | Some device => set_selected_cache (Some device) st
        | None => st
        end in
      (show_step w 3 st, [])
  | 3 =>
      if ((backing_needs_detach st && negb (backing_detached st))
          || (cache_needs_detach st && negb (cache_detached st)))%bool
      then (st, [ShowError "You must detach all devices from bcache before proceeding."])
      else (show_step w 4 st, [])
  | 4 =>
      if (negb (backing_wiped st)
          || (chosen (selected_cache st) && negb (cache_wiped st)))%bool
      then (st, [ShowError "You must wipe both devices before proceeding."])
      else (show_step w 5 st, [])
  | 5 => run_bcache_creation w (show_step w 6 st)
  | _ => (st, [])
  end.

(** [_on_back(btn)] *)
Definition on_back (w : World) (st : State) : State :=
  match current_step st with
  | 1 => show_step w 0 st
  | 2 => show_step w 1 st
  | 3 => show_step w 2 st
  | 4 => show_step w 3 st
  | 5 => show_step w 4 st
  | _ => st
  end.

(** [_on_skip_cache(btn)] *)
Definition on_skip_cache (w : World) (st : State) : State :=
  show_step w 3 (set_selected_cache None st).

Definition not_a_string : exn :=
  Exn TypeError "expected string or bytes-like object".

(** [_launch_wipefs(device, is_cache)] *)
Definition launch_wipefs (w : World) (device : option string)
    (is_cache : bool) (st : State) : State * list (effect callback) :=
  match detect_terminal w with
  | None => (st, [ShowError no_terminal])
  | Some term =>
      match device with
      | None => (st, [Uncaught not_a_string])
      | Some device =>
          let cmd :=
            terminal_command term
              ("sudo wipefs -a " +:+ shlex_quote device +:+ pause) in
          match subprocess_run (run w cmd) true with
          | Ok _ =>
              let st :=
                if is_cache then
                  set_wipe_cache_status
                    (set_text "Cache device wiped." (wipe_cache_status st))
                    (set_cache_wiped true st)
                else
                  set_wipe_backing_status
                    (set_text "Backing device wiped."
                       (wipe_backing_status st))
                    (set_backing_wiped true st) in
              (set_next_btn
                 (set_sensitive (cleanse_can_next st) (next_btn st)) st,
               [Launch cmd])
          | Raise e =>
              (if is_cache then
                 set_wipe_cache_status
                   (set_text ("Failed: " +:+ exn_msg e)
                      (wipe_cache_status st)) st
               else
                 set_wipe_backing_status
                   (set_text ("Failed: " +:+ exn_msg e)
                      (wipe_backing_status st)) st,
               [Launch cmd])
          end
      end
  end.

(** [_launch_detach(device, is_cache)] *)
Definition launch_detach (w : World) (device : option string)
    (is_cache : bool) (st : State) : State * list (effect callback) :=
  match detect_terminal w with
  | None => (st, [ShowError no_terminal])
  | Some term =>
      match device with
      | None => (st, [Uncaught not_a_string])
      | Some device =>
          match slaves w device with
          | [] =>
              (if is_cache then
                 set_detach_cache_status
                   (set_text "Cache device already detached."
                      (detach_cache_status st))
                   (set_cache_detached true st)
               else
                 set_detach_backing_status
                   (set_text "Backing device already detached."
                      (detach_backing_status st))
                   (set_backing_detached true st),
               [])
          | path :: _ =>
              match split_on "/" path !! 3%nat with
              | None =>
                  (st, [Uncaught (Exn IndexError "list index out of range")])
              | Some bcache_block =>
                  let cmd :=
                    terminal_command term
                      ("echo 1 | sudo tee /sys/block/" +:+ bcache_block
                       +:+ "/bcache/detach" +:+ pause) in
                  match subprocess_run (run w cmd) true with
                  | Ok _ =>
                      let st :=
                        if is_cache then
                          set_detach_cache_status
                            (set_text "Cache device detached."
                               (detach_cache_status st))
                            (set_cache_detached true st)
                        else
                          set_detach_backing_status
                            (set_text "Backing device detached."
                               (detach_backing_status st))
                            (set_backing_detached true st) in
                      (set_next_btn
                         (set_sensitive (detach_can_next st) (next_btn st))
                         st,
                       [Launch cmd])
                  | Raise e =>
                      (if is_cache then
                         set_detach_cache_status
                           (set_text ("Failed: " +:+ exn_msg e)
                              (detach_cache_status st)) st
                       else
                         set_detach_backing_status
                           (set_text ("Failed: " +:+ exn_msg e)
                              (detach_backing_status st)) st,
                       [Launch cmd])
                  end
              end
          end
      end
  end.

(** What can happen to the window. *)
Inductive event :=
  | Next | Back | Cancel | Finish | SkipCache
  | WipeBacking | WipeCache | DetachBacking | DetachCache
  | SelectBacking (idxs : list nat)
  | SelectCache (idxs : list nat)
  | ShowBcacheResult (success : bool) (msg : string).

Definition clickable (b : Button) : bool :=
  (btn_sensitive b && btn_visible b)%bool.

Definition on_page (pg : page) (st : State) : bool :=
  bool_decide (visible_child st = pg).

(** The toolkit only delivers a click to a button that is sensitive,
    shown and on the visible page of the stack, and a selection to a
    list on the visible page; the navigation bar is always shown. *)
Definition enabled (st : State) (ev : event) : bool :=
  match ev with
  | Next => clickable (next_btn st)
  | Back => clickable (back_btn st)
  | Cancel => true
  | Finish => (on_page result_box st && clickable (finish_btn st))%bool
  | SkipCache => on_page cache_box st
  | WipeBacking =>
      (on_page cleanse_box st && clickable (wipe_backing_btn st))%bool
  | WipeCache =>
      (on_page cleanse_box st && clickable (wipe_cache_btn st))%bool
  | DetachBacking =>
      (on_page detach_box st && clickable (detach_backing_btn st))%bool
  | DetachCache =>
      (on_page detach_box st && clickable (detach_cache_btn st))%bool
  | SelectBacking _ => on_page backing_box st
  | SelectCache _ => on_page cache_box st
  | ShowBcacheResult _ _ => true
  end.

(** One turn of the main loop. *)
Definition handle (w : World) (st : State) (ev : event)
  : State * list (effect callback) :=
  if enabled st ev then
    match ev with
    | Next => on_next w st
    | Back => (on_back w st, [])
    | Cancel | Finish => (st, [Close])
    | SkipCache => (on_skip_cache w st, [])
    | WipeBacking => launch_wipefs w (selected_backing st) false st
    | WipeCache => launch_wipefs w (selected_cache st) true st
    | DetachBacking => launch_detach w (selected_backing st) false st
    | DetachCache => launch_detach w (selected_cache st) true st
    | SelectBacking idxs =>
        (set_backing_list (select false idxs (backing_list st)) st, [])
    | SelectCache idxs =>
        (set_cache_list (select false idxs (cache_list st)) st, [])
    | ShowBcacheResult success msg =>
        (show_bcache_result success msg st, [])
    end
  else (st, []).

(** A run of the main loop. *)
Definition run_events (evs : list (World * event)) (st : State) : State :=
  fold_left (fun st we => fst (handle (fst we) st (snd we))) evs st.

End BcacheWizard.

(** ** The fstab wizard *)

Module FstabWizard.
Import Sys Gtk.

(** The pages of the stack. *)
Inductive page :=
  | intro_box | drive_box | format_box | mp_box | fs_box | opt_box
  | label_box | review_box | done_box.

#[global] Instance page_eq_dec : EqDecision page.
Proof. solve_decision. Defined.

(** The attributes and widgets of the window that its handlers read or
    write.  The step is a number, the format step being 1.5; an entry is
    its text, the combo box the index of its active item; [volume_label]
    is [None] until the attribute is created. *)
Record State := Build_State {
  current_step : Q;
  selected_drive : option string;
  mount_point : option string;
  fs_type : option string;
  mount_options : option string;
  summary_line : option string;
  needs_format : bool;
  format_done : bool;
  volume_label : option string;
  visible_child : page;
  back_btn : Button;
  next_btn : Button;
  finish_btn : Button;
  drive_list : ListBox;
  mp_entry : string;
  fs_combo : option nat;
  opt_entry : string;
  label_entry : string;
  review_summary : Label;
  done_msg : Label;
  format_btn : Button;
  format_status : Label
}.

Definition set_current_step (v : Q) (s : State) : State :=
  let 'Build_State x0 x1 x2 x3 x4 x5 x6 x7 x8 x9 x10 x11 x12 x13 x14 x15
    x16 x17 x18 x19 x20 x21 := s in
  Build_State v x1 x2 x3 x4 x5 x6 x7 x8 x9 x10 x11 x12 x13 x14 x15 x16 x17
    x18 x19 x20 x21.

Definition set_selected_drive (v : option string) (s : State) : State :=
  let 'Build_State x0 x1 x2 x3 x4 x5 x6 x7 x8 x9 x10 x11 x12 x13 x14 x15
    x16 x17 x18 x19 x20 x21 := s in
  Build_State x0 v x2 x3 x4 x5 x6 x7 x8 x9 x10 x11 x12 x13 x14 x15 x16 x17
    x18 x19 x20 x21.

Definition set_mount_point (v : option string) (s : State) : State :=
  let 'Build_State x0 x1 x2 x3 x4 x5 x6 x7 x8 x9 x10 x11 x12 x13 x14 x15
    x16 x17 x18 x19 x20 x21 := s in
  Build_State x0 x1 v x3 x4 x5 x6 x7 x8 x9 x10 x11 x12 x13 x14 x15 x16 x17
    x18 x19 x20 x21.

Definition set_fs_type (v : option string) (s : State) : State :=
  let 'Build_State x0 x1 x2 x3 x4 x5 x6 x7 x8 x9 x10 x11 x12 x13 x14 x15
    x16 x17 x18 x19 x20 x21 := s in
  Build_State x0 x1 x2 v x4 x5 x6 x7 x8 x9 x10 x11 x12 x13 x14 x15 x16 x17
    x18 x19 x20 x21.

Definition set_mount_options (v : option string) (s : State) : State :=
  let 'Build_State x0 x1 x2 x3 x4 x5 x6 x7 x8 x9 x10 x11 x12 x13 x14 x15
    x16 x17 x18 x19 x20 x21 := s in
  Build_State x0 x1 x2 x3 v x5 x6 x7 x8 x9 x10 x11 x12 x13 x14 x15 x16 x17
    x18 x19 x20 x21.

Definition set_summary_line (v : option string) (s : State) : State :=
  let 'Build_State x0 x1 x2 x3 x4 x5 x6 x7 x8 x9 x10 x11 x12 x13 x14 x15
    x16 x17 x18 x19 x20 x21 := s in
  Build_State x0 x1 x2 x3 x4 v x6 x7 x8 x9 x10 x11 x12 x13 x14 x15 x16 x17
    x18 x19 x20 x21.

Definition set_needs_format (v : bool) (s : State) : State :=
  let 'Build_State x0 x1 x2 x3 x4 x5 x6 x7 x8 x9 x10 x11 x12 x13 x14 x15
    x16 x17 x18 x19 x20 x21 := s in
  Build_State x0 x1 x2 x3 x4 x5 v x7 x8 x9 x10 x11 x12 x13 x14 x15 x16 x17
    x18 x19 x20 x21.

Definition set_format_done (v : bool) (s : State) : State :=
  let 'Build_State x0 x1 x2 x3 x4 x5 x6 x7 x8 x9 x10 x11 x12 x13 x14 x15
    x16 x17 x18 x19 x20 x21 := s in
  Build_State x0 x1 x2 x3 x4 x5 x6 v x8 x9 x10 x11 x12 x13 x14 x15 x16 x17
    x18 x19 x20 x21.

Definition set_volume_label (v : option string) (s : State) : State :=
  let 'Build_State x0 x1 x2 x3 x4 x5 x6 x7 x8 x9 x10 x11 x12 x13 x14 x15
    x16 x17 x18 x19 x20 x21 := s in
  Build_State x0 x1 x2 x3 x4 x5 x6 x7 v x9 x10 x11 x12 x13 x14 x15 x16 x17
    x18 x19 x20 x21.

Definition set_visible_child (v : page) (s : State) : State :=
  let 'Build_State x0 x1 x2 x3 x4 x5 x6 x7 x8 x9 x10 x11 x12 x13 x14 x15
    x16 x17 x18 x19 x20 x21 := s in
  Build_State x0 x1 x2 x3 x4 x5 x6 x7 x8 v x10 x11 x12 x13 x14 x15 x16 x17
    x18 x19 x20 x21.

Definition set_back_btn (v : Button) (s : State) : State :=
  let 'Build_State x0 x1 x2 x3 x4 x5 x6 x7 x8 x9 x10 x11 x12 x13 x14 x15
    x16 x17 x18 x19 x20 x21 := s in
  Build_State x0 x1 x2 x3 x4 x5 x6 x7 x8 x9 v x11 x12 x13 x14 x15 x16 x17
    x18 x19 x20 x21.

Definition set_next_btn (v : Button) (s : State) : State :=
  let 'Build_State x0 x1 x2 x3 x4 x5 x6 x7 x8 x9 x10 x11 x12 x13 x14 x15
    x16 x17 x18 x19 x20 x21 := s in
  Build_State x0 x1 x2 x3 x4 x5 x6 x7 x8 x9 x10 v x12 x13 x14 x15 x16 x17
    x18 x19 x20 x21.

Definition set_finish_btn (v : Button) (s : State) : State :=
  let 'Build_State x0 x1 x2 x3 x4 x5 x6 x7 x8 x9 x10 x11 x12 x13 x14 x15
    x16 x17 x18 x19 x20 x21 := s in
  Build_State x0 x1 x2 x3 x4 x5 x6 x7 x8 x9 x10 x11 v x13 x14 x15 x16 x17
    x18 x19 x20 x21.

Definition set_drive_list (v : ListBox) (s : State) : State :=
  let 'Build_State x0 x1 x2 x3 x4 x5 x6 x7 x8 x9 x10 x11 x12 x13 x14 x15
    x16 x17 x18 x19 x20 x21 := s in
  Build_State x0 x1 x2 x3 x4 x5 x6 x7 x8 x9 x10 x11 x12 v x14 x15 x16 x17
    x18 x19 x20 x21.

Definition set_mp_entry (v : string) (s : State) : State :=
  let 'Build_State x0 x1 x2 x3 x4 x5 x6 x7 x8 x9 x10 x11 x12 x13 x14 x15
    x16 x17 x18 x19 x20 x21 := s in
  Build_State x0 x1 x2 x3 x4 x5 x6 x7 x8 x9 x10 x11 x12 x13 v x15 x16 x17
    x18 x19 x20 x21.

Definition set_fs_combo (v : option nat) (s : State) : State :=
  let 'Build_State x0 x1 x2 x3 x4 x5 x6 x7 x8 x9 x10 x11 x12 x13 x14 x15
    x16 x17 x18 x19 x20 x21 := s in
  Build_State x0 x1 x2 x3 x4 x5 x6 x7 x8 x9 x10 x11 x12 x13 x14 v x16 x17
    x18 x19 x20 x21.

Definition set_opt_entry (v : string) (s : State) : State :=
  let 'Build_State x0 x1 x2 x3 x4 x5 x6 x7 x8 x9 x10 x11 x12 x13 x14 x15
    x16 x17 x18 x19 x20 x21 := s in
  Build_State x0 x1 x2 x3 x4 x5 x6 x7 x8 x9 x10 x11 x12 x13 x14 x15 v x17
    x18 x19 x20 x21.

Definition set_label_entry (v : string) (s : State) : State :=
  let 'Build_State x0 x1 x2 x3 x4 x5 x6 x7 x8 x9 x10 x11 x12 x13 x14 x15
    x16 x17 x18 x19 x20 x21 := s in
  Build_State x0 x1 x2 x3 x4 x5 x6 x7 x8 x9 x10 x11 x12 x13 x14 x15 x16 v
    x18 x19 x20 x21.

Definition set_review_summary (v : Label) (s : State) : State :=
  let 'Build_State x0 x1 x2 x3 x4 x5 x6 x7 x8 x9 x10 x11 x12 x13 x14 x15
    x16 x17 x18 x19 x20 x21 := s in
  Build_State x0 x1 x2 x3 x4 x5 x6 x7 x8 x9 x10 x11 x12 x13 x14 x15 x16
    x17 v x19 x20 x21.

Definition set_done_msg (v : Label) (s : State) : State :=
  let 'Build_State x0 x1 x2 x3 x4 x5 x6 x7 x8 x9 x10 x11 x12 x13 x14 x15
    x16 x17 x18 x19 x20 x21 := s in
  Build_State x0 x1 x2 x3 x4 x5 x6 x7 x8 x9 x10 x11 x12 x13 x14 x15 x16
    x17 x18 v x20 x21.

Definition set_format_btn (v : Button) (s : State) : State :=
  let 'Build_State x0 x1 x2 x3 x4 x5 x6 x7 x8 x9 x10 x11 x12 x13 x14 x15
    x16 x17 x18 x19 x20 x21 := s in
  Build_State x0 x1 x2 x3 x4 x5 x6 x7 x8 x9 x10 x11 x12 x13 x14 x15 x16
    x17 x18 x19 v x21.

Definition set_format_status (v : Label) (s : State) : State :=
  let 'Build_State x0 x1 x2 x3 x4 x5 x6 x7 x8 x9 x10 x11 x12 x13 x14 x15
    x16 x17 x18 x19 x20 x21 := s in
  Build_State x0 x1 x2 x3 x4 x5 x6 x7 x8 x9 x10 x11 x12 x13 x14 x15 x16
    x17 x18 x19 x20 v.

(** The window after [_setup_ui]. *)
Definition setup_ui : State :=
  {| current_step := 0%Q;
     selected_drive := None;
     mount_point := None;
     fs_type := None;
     mount_options := None;
     summary_line := None;
     needs_format := false;
     format_done := false;
     volume_label := None;
     visible_child := intro_box;
     back_btn := new_button "Back";
     next_btn := new_button "Next";
     finish_btn := set_sensitive false (new_button "Finish");
     drive_list := new_listbox [];
     mp_entry := EmptyString;
     fs_combo := Some 0%nat;
     opt_entry := EmptyString;
     label_entry := EmptyString;
     review_summary := new_label EmptyString;
     done_msg := new_label
       "No changes have been made yet. (This is a preview; actual fstab editing will be implemented next.)";
     format_btn := new_button "Format Device";
     format_status := new_label "Not formatted yet." |}.

Definition filesystems : list string :=
  ["auto"; "ext4"; "xfs"; "btrfs"; "ntfs"; "vfat"].

(** [fs_combo.get_active_text()] *)
Definition get_active_text (st : State) : option string :=
  i ← fs_combo st; filesystems !! i.

(** The four calls every step but the last makes. *)
Definition navigate (pg : page) (back next : bool) (caption : string)
    (st : State) : State :=
  let st := set_visible_child pg st in
  let st := set_back_btn (set_sensitive back (back_btn st)) st in
  let st := set_next_btn (set_sensitive next (next_btn st)) st in
  set_next_btn (set_label caption (next_btn st)) st.

(** [_populate_drive_list()] *)
Definition populate_drive_list (w : World) (st : State) : State :=
  let arrays := map RaidManager.name (RaidManager.get_raid_arrays w) in
  let bcache_names :=
    map (fun b => "/dev/" +:+ BcacheManager.name b)
        (BcacheManager.get_bcache_devices w) in
  let nodes :=
    List.filter
      (fun path => (path_exists w path
                    && negb (bool_decide (path ∈ bcache_names)))%bool)
      (glob w "/dev/bcache*") in
  let disks := map DriveInfo.name (drives w) in
  set_drive_list
    (repopulate (arrays ++ bcache_names ++ nodes ++ disks) (drive_list st)) st.

(** The mount point suggested on entering step 2. *)
Definition default_mount_point (w : World) (st : State) : string :=
  match get_selected_row (drive_list st) with
  | Some dev =>
      let label :=
        match subprocess_run (run w ["lsblk"; "-no"; "LABEL"; dev]) false with
        | Ok res => strip (stdout res)
        | Raise _ => EmptyString
        end in
      if str_truthy label then "/mnt/" +:+ label
      else if str_truthy (basename dev) then "/mnt/" +:+ basename dev
      else "/mnt/data"
  | None => "/mnt/data"
  end.

(** [f"{x}"] for an attribute that may be [None]. *)
Definition fmt (x : option string) : string :=
  match x with
  | Some s => s
  | None => "None"
  end.

Definition tab : string := String "009" EmptyString.

(** The five fields of an fstab line for the source [source]. *)
Definition fstab_line (source : string) (st : State) : string :=
  source +:+ tab +:+ fmt (mount_point st) +:+ tab +:+ fmt (fs_type st)
  +:+ tab +:+ fmt (mount_options st) +:+ tab +:+ "0 2".

(** [_populate_review()] *)
Definition populate_review (st : State) : State :=
  let line := fstab_line (fmt (selected_drive st)) st in
  let st := set_summary_line (Some line) st in
  set_review_summary
    (set_text
       ("Device: " +:+ fmt (selected_drive st)
        +:+ String "010" "Mount point: " +:+ fmt (mount_point st)
        +:+ String "010" "Filesystem: " +:+ fmt (fs_type st)
        +:+ String "010" "Options: " +:+ fmt (mount_options st)
        +:+ String "010" (String "010" "<tt>") +:+ line +:+ "</tt>")
       (review_summary st)) st.

Definition at_step (st : State) (n : Q) : bool := Qeq_bool (current_step st) n.

(** [_show_step(step)] *)
Definition show_step (w : World) (step : Q) (st : State) : State :=
  let st := set_current_step step st in
  if Qeq_bool step 0 then navigate intro_box false true "Next" st
  else if Qeq_bool step 1 then
    navigate drive_box true true "Next" (populate_drive_list w st)
  else if Qeq_bool step 1.5 then
    let st := set_format_done false st in
    let st := set_format_status
                (set_text "Not formatted yet." (format_status st)) st in
    navigate format_box true false "Next" st
  else if Qeq_bool step 2 then
    navigate mp_box true true "Next"
      (set_mp_entry (default_mount_point w st) st)
  else if Qeq_bool step 3 then navigate fs_box true true "Next" st
  else if Qeq_bool step 4 then navigate opt_box true true "Next" st
  else if Qeq_bool step 5 then navigate label_box true true "Next" st
  else if Qeq_bool step 6 then
    navigate review_box true true "Confirm" (populate_review st)
  else if Qeq_bool step 7 then
    let st := set_visible_child done_box st in
    let st := set_back_btn (set_sensitive false (back_btn st)) st in
    let st := set_next_btn (set_sensitive false (next_btn st)) st in
    set_finish_btn (set_sensitive true (finish_btn st)) st
  else st.

(** [FstabWizard(parent)] *)
Definition init (w : World) : State := show_step w 0 setup_ui.

(** Whether the device chosen at step 1 must be formatted first: a
    bcache device for which lsblk reports no filesystem, or for which the
    query cannot be made. *)
Definition check_needs_format (w : World) (dev : string) : bool :=
  if startswith dev "/dev/bcache" then
    match subprocess_run (run w ["lsblk"; "-no"; "FSTYPE"; dev]) false with
    | Ok res => negb (str_truthy (strip (stdout res)))
    | Raise _ => true
    end
  else false.

(** The UUID blkid reports for the device; [None] when the query
    raises. *)
Definition resolve_uuid (w : World) (device : option string)
  : option string :=
  match subprocess_run
          (run w ["blkid"; "-s"; "UUID"; "-o"; "value"; fmt device]) false with
  | Ok res => Some (strip (stdout res))
  | Raise _ => None
  end.

(** The line appended to /etc/fstab at the confirmation. *)
Definition persisted_line (w : World) (st : State) : string :=
  match resolve_uuid w (selected_drive st) with
  | Some uuid =>
      if str_truthy uuid then fstab_line ("UUID=" +:+ uuid) st
      else fstab_line (fmt (selected_drive st)) st
  | None => fstab_line (fmt (selected_drive st)) st
  end.

(** The commands composed at the confirmation. *)
Definition compose_cmds (w : World) (st : State) : list string :=
  let mkfs :=
    match volume_label st, fs_type st, selected_drive st with
    | Some label, Some fs, Some device =>
        if (str_truthy label
            && bool_decide (fs ∈ ["ext4"; "xfs"; "btrfs"])
            && str_truthy device)%bool
        then ["sudo mkfs." +:+ fs +:+ " -L " +:+ shlex_quote label +:+ " "
              +:+ shlex_quote device]
        else []
    | _, _, _ => []
    end in
  let mkdir :=
    match mount_point st with
    | Some mp =>
        if str_truthy mp then ["sudo mkdir -p " +:+ shlex_quote mp] else []
    | None => []
    end in
  mkfs ++ mkdir
  ++ ["echo '" +:+ persisted_line w st +:+ "' | sudo tee -a /etc/fstab";
      "sudo mount -a"].

(** The arguments of a queued callback: this wizard queues none. *)
Definition callback : Type := Empty_set.

(** The forward gates of [_on_next]. *)
Definition drive_gate (st : State) : bool :=
  bool_decide (is_Some (get_selected_row (drive_list st))).

Definition format_gate (st : State) : bool := format_done st.

Definition mount_point_gate (st : State) : bool :=
  let mp := strip (mp_entry st) in
  negb (negb (str_truthy mp) || negb (startswith mp "/")).

(** [_on_next(btn)] *)
Definition on_next (w : World) (st : State)
  : State * list (effect callback) :=
  if at_step st 0 then (show_step w 1 st, [])
  else if at_step st 1 then
    match get_selected_row (drive_list st) with
    | None => (st, [ShowError "Please select a drive to continue."])
    | Some dev =>
        let st := set_selected_drive (Some dev) st in
        let needs := check_needs_format w dev in
        let st := set_needs_format needs st in
        if needs then (show_step w 1.5 st, []) else (show_step w 2 st, [])
    end
  else if at_step st 1.5 then
    if negb (format_done st)
    then (st, [ShowError "You must format the bcache device before proceeding."])
    else (show_step w 2 st, [])
  else if at_step st 2 then
    let mp := strip (mp_entry st) in
    if (negb (str_truthy mp) || negb (startswith mp "/"))%bool
    then (st, [ShowError "Please enter a valid mount point (must start with /)."])
    else (show_step w 3 (set_mount_point (Some mp) st), [])
  else if at_step st 3 then
    (show_step w 4 (set_fs_type (get_active_text st) st), [])
  else if at_step st 4 then
    let opts := strip (opt_entry st) in
    (show_step w 5
       (set_mount_options
          (Some (if str_truthy opts then opts else "defaults")) st), [])
  else if at_step st 5 then
    (show_step w 6 (set_volume_label (Some (strip (label_entry st))) st), [])
  else if at_step st 6 then
    match detect_terminal w with
    | None => (st, [ShowError no_terminal])
    | Some term =>
        let shell_cmd := join "; " (compose_cmds w st) +:+ pause in
        let cmd := terminal_command term shell_cmd in
        let st :=
          match subprocess_run (run w cmd) true with
          | Ok _ =>
              set_done_msg
                (set_text
                   "Fstab entry added and drive mounted! You can now use your drive."
                   (done_msg st)) st
          | Raise e =>
              set_done_msg
                (set_text ("Failed: " +:+ exn_msg e) (done_msg st)) st
          end in
        (show_step w 7 st, [Launch cmd])
    end
  else (st, []).

(** [_on_back(btn)] *)
Definition on_back (w : World) (st : State) : State :=
  if at_step st 1 then show_step w 0 st
  else if at_step st 2 then show_step w 1 st
  else if at_step st 3 then show_step w 2 st
  else if at_step st 4 then show_step w 3 st
  else if at_step st 5 then show_step w 4 st
  else st.

(** [_on_format_bcache(btn)] *)
Definition on_format_bcache (w : World) (st : State)
  : State * list (effect callback) :=
  match detect_terminal w with
  | None => (st, [ShowError no_terminal])
  | Some term =>
      let dev :=
        match selected_drive st with
        | Some d => if str_truthy d then d else "/dev/null"
        | None => "/dev/null"
        end in
      let fs :=
        match get_active_text st with
        | Some f => if str_truthy f then f else "ext4"
        | None => "ext4"
        end in
      let cmd :=
        terminal_command term
          ("sudo mkfs." +:+ shlex_quote fs +:+ " " +:+ shlex_quote dev
           +:+ pause) in
      match subprocess_run (run w cmd) true with
      | Ok _ =>
          let st := set_format_done true st in
          let st := set_format_status
                      (set_text "Device formatted." (format_status st)) st in
          (set_next_btn (set_sensitive true (next_btn st)) st, [Launch cmd])
      | Raise e =>
          (set_format_status
             (set_text ("Failed: " +:+ exn_msg e) (format_status st)) st,
           [Launch cmd])
      end
  end.

(** What can happen to the window. *)
Inductive event :=
  | Next | Back | Cancel | Finish | FormatBcache
  | SelectDrive (idxs : list nat)
  | EditMountPoint (text : string)
  | SelectFs (active : option nat)
  | EditOptions (text : string)
  | EditLabel (text : string).

Definition clickable (b : Button) : bool :=
  (btn_sensitive b && btn_visible b)%bool.

Definition on_page (pg : page) (st : State) : bool :=
  bool_decide (visible_child st = pg).

(** The toolkit only delivers input to a widget that is sensitive and
    on the visible page of the stack; the navigation bar is always
    shown. *)
Definition enabled (st : State) (ev : event) : bool :=
  match ev with
  | Next => clickable (next_btn st)
  | Back => clickable (back_btn st)
  | Cancel => true
  | Finish => (on_page done_box st && clickable (finish_btn st))%bool
  | FormatBcache => (on_page format_box st && clickable (format_btn st))%bool
  | SelectDrive _ => on_page drive_box st
  | EditMountPoint _ => on_page mp_box st
  | SelectFs _ => on_page fs_box st
  | EditOptions _ => on_page opt_box st
  | EditLabel _ => on_page label_box st
  end.

(** One turn of the main loop. *)
Definition handle (w : World) (st : State) (ev : event)
  : State * list (effect callback) :=
  if enabled st ev then
    match ev with
    | Next => on_next w st
    | Back => (on_back w st, [])
    | Cancel | Finish => (st, [Close])
    | FormatBcache => on_format_bcache w st
    | SelectDrive idxs =>
        (set_drive_list (select false idxs (drive_list st)) st, [])
    | EditMountPoint text => (set_mp_entry text st, [])
    | SelectFs active => (set_fs_combo active st, [])
    | EditOptions text => (set_opt_entry text st, [])
    | EditLabel text => (set_label_entry text st, [])
    end
  else (st, []).

(** A run of the main loop. *)
Definition run_events (evs : list (World * event)) (st : State) : State :=
  fold_left (fun st we => fst (handle (fst we) st (snd we))) evs st.

End FstabWizard.

(** ** The benchmark wizard *)

Module BenchmarkWizard.
Import Sys Gtk BenchmarkResultsHelper.

(** The pages of the stack. *)
Inductive page :=
  | intro_box | drive_box | type_box | opt_box | review_box | result_box.

#[global] Instance page_eq_dec : EqDecision page.
Proof. solve_decision. Defined.

(** The attributes and widgets of the window that its handlers read or
    write; [test_options] is [None] while it is the empty dictionary, and
    [prev_runs_box] holds the captions of the rows of earlier runs. *)
Record State := Build_State {
  current_step : Z;
  selected_drive : option string;
  test_type : option nat;
  test_options : option (string * string);
  result : option BenchmarkResult;
  visible_child : page;
  back_btn : Button;
  next_btn : Button;
  finish_btn : Button;
  drive_list : ListBox;
  type_list : ListBox;
  size_entry : string;
  dur_entry : string;
  review_summary : Label;
  result_label : Label;
  prev_runs_box : list string
}.

Definition set_current_step (v : Z) (s : State) : State :=
  let 'Build_State x0 x1 x2 x3 x4 x5 x6 x7 x8 x9 x10 x11 x12 x13 x14 x15
    := s in
  Build_State v x1 x2 x3 x4 x5 x6 x7 x8 x9 x10 x11 x12 x13 x14 x15.

Definition set_selected_drive (v : option string) (s : State) : State :=
  let 'Build_State x0 x1 x2 x3 x4 x5 x6 x7 x8 x9 x10 x11 x12 x13 x14 x15
    := s in
  Build_State x0 v x2 x3 x4 x5 x6 x7 x8 x9 x10 x11 x12 x13 x14 x15.

Definition set_test_type (v : option nat) (s : State) : State :=
  let 'Build_State x0 x1 x2 x3 x4 x5 x6 x7 x8 x9 x10 x11 x12 x13 x14 x15
    := s in
  Build_State x0 x1 v x3 x4 x5 x6 x7 x8 x9 x10 x11 x12 x13 x14 x15.

Definition set_test_options (v : option (string * string)) (s : State)
  : State :=
  let 'Build_State x0 x1 x2 x3 x4 x5 x6 x7 x8 x9 x10 x11 x12 x13 x14 x15
    := s in
  Build_State x0 x1 x2 v x4 x5 x6 x7 x8 x9 x10 x11 x12 x13 x14 x15.

Definition set_result (v : option BenchmarkResult) (s : State) : State :=
  let 'Build_State x0 x1 x2 x3 x4 x5 x6 x7 x8 x9 x10 x11 x12 x13 x14 x15
    := s in
  Build_State x0 x1 x2 x3 v x5 x6 x7 x8 x9 x10 x11 x12 x13 x14 x15.

Definition set_visible_child (v : page) (s : State) : State :=
  let 'Build_State x0 x1 x2 x3 x4 x5 x6 x7 x8 x9 x10 x11 x12 x13 x14 x15
    := s in
  Build_State x0 x1 x2 x3 x4 v x6 x7 x8 x9 x10 x11 x12 x13 x14 x15.

Definition set_back_btn (v : Button) (s : State) : State :=
  let 'Build_State x0 x1 x2 x3 x4 x5 x6 x7 x8 x9 x10 x11 x12 x13 x14 x15
    := s in
  Build_State x0 x1 x2 x3 x4 x5 v x7 x8 x9 x10 x11 x12 x13 x14 x15.

Definition set_next_btn (v : Button) (s : State) : State :=
  let 'Build_State x0 x1 x2 x3 x4 x5 x6 x7 x8 x9 x10 x11 x12 x13 x14 x15
    := s in
  Build_State x0 x1 x2 x3 x4 x5 x6 v x8 x9 x10 x11 x12 x13 x14 x15.

Definition set_finish_btn (v : Button) (s : State) : State :=
  let 'Build_State x0 x1 x2 x3 x4 x5 x6 x7 x8 x9 x10 x11 x12 x13 x14 x15
    := s in
  Build_State x0 x1 x2 x3 x4 x5 x6 x7 v x9 x10 x11 x12 x13 x14 x15.

Definition set_drive_list (v : ListBox) (s : State) : State :=
  let 'Build_State x0 x1 x2 x3 x4 x5 x6 x7 x8 x9 x10 x11 x12 x13 x14 x15
    := s in
  Build_State x0 x1 x2 x3 x4 x5 x6 x7 x8 v x10 x11 x12 x13 x14 x15.

Definition set_type_list (v : ListBox) (s : State) : State :=
  let 'Build_State x0 x1 x2 x3 x4 x5 x6 x7 x8 x9 x10 x11 x12 x13 x14 x15
    := s in
  Build_State x0 x1 x2 x3 x4 x5 x6 x7 x8 x9 v x11 x12 x13 x14 x15.

Definition set_size_entry (v : string) (s : State) : State :=
  let 'Build_State x0 x1 x2 x3 x4 x5 x6 x7 x8 x9 x10 x11 x12 x13 x14 x15
    := s in
  Build_State x0 x1 x2 x3 x4 x5 x6 x7 x8 x9 x10 v x12 x13 x14 x15.

Definition set_dur_entry (v : string) (s : State) : State :=
  let 'Build_State x0 x1 x2 x3 x4 x5 x6 x7 x8 x9 x10 x11 x12 x13 x14 x15
    := s in
  Build_State x0 x1 x2 x3 x4 x5 x6 x7 x8 x9 x10 x11 v x13 x14 x15.

Definition set_review_summary (v : Label) (s : State) : State :=
  let 'Build_State x0 x1 x2 x3 x4 x5 x6 x7 x8 x9 x10 x11 x12 x13 x14 x15
    := s in
  Build_State x0 x1 x2 x3 x4 x5 x6 x7 x8 x9 x10 x11 x12 v x14 x15.

Definition set_result_label (v : Label) (s : State) : State :=
  let 'Build_State x0 x1 x2 x3 x4 x5 x6 x7 x8 x9 x10 x11 x12 x13 x14 x15
    := s in
  Build_State x0 x1 x2 x3 x4 x5 x6 x7 x8 x9 x10 x11 x12 x13 v x15.

Definition set_prev_runs_box (v : list string) (s : State) : State :=
  let 'Build_State x0 x1 x2 x3 x4 x5 x6 x7 x8 x9 x10 x11 x12 x13 x14 x15
    := s in
  Build_State x0 x1 x2 x3 x4 x5 x6 x7 x8 x9 x10 x11 x12 x13 x14 v.

(** The window after [_setup_ui]. *)
Definition setup_ui : State :=
  {| current_step := 0;
     selected_drive := None;
     test_type := None;
     test_options := None;
     result := None;
     visible_child := intro_box;
     back_btn := new_button "Back";
     next_btn := new_button "Next";
     finish_btn := set_sensitive false (new_button "Finish");
     drive_list := new_listbox [];
     type_list := new_listbox ["Sequential Read"; "Sequential Write";
                               "Random Read"; "Random Write"];
     size_entry := "1G";
     dur_entry := "10";
     review_summary := new_label EmptyString;
     result_label := new_label EmptyString;
     prev_runs_box := [] |}.

Definition callback : Type := Empty_set.

(** The four calls every step but the last makes. *)
Definition navigate (pg : page) (back next : bool) (caption : string)
    (st : State) : State :=
  let st := set_visible_child pg st in
  let st := set_back_btn (set_sensitive back (back_btn st)) st in
  let st := set_next_btn (set_sensitive next (next_btn st)) st in
  set_next_btn (set_label caption (next_btn st)) st.

(** [_populate_drive_list()] *)
Definition populate_drive_list (w : World) (st : State) : State :=
  let arrays := map RaidManager.name (RaidManager.get_raid_arrays w) in
  let bcache_names :=
    map (fun b => "/dev/" +:+ BcacheManager.name b)
        (BcacheManager.get_bcache_devices w) in
  let nodes :=
    List.filter
      (fun path => (path_exists w path
                    && negb (bool_decide (path ∈ bcache_names)))%bool)
      (glob w "/dev/bcache*") in
  let disks := map DriveInfo.name (drives w) in
  set_drive_list
    (repopulate (arrays ++ bcache_names ++ nodes ++ disks) (drive_list st)) st.

Definition fmt (x : option string) : string :=
  match x with
  | Some s => s
  | None => "None"
  end.

Definition nl : string := String "010" EmptyString.

Definition no_row : exn :=
  Exn AttributeError "'NoneType' object has no attribute 'get_child'".

(** [_populate_review()]: the caption of the selected test type is
    read from the list, which raises when no row is selected. *)
Definition populate_review (st : State) : Py.result State :=
  match get_selected_row (type_list st) with
  | None => Raise no_row
  | Some caption =>
      Ok (set_review_summary
            (set_text
               ("Device: " +:+ fmt (selected_drive st) +:+ nl
                +:+ "Test type: " +:+ caption +:+ nl
                +:+ "Options: " +:+ options_str (test_options st) +:+ nl
                +:+ nl
                +:+ "The test will use a file at the drive's mount point. Results will be shown in the terminal window.")
               (review_summary st)) st)
  end.

(** The last five elements of a list: [prev[-5:]]. *)
Definition last5 {A} (l : list A) : list A := drop (length l - 5) l.

(** The loop that adds the rows of the earlier runs: a caption that
    cannot be built ends it, the rows added before stay. *)
Fixpoint add_rows (entries : list Entry) (rows : list string)
  : list string * option exn :=
  match entries with
  | [] => (rows, None)
  | r :: rest =>
      match entry_caption r with
      | Ok text => add_rows rest (rows ++ [text])
      | Raise e => (rows, Some e)
      end
  end.

(** [_populate_results()], with the history as [load_results()] now
    returns it; the second component is the exception that ends it
    early, if any. *)
Definition populate_results (history : list Entry) (st : State)
  : State * option exn :=
  match result st with
  | None =>
      (set_result_label (set_text "No result." (result_label st)) st, None)
  | Some r =>
      let st :=
        set_result_label
          (set_text
             ("Test: " +:+ BenchmarkResultsHelper.test_type r +:+ nl
              +:+ "Device: " +:+ device r
              +:+ nl +:+ "Options: " +:+ options_str (options r) +:+ nl
              +:+ "Summary: " +:+ summary r)
             (result_label st)) st in
      let st := set_prev_runs_box [] st in
      match get_results_for_device history (device r) with
      | Raise e => (st, Some e)
      | Ok prev =>
          let '(rows, err) := add_rows (rev (last5 prev)) [] in
          (set_prev_runs_box rows st, err)
      end
  end.

(** [_show_step(step)]; the step is stored before the page is
    prepared, so an exception while preparing leaves it stored. *)
Definition show_step (w : World) (history : list Entry)
    (step : Z) (st : State) : State * list (effect callback) :=
  let st := set_current_step step st in
  match step with
  | 0 => (navigate intro_box false true "Next" st, [])
  | 1 =>
      (navigate drive_box true true "Next" (populate_drive_list w st), [])
  | 2 => (navigate type_box true true "Next" st, [])
  | 3 => (navigate opt_box true true "Next" st, [])
  | 4 =>
      match populate_review st with
      | Ok st => (navigate review_box true true "Run Test" st, [])
      | Raise e => (st, [Uncaught e])
      end
  | 5 =>
      match populate_results history st with
      | (st, Some e) => (st, [Uncaught e])
      | (st, None) =>
          let st := set_visible_child result_box st in
          let st := set_back_btn (set_sensitive false (back_btn st)) st in
          let st := set_next_btn (set_sensitive false (next_btn st)) st in
          (set_finish_btn (set_sensitive true (finish_btn st)) st, [])
      end
  | _ => (st, [])
  end.

(** [BenchmarkWizard(parent)] *)
Definition init (w : World) : State :=
  fst (show_step w (stored_results w) 0 setup_ui).

(** The mount point lsblk reports for the drive: the first line of its
    stripped output. *)
Definition find_mountpoint (w : World) (drive : string) : option string :=
  match subprocess_run (run w ["lsblk"; "-no"; "MOUNTPOINT"; drive]) false with
  | Ok res =>
      if str_truthy (strip (stdout res))
      then head (splitlines (strip (stdout res)))
      else None
  | Raise _ => None
  end.

(** [os.path.join(a, b)] for a relative [b]. *)
Definition path_join (a b : string) : string :=
  if (negb (str_truthy a) || endswith a "/")%bool then a +:+ b
  else a +:+ "/" +:+ b.

(** The test of step 4, from the mount point on. *)
Definition run_test (w : World) (drive mountpoint : string) (st : State)
  : State * list (effect callback) :=
  let testfile := path_join mountpoint "darkdiskz_benchmark.tmp" in
  let size :=
    match test_options st with
    | Some (size, _) => size
    | None => "1G"
    end in
  match BenchmarkCount.block_count size with
  | Raise e => (st, [Uncaught e])
  | Ok count =>
      let create :=
        ["dd"; "if=/dev/zero"; "of=" +:+ testfile; "bs=1M";
         "count=" +:+ count; "oflag=direct"] in
      let prepared : Py.result (list (effect callback) * string) :=
        match test_type st with
        | Some O =>
            if path_exists w testfile then
              Ok ([], "dd if=" +:+ shlex_quote testfile
                      +:+ " of=/dev/null bs=1M iflag=direct status=progress")
            else
              _ ← subprocess_run (run w create) false;
              Ok ([Launch create],
                  "dd if=" +:+ shlex_quote testfile
                  +:+ " of=/dev/null bs=1M iflag=direct status=progress")
        | Some 1%nat =>
            Ok ([], "dd if=/dev/zero of=" +:+ shlex_quote testfile
                    +:+ " bs=1M count=" +:+ count
                    +:+ " oflag=direct status=progress")
        | _ => Ok ([], EmptyString)
        end in
      match prepared, test_type st with
      | Raise e, _ => (st, [Launch create; Uncaught e])
      | Ok (started, dd_cmd), Some (O | 1%nat) =>
          match detect_terminal w with
          | None => (st, started ++ [ShowError no_terminal])
          | Some term =>
              let shell_cmd :=
                "sudo " +:+ dd_cmd +:+ "; sync; rm -f "
                +:+ shlex_quote testfile +:+ pause in
              let cmd := terminal_command term shell_cmd in
              match subprocess_run (run w cmd) true with
              | Raise e =>
                  (st, started ++
                       [Launch cmd;
                        ShowError ("Failed to launch terminal: "
                                   +:+ exn_msg e)])
              | Ok _ =>
                  match get_selected_row (type_list st) with
                  | None => (st, started ++ [Launch cmd; Uncaught no_row])
                  | Some caption =>
                      let r :=
                        {| timestamp := clock w;
                           device := drive;
                           BenchmarkResultsHelper.test_type := caption;
                           options := test_options st;
                           summary := "(See terminal for actual speed)";
                           raw_output := "(See terminal for dd output)" |} in
                      match store_error w with
                      | Some e =>
                          (st, started ++ [Launch cmd; Uncaught e])
                      | None =>
                          let '(st, effs) :=
                            show_step w (stored_results w ++ [written r]) 5
                              (set_result (Some r) st) in
                          (st, started ++ [Launch cmd] ++ effs)
                      end
                  end
              end
          end
      | Ok (started, _), _ =>
          (st, [ShowError "Only sequential read/write tests are supported in this version."])
      end
  end.

(** The forward gates of [_on_next]. *)
Definition drive_gate (st : State) : bool :=
  bool_decide (is_Some (get_selected_row (drive_list st))).

Definition type_gate (st : State) : bool :=
  bool_decide (is_Some (get_selected_index (type_list st))).

(** [_on_next(btn)] *)
Definition on_next (w : World) (st : State)
  : State * list (effect callback) :=
  match current_step st with
  | 0 => show_step w (stored_results w) 1 st
  | 1 =>
      match get_selected_row (drive_list st) with
      | None => (st, [ShowError "Please select a drive to continue."])
      | Some dev =>
          show_step w (stored_results w) 2 (set_selected_drive (Some dev) st)
      end
  | 2 =>
      match get_selected_index (type_list st) with
      | None => (st, [ShowError "Please select a test type."])
      | Some i =>
          show_step w (stored_results w) 3 (set_test_type (Some i) st)
      end
  | 3 =>
      show_step w (stored_results w) 4
        (set_test_options
           (Some (strip (size_entry st), strip (dur_entry st))) st)
  | 4 =>
      match selected_drive st with
      | None => (st, [ShowError "No valid drive selected."])
      | Some drive =>
          if negb (str_truthy drive)
          then (st, [ShowError "No valid drive selected."])
          else
            match find_mountpoint w drive with
            | None =>
                (st, [ShowError "Could not determine a valid mount point for this drive. Please ensure it is mounted."])
            | Some mountpoint =>
                if (negb (str_truthy mountpoint)
                    || negb (isdir w mountpoint))%bool
                then (st, [ShowError "Could not determine a valid mount point for this drive. Please ensure it is mounted."])
                else run_test w drive mountpoint st
            end
      end
  | _ => (st, [])
  end.

(** [_on_back(btn)] *)
Definition on_back (w : World) (st : State)
  : State * list (effect callback) :=
  match current_step st with
  | 1 => show_step w (stored_results w) 0 st
  | 2 => show_step w (stored_results w) 1 st
  | 3 => show_step w (stored_results w) 2 st
  | 4 => show_step w (stored_results w) 3 st
  | _ => (st, [])
  end.

(** What can happen to the window. *)
Inductive event :=
  | Next | Back | Cancel | Finish
  | SelectDrive (idxs : list nat)
  | SelectType (idxs : list nat)
  | EditSize (text : string)
  | EditDuration (text : string).

Definition clickable (b : Button) : bool :=
  (btn_sensitive b && btn_visible b)%bool.

Definition on_page (pg : page) (st : State) : bool :=
  bool_decide (visible_child st = pg).

(** The toolkit only delivers input to a widget that is sensitive and
    on the visible page of the stack; the navigation bar is always
    shown. *)
Definition enabled (st : State) (ev : event) : bool :=
  match ev with
  | Next => clickable (next_btn st)
  | Back => clickable (back_btn st)
  | Cancel => true
  | Finish => (on_page result_box st && clickable (finish_btn st))%bool
  | SelectDrive _ => on_page drive_box st
  | SelectType _ => on_page type_box st
  | EditSize _ | EditDuration _ => on_page opt_box st
  end.

(** One turn of the main loop. *)
Definition handle (w : World) (st : State) (ev : event)
  : State * list (effect callback) :=
  if enabled st ev then
    match ev with
    | Next => on_next w st
    | Back => on_back w st
    | Cancel | Finish => (st, [Close])
    | SelectDrive idxs =>
        (set_drive_list (select false idxs (drive_list st)) st, [])
    | SelectType idxs =>
        (set_type_list (select false idxs (type_list st)) st, [])
    | EditSize text => (set_size_entry text st, [])
    | EditDuration text => (set_dur_entry text st, [])
    end
  else (st, []).

(** A run of the main loop. *)
Definition run_events (evs : list (World * event)) (st : State) : State :=
  fold_left (fun st we => fst (handle (fst we) st (snd we))) evs st.

End BenchmarkWizard.

(** ** The SMART test wizard *)

Module SmartWizard.
Import Sys Gtk.

(** The pages of the stack. *)
Inductive page := intro_box | drive_box | test_box | result_box.

#[global] Instance page_eq_dec : EqDecision page.
Proof. solve_decision. Defined.

(** The attributes and widgets of the window that its handlers read or
    write; [result_group] holds the title and subtitle of the rows added
    to the result page, [show_btn] whether the button that shows the SMART
    data in a terminal was added. *)
Record State := Build_State {
  current_step : Z;
  selected_drive : option string;
  selected_test : option string;
  visible_child : page;
  back_btn : Button;
  next_btn : Button;
  finish_btn : Button;
  drive_list : ListBox;
  test_type_list : ListBox;
  result_label : Label;
  result_group : list (string * string);
  show_btn : bool
}.

Definition set_current_step (v : Z) (s : State) : State :=
  let 'Build_State x0 x1 x2 x3 x4 x5 x6 x7 x8 x9 x10 x11 := s in
  Build_State v x1 x2 x3 x4 x5 x6 x7 x8 x9 x10 x11.

Definition set_selected_drive (v : option string) (s : State) : State :=
  let 'Build_State x0 x1 x2 x3 x4 x5 x6 x7 x8 x9 x10 x11 := s in
  Build_State x0 v x2 x3 x4 x5 x6 x7 x8 x9 x10 x11.

Definition set_selected_test (v : option string) (s : State) : State :=
  let 'Build_State x0 x1 x2 x3 x4 x5 x6 x7 x8 x9 x10 x11 := s in
  Build_State x0 x1 v x3 x4 x5 x6 x7 x8 x9 x10 x11.

Definition set_visible_child (v : page) (s : State) : State :=
  let 'Build_State x0 x1 x2 x3 x4 x5 x6 x7 x8 x9 x10 x11 := s in
  Build_State x0 x1 x2 v x4 x5 x6 x7 x8 x9 x10 x11.

Definition set_back_btn (v : Button) (s : State) : State :=
  let 'Build_State x0 x1 x2 x3 x4 x5 x6 x7 x8 x9 x10 x11 := s in
  Build_State x0 x1 x2 x3 v x5 x6 x7 x8 x9 x10 x11.

Definition set_next_btn (v : Button) (s : State) : State :=
  let 'Build_State x0 x1 x2 x3 x4 x5 x6 x7 x8 x9 x10 x11 := s in
  Build_State x0 x1 x2 x3 x4 v x6 x7 x8 x9 x10 x11.

Definition set_finish_btn (v : Button) (s : State) : State :=
  let 'Build_State x0 x1 x2 x3 x4 x5 x6 x7 x8 x9 x10 x11 := s in
  Build_State x0 x1 x2 x3 x4 x5 v x7 x8 x9 x10 x11.

Definition set_drive_list (v : ListBox) (s : State) : State :=
  let 'Build_State x0 x1 x2 x3 x4 x5 x6 x7 x8 x9 x10 x11 := s in
  Build_State x0 x1 x2 x3 x4 x5 x6 v x8 x9 x10 x11.

Definition set_test_type_list (v : ListBox) (s : State) : State :=
  let 'Build_State x0 x1 x2 x3 x4 x5 x6 x7 x8 x9 x10 x11 := s in
  Build_State x0 x1 x2 x3 x4 x5 x6 x7 v x9 x10 x11.

Definition set_result_label (v : Label) (s : State) : State :=
  let 'Build_State x0 x1 x2 x3 x4 x5 x6 x7 x8 x9 x10 x11 := s in
  Build_State x0 x1 x2 x3 x4 x5 x6 x7 x8 v x10 x11.

Definition set_result_group (v : list (string * string)) (s : State)
  : State :=
  let 'Build_State x0 x1 x2 x3 x4 x5 x6 x7 x8 x9 x10 x11 := s in
  Build_State x0 x1 x2 x3 x4 x5 x6 x7 x8 x9 v x11.

Definition set_show_btn (v : bool) (s : State) : State :=
  let 'Build_State x0 x1 x2 x3 x4 x5 x6 x7 x8 x9 x10 x11 := s in
  Build_State x0 x1 x2 x3 x4 x5 x6 x7 x8 x9 x10 v.

(** The window after [_setup_ui]. *)
Definition setup_ui : State :=
  {| current_step := 0;
     selected_drive := None;
     selected_test := None;
     visible_child := intro_box;
     back_btn := new_button "Back";
     next_btn := new_button "Next";
     finish_btn := set_sensitive false (new_button "Finish");
     drive_list := new_listbox [];
     test_type_list :=
       new_listbox ["Short Test (Quick health check, ~2 min)";
                    "Long Test (Comprehensive, 30+ min)"];
     result_label := new_label EmptyString;
     result_group := [];
     show_btn := false |}.

(** The four calls every step but the last makes. *)
Definition navigate (pg : page) (back next : bool) (caption : string)
    (st : State) : State :=
  let st := set_visible_child pg st in
  let st := set_back_btn (set_sensitive back (back_btn st)) st in
  let st := set_next_btn (set_sensitive next (next_btn st)) st in
  set_next_btn (set_label caption (next_btn st)) st.

(** [_populate_drive_list()] *)
Definition populate_drive_list (w : World) (st : State) : State :=
  set_drive_list
    (repopulate (map DriveInfo.name (drives w)) (drive_list st)) st.

(** [_show_step(step)] *)
Definition show_step (w : World) (step : Z) (st : State) : State :=
  let st := set_current_step step st in
  match step with
  | 0 => navigate intro_box false true "Next" st
  | 1 => navigate drive_box true true "Next" (populate_drive_list w st)
  | 2 => navigate test_box true true "Next" st
  | 3 =>
      let st := set_visible_child result_box st in
      let st := set_back_btn (set_sensitive false (back_btn st)) st in
      let st := set_next_btn (set_sensitive false (next_btn st)) st in
      set_finish_btn (set_sensitive false (finish_btn st)) st
  | _ => st
  end.

(** [SmartWizard(parent)] *)
Definition init (w : World) : State := show_step w 0 setup_ui.

(** The frames the interpreter allows by default. *)
Definition recursion_limit : nat := 1000.

(** The machine as [DriveInfo.get_smart_info] sees it. *)
Definition smart_world (w : World) : DriveInfo.World :=
  fun _ argv => run w argv.

(** [DriveInfo.run_smart_test(device, test_type)] *)
Definition run_smart_test (w : World) (device test_type : string)
  : result (bool * string) :=
  avail ← fst (DriveInfo.check_smartctl_available (smart_world w) []);
  if negb avail then Ok (false, "smartctl not found")
  else
    match detect_terminal w with
    | None => Ok (false, no_terminal)
    | Some term =>
        let cmd :=
          terminal_command term
            ("sudo smartctl -t " +:+ shlex_quote test_type +:+ " "
             +:+ shlex_quote device +:+ pause) in
        match subprocess_run (run w cmd) true with
        | Ok _ =>
            Ok (true, "Test started (check SMART status after a few seconds)")
        | Raise e => Ok (false, "Failed to launch terminal: " +:+ exn_msg e)
        end
    end.

(** The arguments of a queued [_show_smart_result]. *)
Definition callback : Type := bool * string * DriveInfo.SmartInfo.

(** The worker thread of [_run_smart_test], run to its end. *)
Definition worker (w : World) (st : State) : list (effect callback) :=
  match selected_drive st, selected_test st with
  | Some device, Some test =>
      match run_smart_test w device test with
      | Raise e => [Uncaught e]
      | Ok (success, msg) =>
          match fst (DriveInfo.get_smart_info recursion_limit
                       (smart_world w) device []) with
          | Raise e => [Uncaught e]
          | Ok smart => [IdleAdd (success, msg, smart)]
          end
      end
  | _, _ => [Uncaught (Exn TypeError "expected string or bytes-like object")]
  end.

(** [_run_smart_test()] *)
Definition run_test (w : World) (st : State)
  : State * list (effect callback) :=
  let st := set_result_label
              (set_text "Running SMART test... Please wait."
                 (result_label st)) st in
  let st := set_finish_btn (set_sensitive false (finish_btn st)) st in
  (st, worker w st).

(** [d.get(k, dflt)] on an attribute dictionary. *)
Definition attr_get (k dflt : string) (attr : DriveInfo.attribute) : string :=
  default dflt (snd <$> List.find (fun kv => String.eqb (fst kv) k) attr).

(** [_show_smart_result(success, msg, smart)] *)
Definition show_smart_result (success : bool) (msg : string)
    (smart : DriveInfo.SmartInfo) (st : State) : State :=
  let nl2 := String "010" (String "010" EmptyString) in
  let error_msg :=
    msg
    +:+ (if str_truthy (DriveInfo.output smart)
         then nl2 +:+ "STDOUT:" +:+ String "010" (DriveInfo.output smart)
         else EmptyString)
    +:+ (match DriveInfo.error smart with
         | Some e =>
             if str_truthy e then nl2 +:+ "ERROR:" +:+ String "010" e
             else EmptyString
         | None => EmptyString
         end) in
  let st :=
    set_result_label
      (set_text
         (if success
          then "<span foreground='green' weight='bold'>SMART test started successfully!</span>"
               +:+ nl2 +:+ msg
          else "<span foreground='red' weight='bold'>Failed to start SMART test.</span>"
               +:+ nl2 +:+ error_msg)
         (result_label st)) st in
  let st := set_finish_btn (set_sensitive true (finish_btn st)) st in
  let rows :=
    match DriveInfo.attributes smart with
    | Some (a :: attrs) =>
        if DriveInfo.available smart then
          ("Health Status",
           if default false (DriveInfo.health smart)
           then "Healthy" else "Warning/Failing")
          :: map (fun attr =>
                    (attr_get "name" (attr_get "id" EmptyString attr) attr,
                     attr_get "value" (attr_get "raw" EmptyString attr) attr))
                 (a :: attrs)
        else []
    | _ => []
    end in
  let st := set_result_group (result_group st ++ rows) st in
  match selected_drive st with
  | Some d => if str_truthy d then set_show_btn true st else st
  | None => st
  end.

(** The handler of the button added to the result page. *)
Definition on_show_smart_terminal (w : World) (st : State)
  : list (effect callback) :=
  match detect_terminal w, selected_drive st with
  | Some term, Some device =>
      if str_truthy device then
        [Launch (terminal_command term
                   ("sudo smartctl -A " +:+ shlex_quote device +:+ pause))]
      else []
  | _, _ => []
  end.

(** [_on_next(btn)] *)
Definition on_next (w : World) (st : State)
  : State * list (effect callback) :=
  match current_step st with
  | 0 => (show_step w 1 st, [])
  | 1 =>
      match get_selected_row (drive_list st) with
      | None => (st, [ShowError "Please select a drive to continue."])
      | Some dev => (show_step w 2 (set_selected_drive (Some dev) st), [])
      end
  | 2 =>
      match get_selected_index (test_type_list st) with
      | None => (st, [ShowError "Please select a test type."])
      | Some i =>
          let st := set_selected_test
                      (Some (if Nat.eqb i 0 then "short" else "long")) st in
          run_test w (show_step w 3 st)
      end
  | _ => (st, [])
  end.

(** [_on_back(btn)]: the handler has a branch for the result step. *)
Definition on_back (w : World) (st : State) : State :=
  match current_step st with
  | 1 => show_step w 0 st
  | 2 => show_step w 1 st
  | 3 => show_step w 2 st
  | _ => st
  end.

(** What can happen to the window. *)
Inductive event :=
  | Next | Back | Cancel | Finish | ShowSmartTerminal
  | SelectDrive (idxs : list nat)
  | SelectTest (idxs : list nat)
  | ShowSmartResult (success : bool) (msg : string)
      (smart : DriveInfo.SmartInfo).

Definition clickable (b : Button) : bool :=
  (btn_sensitive b && btn_visible b)%bool.

Definition on_page (pg : page) (st : State) : bool :=
  bool_decide (visible_child st = pg).

(** The toolkit only delivers input to a widget that is sensitive and
    on the visible page of the stack; the navigation bar is always
    shown. *)
Definition enabled (st : State) (ev : event) : bool :=
  match ev with
  | Next => clickable (next_btn st)
  | Back => clickable (back_btn st)
  | Cancel => true
  | Finish => (on_page result_box st && clickable (finish_btn st))%bool
  | ShowSmartTerminal => (on_page result_box st && show_btn st)%bool
  | SelectDrive _ => on_page drive_box st
  | SelectTest _ => on_page test_box st
  | ShowSmartResult _ _ _ => true
  end.

(** One turn of the main loop. *)
Definition handle (w : World) (st : State) (ev : event)
  : State * list (effect callback) :=
  if enabled st ev then
    match ev with
    | Next => on_next w st
    | Back => (on_back w st, [])
    | Cancel | Finish => (st, [Close])
    | ShowSmartTerminal => (st, on_show_smart_terminal w st)
    | SelectDrive idxs =>
        (set_drive_list (select false idxs (drive_list st)) st, [])
    | SelectTest idxs =>
        (set_test_type_list (select false idxs (test_type_list st)) st, [])
    | ShowSmartResult success msg smart =>
        (show_smart_result success msg smart st, [])
    end
  else (st, []).

(** A run of the main loop. *)
Definition run_events (evs : list (World * event)) (st : State) : State :=
  fold_left (fun st we => fst (handle (fst we) st (snd we))) evs st.

End SmartWizard.

(** * Properties *)

Section FilterDrives.
Import DriveInfo.

Lemma filter_drives_fold drives main_drives usb_drives :
  fold_left filter_step drives (main_drives, usb_drives)
  = (main_drives ++ filter (fun d => true_usb d = false) drives,
     usb_drives ++ filter (fun d => true_usb d = true) drives).
Proof.
  revert main_drives usb_drives.
  induction drives as [|d ds IH]; intros m u; simpl.
  - by rewrite !app_nil_r.
  - destruct (true_usb d) eqn:E; rewrite IH.
    + rewrite (filter_cons_False (fun d => true_usb d = false)) by congruence.
      rewrite (filter_cons_True (fun d => true_usb d = true)) by done.
      by rewrite <- app_assoc.
    + rewrite (filter_cons_True (fun d => true_usb d = false)) by done.
      rewrite (filter_cons_False (fun d => true_usb d = true)) by congruence.
      by rewrite <- app_assoc.
Qed.

(** Both outputs are order-preserving filters of the input. *)
Lemma filter_drives_filter drives show_usb :
  filter_drives drives show_usb
  = (filter (fun d => true_usb d = false) drives,
     filter (fun d => true_usb d = true) drives).
Proof. apply (filter_drives_fold drives [] []). Qed.

Lemma true_usb_iff d :
  true_usb d = true <-> is_usb d = true /\ lower (transport d) = "usb".
Proof.
  unfold true_usb. rewrite andb_true_iff, String.eqb_eq. done.
Qed.

Lemma partition_perm (l : list Drive) :
  l ≡ₚ filter (fun d => true_usb d = false) l
       ++ filter (fun d => true_usb d = true) l.
Proof.
  induction l as [|d l IH]; [done|].
  destruct (true_usb d) eqn:E.
  - rewrite (filter_cons_False (fun d => true_usb d = false)) by congruence.
    rewrite (filter_cons_True (fun d => true_usb d = true)) by done.
    rewrite <- Permutation_middle. by constructor.
  - rewrite (filter_cons_True (fun d => true_usb d = false)) by done.
    rewrite (filter_cons_False (fun d => true_usb d = true)) by congruence.
    simpl. by constructor.
Qed.

(** C1.  [filter_drives] splits its input in two lists that together
    hold every input drive exactly once (as a permutation, duplicates
    counted); a drive is in the usb list exactly when its [is_usb] flag is
    set and its transport, lower-cased, is "usb", and in the main list
    exactly when it is not, whatever its removable flag. *)
Theorem filter_drives_partition (drives : list Drive) (show_usb : bool) :
  let '(main_drives, usb_drives) := filter_drives drives show_usb in
  drives ≡ₚ main_drives ++ usb_drives
  /\ (forall d, d ∈ usb_drives <->
        d ∈ drives /\ is_usb d = true /\ lower (transport d) = "usb")
  /\ (forall d, d ∈ main_drives <->
        d ∈ drives /\ ~ (is_usb d = true /\ lower (transport d) = "usb"))
  /\ (forall d, d ∈ drives -> ~ (d ∈ main_drives /\ d ∈ usb_drives)).
Proof.
  rewrite filter_drives_filter.
  split; [apply partition_perm|].
  split; [|split].
  - intros d. rewrite list_elem_of_filter, true_usb_iff. tauto.
  - intros d. rewrite list_elem_of_filter, <- true_usb_iff.
    destruct (true_usb d); split; intros []; split; congruence.
  - intros d _ [H1 H2].
    apply list_elem_of_filter in H1 as [H1 _].
    apply list_elem_of_filter in H2 as [H2 _]. congruence.
Qed.

End FilterDrives.

Section GetDrives.
Import DriveInfo.

Variable json_loads : string -> result pyval.

Lemma get_drives_returns lsblk :
  exists drives, get_drives json_loads lsblk = Ok drives.
Proof. unfold get_drives. destruct (get_drives_try _ _); eauto. Qed.

Lemma get_drives_swallows lsblk e :
  get_drives_try json_loads lsblk = Raise e ->
  get_drives json_loads lsblk = Ok [].
Proof. unfold get_drives. by intros ->. Qed.

(** The process could not be started. *)
Lemma get_drives_try_not_started e :
  get_drives_try json_loads (Raise e) = Raise e.
Proof. reflexivity. Qed.

(** The process ended with a non-zero status. *)
Lemma get_drives_try_exit_status p :
  returncode p <> 0 ->
  exists e, get_drives_try json_loads (Ok p) = Raise e.
Proof.
  intros Hrc. unfold get_drives_try, subprocess_run. simpl.
  destruct (returncode p =? 0) eqn:E; [apply Z.eqb_eq in E; done|].
  simpl. eauto.
Qed.

(** The output is not JSON. *)
Lemma get_drives_try_bad_json p e :
  returncode p = 0 -> json_loads (stdout p) = Raise e ->
  get_drives_try json_loads (Ok p) = Raise e.
Proof.
  intros Hrc Hj. unfold get_drives_try, subprocess_run. simpl.
  rewrite Hrc. simpl. by rewrite Hj.
Qed.

(** A machine with no block device at all. *)
Lemma get_drives_no_disks p :
  returncode p = 0 ->
  json_loads (stdout p) = Ok (PDict [("blockdevices", PList [])]) ->
  get_drives json_loads (Ok p) = Ok [].
Proof.
  intros Hrc Hj. unfold get_drives, get_drives_try, subprocess_run. simpl.
  rewrite Hrc. simpl. by rewrite Hj.
Qed.

End GetDrives.

(** C9.  Whatever the block-device query does, [get_drives] returns a
    list and never raises.  When the query fails (the process cannot be
    started, it exits with a non-zero status, its output is not JSON, or
    anything else in the body raises) the list is empty, which is also
    what a machine reporting no block device gives. *)
Theorem get_drives_fails_soft
    (json_loads : string -> result pyval)
    (lsblk : result CompletedProcess) :
  (exists drives, DriveInfo.get_drives json_loads lsblk = Ok drives)
  /\ (forall e, DriveInfo.get_drives_try json_loads lsblk = Raise e ->
        DriveInfo.get_drives json_loads lsblk = Ok [])
  /\ (forall e, lsblk = Raise e ->
        DriveInfo.get_drives json_loads lsblk = Ok [])
  /\ (forall p, lsblk = Ok p -> returncode p <> 0 ->
        DriveInfo.get_drives json_loads lsblk = Ok [])
  /\ (forall p e, lsblk = Ok p -> returncode p = 0 ->
        json_loads (stdout p) = Raise e ->
        DriveInfo.get_drives json_loads lsblk = Ok [])
  /\ (forall e empty, DriveInfo.get_drives_try json_loads lsblk = Raise e ->
        returncode empty = 0 ->
        json_loads (stdout empty) = Ok (PDict [("blockdevices", PList [])]) ->
        DriveInfo.get_drives json_loads lsblk
        = DriveInfo.get_drives json_loads (Ok empty)).
Proof.
  split; [apply get_drives_returns|].
  split; [apply get_drives_swallows|].
  split; [|split; [|split]].
  - intros e ->. by apply (get_drives_swallows _ _ e).
  - intros p -> Hrc.
    destruct (get_drives_try_exit_status json_loads p Hrc) as [e He].
    by apply (get_drives_swallows _ _ e).
  - intros p e -> Hrc Hj. apply (get_drives_swallows _ _ e).
    by apply get_drives_try_bad_json.
  - intros e empty He Hrc Hj.
    rewrite (get_drives_swallows _ _ _ He).
    symmetry. by apply get_drives_no_disks.
Qed.

Section SmartInfoRetry.
Import DriveInfo.

Definition which_argv : list string := ["which"; "smartctl"].
Definition query_argv (device : string) : list string :=
  ["smartctl"; "-H"; "-A"; device].
Definition sudo_argv (device : string) : list string :=
  ["sudo"; "smartctl"; "-H"; "-A"; device].

(** What the function reports when the privileged query [r2] did not
    succeed. *)
Definition escalation_report (r2 : result CompletedProcess) : SmartInfo :=
  match r2 with
  | Ok p2 => command_failed p2
  | Raise e => unavailable ("Sudo failed: " +:+ exn_msg e) (exn_msg e)
  end.

Definition escalation_failed (r2 : result CompletedProcess) : Prop :=
  match r2 with
  | Ok p2 => query_succeeded p2 = false
  | Raise _ => True
  end.

(** The part of the retry rule the code keeps: when the plain query is
    refused and the privileged one fails too, exactly three processes are
    started (which, smartctl, sudo smartctl) and the result is unavailable
    with the error of the privileged attempt. *)
Lemma get_smart_info_failed_escalation depth w device log p0 p1 :
  w (length log) which_argv = Ok p0 -> returncode p0 = 0 ->
  w (S (length log)) (query_argv device) = Ok p1 ->
  returncode p1 = 1 ->
  contains (stderr p1) "Permission denied" = true ->
  escalation_failed (w (S (S (length log))) (sudo_argv device)) ->
  get_smart_info (S depth) w device log
  = (Ok (escalation_report (w (S (S (length log))) (sudo_argv device))),
     log ++ [which_argv; query_argv device; sudo_argv device]).
Proof.
  intros Hw Hrc0 Hq Hrc1 Hden Hfail.
  assert (Hlen1 : length (log ++ [which_argv]) = S (length log))
    by (rewrite length_app; simpl; lia).
  assert (Hlen2 : length ((log ++ [which_argv]) ++ [query_argv device])
                  = S (S (length log)))
    by (rewrite !length_app; simpl; lia).
  cbn [get_smart_info check_smartctl_available spawn].
  fold which_argv. rewrite Hw. cbn [subprocess_run mbind result_bind].
  rewrite Hrc0. cbn.
  fold (query_argv device). rewrite Hlen1, Hq. cbn.
  unfold query_succeeded at 1. rewrite Hrc1. cbn. rewrite Hden.
  change ("sudo" :: query_argv device) with (sudo_argv device).
  rewrite Hlen2.
  destruct (w (S (S (length log))) (sudo_argv device)) as [p2|e] eqn:E;
    cbn [subprocess_run mbind result_bind andb escalation_report].
  - cbn in Hfail. rewrite Hfail. by rewrite <- !app_assoc.
  - by rewrite <- !app_assoc.
Qed.

(** A machine on which the plain query is always refused and the
    privileged one always succeeds. *)
Definition refused_unless_root : World := fun _ argv =>
  match argv with
  | cmd :: _ =>
      if String.eqb cmd "which"
      then Ok {| returncode := 0; stdout := "/usr/sbin/smartctl";
                 stderr := EmptyString |}
      else if String.eqb cmd "sudo"
      then Ok {| returncode := 0;
                 stdout := "SMART overall-health self-assessment test result: PASSED";
                 stderr := EmptyString |}
      else Ok {| returncode := 1; stdout := EmptyString;
                 stderr := "Smartctl open device: /dev/sda failed: Permission denied" |}
  | [] => Raise (Exn OSError "no command")
  end.

Lemma escalations_app log1 log2 :
  escalations (log1 ++ log2) = (escalations log1 + escalations log2)%nat.
Proof. unfold escalations. by rewrite List.filter_app, length_app. Qed.

Lemma refused_unless_root_loops depth device log :
  get_smart_info depth refused_unless_root device log
  = (match depth with
     | O => Raise (Exn RecursionError "maximum recursion depth exceeded")
     | S _ => Ok (unavailable
                    "Sudo failed: maximum recursion depth exceeded"
                    "maximum recursion depth exceeded")
     end,
     log ++ concat (replicate depth
                      [which_argv; query_argv device; sudo_argv device])).
Proof.
  revert log. induction depth as [|depth IH]; intros log.
  - cbn. by rewrite app_nil_r.
  - cbn [get_smart_info check_smartctl_available spawn refused_unless_root].
    cbn. rewrite IH.
    replace (((log ++ [["which"; "smartctl"]]) ++
              [["smartctl"; "-H"; "-A"; device]]) ++
             [["sudo"; "smartctl"; "-H"; "-A"; device]])
      with (log ++ [which_argv; query_argv device; sudo_argv device])
      by (by rewrite <- !app_assoc).
    rewrite <- app_assoc.
    destruct depth; reflexivity.
Qed.

Lemma escalations_rounds n device :
  escalations (concat (replicate n
                 [which_argv; query_argv device; sudo_argv device])) = n.
Proof.
  induction n as [|n IH]; [reflexivity|].
  cbn [replicate concat]. rewrite escalations_app, IH. reflexivity.
Qed.

End SmartInfoRetry.

(** C2 (the code departs from it).  On a machine where the plain query
    is refused with "Permission denied" and the privileged query succeeds,
    [get_smart_info] drops the privileged output and calls itself again:
    it starts one privileged query per frame the interpreter allows, and
    ends unavailable once the recursion limit is hit. *)
Theorem get_smart_info_escalates_every_frame (depth : nat) (device : string) :
  let '(info, log) :=
    DriveInfo.get_smart_info (S depth) refused_unless_root device [] in
  DriveInfo.escalations log = S depth
  /\ info = Ok (DriveInfo.unavailable
                  "Sudo failed: maximum recursion depth exceeded"
                  "maximum recursion depth exceeded").
Proof.
  rewrite refused_unless_root_loops. split; [|done].
  rewrite app_nil_l. apply escalations_rounds.
Qed.

Section TechnicalDetails.
Import DriveInfo.

Variable json_loads : string -> result pyval.

(** [is_nvme] as the function computes it, read off the result. *)
Definition nvme_device (device : string) (d : Details) : bool :=
  (contains (lower (remove_all device "/dev/")) "nvme"
   || match d_transport d with
      | Some (PStr t) => String.eqb (lower t) "nvme"
      | _ => false
      end)%bool.

(** [is_rotational], read off the result. *)
Definition rotational_device (d : Details) : bool :=
  truthy (default PNone (rotation d)).

Lemma detect_nvme_ok device d b :
  detect_nvme (remove_all device "/dev/") d = Ok b -> b = nvme_device device d.
Proof.
  unfold detect_nvme, nvme_device.
  destruct (contains _ "nvme"); [by intros [= <-]|].
  destruct (d_transport d) as [[]|]; simpl; try done; by intros [= <-].
Qed.

(** The classification only writes [trim] and [rotation_speed]. *)
Lemma classify_ok device d d' :
  classify (remove_all device "/dev/") d = Ok d' ->
  rotation d' = rotation d /\ d_transport d' = d_transport d
  /\ rpm d' = rpm d /\ link_speed d' = link_speed d
  /\ d_error d' = d_error d
  /\ (nvme_device device d = true -> trim d' = Some (PStr "Supported"))
  /\ rotation_speed d' = Some
       (if rotational_device d then
          if rpm_known d then default EmptyString (rpm d) +:+ " rpm"
          else "Unknown (HDD)"
        else if nvme_device device d then pcie_gen d +:+ " (NVMe)"
        else "Solid State (SSD)").
Proof.
  unfold classify. destruct (detect_nvme _ d) as [b|e] eqn:E; [|done].
  apply detect_nvme_ok in E. subst b. cbn [mbind result_bind].
  unfold rotational_device.
  intros [= <-].
  destruct (nvme_device device d), (truthy (default PNone (rotation d)));
    cbn; unfold rpm_known; cbn; destruct (rpm d) as [r|] eqn:Er; cbn;
    try destruct (str_truthy r && negb (r =? "0")%string)%bool; cbn;
    repeat split; done.
Qed.

Lemma technical_steps_ok device p d :
  technical_steps json_loads device p = (d, None) ->
  exists d0 d1,
    classify (remove_all device "/dev/") d0 = Ok d1
    /\ d = membership (remove_all device "/dev/") p d1
    /\ d_error d0 = None.
Proof.
  unfold technical_steps.
  destruct (_ ← subprocess_run (lsblk_columns p) true; _) as [da|] eqn:E1;
    [|done].
  destruct (_ ← subprocess_run (lsblk_discard p) false; _) as [db|] eqn:E2;
    [|done].
  destruct (classify _ _) as [dc|] eqn:E3; [|done].
  intros [= <-]. eexists _, dc. split; [exact E3|]. split; [done|].
  (* no probe writes the error field *)
  assert (Hfind : forall devs d0 d', find_device (remove_all device "/dev/")
                     devs d0 = Ok d' -> d_error d' = d_error d0).
  { induction devs as [|dev devs IH]; intros d0 d'; cbn.
    - by intros [= <-].
    - destruct dev; cbn; try done.
      destruct (eq_str _ _); [by intros [= <-]|apply IH]. }
  assert (Hscan : forall lines d0, d_error (udev_scan lines d0) = d_error d0).
  { induction lines as [|line lines IH]; intros d0; cbn; [done|].
    destruct (udev_line d0 line) as [d'|] eqn:El; [|done].
    rewrite IH. unfold udev_line in El.
    repeat match type of El with
           | context [if ?c then _ else _] => destruct c
           | context [after_equals ?l] => destruct (after_equals l)
           end; cbn in El; try done; by injection El as <-. }
  assert (Ha : d_error da = None).
  { destruct (subprocess_run (lsblk_columns p) true); [|done]. cbn in E1.
    destruct (json_loads _); [|done]. cbn in E1.
    destruct (py_get _ _ _ ≫= py_iter); [|done]. cbn in E1.
    by apply Hfind in E1. }
  assert (Hb : d_error db = None).
  { destruct (subprocess_run (lsblk_discard p) false); [|done]. cbn in E2.
    destruct (json_loads _) as [td|]; [|done]. cbn in E2.
    destruct (py_get td _ _) as [devs|]; [|done]. cbn in E2.
    destruct (truthy devs); [|by injection E2 as <-].
    destruct (py_getitem td _ ≫= py_first) as [f|]; [|done]. cbn in E2.
    destruct (py_get f _ _); [|done]. cbn in E2. by injection E2 as <-. }
  unfold udev_probe.
  destruct (subprocess_run (udevadm_info p) false); [|done].
  by rewrite Hscan.
Qed.

End TechnicalDetails.

(** C6.  Whenever [get_technical_details] completes without an error
    entry, its result obeys the priority rule: an NVMe-named or
    NVMe-transport device has trim "Supported"; a rotational device is
    summarised as "<rpm> rpm" when an RPM other than "0" is known and as
    "Unknown (HDD)" otherwise; a non-rotational NVMe device gets the PCIe
    generation of its link speed, tested for 8.0, 16.0 and 32.0 in that
    order and "Unknown" when none matches (the summary carries the suffix
    " (NVMe)"); every other non-rotational device is "Solid State
    (SSD)". *)
Theorem rotation_summary_priority_rule
    (json_loads : string -> result pyval)
    (device : string) (p : DriveInfo.Probes) :
  let d := DriveInfo.get_technical_details json_loads device p in
  DriveInfo.d_error d = None ->
  (nvme_device device d = true ->
     DriveInfo.trim d = Some (PStr "Supported"))
  /\ (rotational_device d = true ->
      forall r, DriveInfo.rpm d = Some r -> r <> EmptyString -> r <> "0" ->
      DriveInfo.rotation_speed d = Some (r +:+ " rpm"))
  /\ (rotational_device d = true ->
      (DriveInfo.rpm d = None \/ DriveInfo.rpm d = Some EmptyString
       \/ DriveInfo.rpm d = Some "0") ->
      DriveInfo.rotation_speed d = Some "Unknown (HDD)")
  /\ (rotational_device d = false -> nvme_device device d = true ->
      forall speed, DriveInfo.link_speed d = Some speed ->
      DriveInfo.rotation_speed d = Some
        (if contains speed "8.0" then "PCIe Gen 3 (NVMe)"
         else if contains speed "16.0" then "PCIe Gen 4 (NVMe)"
         else if contains speed "32.0" then "PCIe Gen 5 (NVMe)"
         else "Unknown (NVMe)"))
  /\ (rotational_device d = false -> nvme_device device d = true ->
      DriveInfo.link_speed d = None ->
      DriveInfo.rotation_speed d = Some "Unknown (NVMe)")
  /\ (rotational_device d = false -> nvme_device device d = false ->
      DriveInfo.rotation_speed d = Some "Solid State (SSD)").
Proof.
  cbv zeta. unfold DriveInfo.get_technical_details.
  destruct (DriveInfo.technical_steps json_loads device p) as [d [e|]] eqn:E;
    [done|].
  intros _.
  apply technical_steps_ok in E as (d0 & d1 & Hc & -> & _).
  apply classify_ok in Hc as (Hrot & Htr & Hrpm & Hls & _ & Htrim & Hsum).
  unfold nvme_device, rotational_device in *.
  cbn [DriveInfo.membership DriveInfo.set_membership DriveInfo.rotation
       DriveInfo.d_transport DriveInfo.rpm DriveInfo.link_speed
       DriveInfo.trim DriveInfo.rotation_speed].
  rewrite Hrot, Htr, Hrpm, Hls, Hsum.
  repeat split.
  - exact Htrim.
  - intros -> r Hr Hne H0. unfold DriveInfo.rpm_known. rewrite Hr.
    cbn [default]. destruct r as [|a r]; [done|]. cbn [str_truthy andb].
    destruct (String.eqb_spec (String a r) "0") as [|_]; [done|]. done.
  - intros -> Hr. unfold DriveInfo.rpm_known.
    destruct Hr as [->|[->| ->]]; done.
  - intros -> -> speed Hs. unfold DriveInfo.pcie_gen. rewrite Hs.
    destruct speed; [done|]. cbn [str_truthy].
    repeat match goal with |- context [if ?c then _ else _] => destruct c end;
      done.
  - intros -> -> Hs. unfold DriveInfo.pcie_gen. by rewrite Hs.
  - by intros -> ->.
Qed.

(** A sample machine: one NVMe disk on a PCIe 4 link. *)
Definition sample_columns : string := "lsblk -d -J -o NAME,ROTA,...,MODEL".
Definition sample_discard : string := "lsblk -D -J /dev/nvme0n1".

Definition sample_json (text : string) : result pyval :=
  if String.eqb text sample_columns then
    Ok (PDict [("blockdevices",
                PList [PDict [("name", PStr "sda"); ("rota", PBool true);
                              ("pttype", PStr "gpt"); ("tran", PStr "sata");
                              ("rm", PBool false); ("model", PStr "WDC")];
                       PDict [("name", PStr "nvme0n1"); ("rota", PBool false);
                              ("pttype", PStr "gpt"); ("tran", PStr "nvme");
                              ("rm", PBool false); ("model", PStr "Samsung")]])])
  else if String.eqb text sample_discard then
    Ok (PDict [("blockdevices",
                PList [PDict [("name", PStr "nvme0n1");
                              ("discard", PBool true)]])])
  else Raise (Exn JSONDecodeError "Expecting value").

Definition exited (code : Z) (out : string) : result CompletedProcess :=
  Ok {| returncode := code; stdout := out; stderr := EmptyString |}.

Definition sample_probes : DriveInfo.Probes :=
  {| DriveInfo.lsblk_columns := exited 0 sample_columns;
     DriveInfo.lsblk_discard := exited 0 sample_discard;
     DriveInfo.udevadm_info :=
       exited 0 ("E: DEVNAME=/dev/nvme0n1" +:+ String "010"
                 ("E: ID_NVME_PCI_LINK_SPEED=16.0 GT/s PCIe" +:+ String "010"
                  "E: ID_MODEL=Samsung"));
     DriveInfo.proc_mdstat := Ok "Personalities : ";
     DriveInfo.ls_bcache := exited 2 EmptyString |}.

Example sample_details :
  DriveInfo.get_technical_details sample_json "/dev/nvme0n1" sample_probes
  = {| DriveInfo.rotation := Some (PBool false);
       DriveInfo.partition_table := Some (PStr "gpt");
       DriveInfo.d_transport := Some (PStr "nvme");
       DriveInfo.removable := Some (PBool false);
       DriveInfo.d_model := Some (PStr "Samsung");
       DriveInfo.trim := Some (PStr "Supported");
       DriveInfo.rpm := None;
       DriveInfo.nvme_pci := None;
       DriveInfo.link_speed := Some "16.0 GT/s PCIe";
       DriveInfo.rotation_speed := Some "PCIe Gen 4 (NVMe)";
       DriveInfo.in_raid := Some false;
       DriveInfo.in_bcache := Some false;
       DriveInfo.d_error := None |}.
Proof. reflexivity. Qed.

(** A disk whose transport lsblk reports as null: the classification
    raises and the summary is never written. *)
Example null_transport_details :
  let json text :=
    if String.eqb text sample_columns then
      Ok (PDict [("blockdevices",
                  PList [PDict [("name", PStr "vda"); ("rota", PBool false);
                                ("tran", PNone)]])])
    else sample_json text in
  let d := DriveInfo.get_technical_details json "/dev/vda" sample_probes in
  DriveInfo.rotation_speed d = None
  /\ DriveInfo.d_error d = Some "object has no attribute 'lower'".
Proof. split; reflexivity. Qed.

Lemma rotation_summary_priority_rule_witness :
  DriveInfo.d_error
    (DriveInfo.get_technical_details sample_json "/dev/nvme0n1" sample_probes)
  = None
  /\ DriveInfo.rotation_speed
       (DriveInfo.get_technical_details sample_json "/dev/nvme0n1"
          sample_probes)
     = Some "PCIe Gen 4 (NVMe)".
Proof.
  split; [reflexivity|].
  pose proof (rotation_summary_priority_rule sample_json "/dev/nvme0n1"
                sample_probes eq_refl) as (_ & _ & _ & H & _).
  exact (H eq_refl eq_refl "16.0 GT/s PCIe" eq_refl).
Defined.

(** The summary of an NVMe device is the generation followed by
    " (NVMe)", not the bare generation: on the sample machine the device
    is non-rotational NVMe on a 16.0 GT/s link, and its summary is not
    "PCIe Gen 4". *)
Lemma rotation_summary_carries_suffix :
  let d := DriveInfo.get_technical_details sample_json "/dev/nvme0n1"
             sample_probes in
  rotational_device d = false
  /\ nvme_device "/dev/nvme0n1" d = true
  /\ (exists speed, DriveInfo.link_speed d = Some speed
                    /\ contains speed "16.0" = true)
  /\ DriveInfo.rotation_speed d <> Some "PCIe Gen 4"
  /\ DriveInfo.rotation_speed d = Some "PCIe Gen 4 (NVMe)".
Proof.
  cbv zeta. rewrite sample_details. cbn.
  repeat split; try done. by exists "16.0 GT/s PCIe".
Qed.

Section BlockCount.
Import PyFloat BenchmarkCount.

Example block_count_1G : block_count "1G" = Ok "1024".
Proof. reflexivity. Qed.

Example block_count_2g : block_count "2g" = Ok "2048".
Proof. reflexivity. Qed.

Example block_count_512M : block_count "512M" = Ok "512".
Proof. reflexivity. Qed.

Example block_count_100m : block_count "100m" = Ok "100".
Proof. reflexivity. Qed.

(** An unknown suffix after a number reaches the fallback. *)
Example block_count_12K : block_count "12K" = Ok "1024".
Proof. reflexivity. Qed.

(** So does a number of two digits or more: its last digit is taken for
    the suffix. *)
Example block_count_25 : block_count "25" = Ok "1024".
Proof. reflexivity. Qed.

(** The first statement converts all but the last character whatever
    the suffix: when that is not a number, the conversion raises and the
    fallback is never reached. *)
Lemma block_count_needs_number size e :
  py_float (drop_last size) = Raise e -> block_count size = Raise e.
Proof.
  intros H. unfold block_count, scaled_count, plain_count. rewrite H.
  by destruct (endswith (lower size) "g").
Qed.

Example block_count_empty :
  block_count EmptyString
  = Raise (Exn ValueError "could not convert string to float: ''").
Proof. reflexivity. Qed.

Example block_count_1GB :
  block_count "1GB"
  = Raise (Exn ValueError "could not convert string to float: '1G'").
Proof. reflexivity. Qed.

End BlockCount.

(** C3 (the code departs from it).  For the size "2" the claim promises
    the fallback count 1024 without an exception; the code evaluates
    [float(size[:-1])], that is [float('')], before it looks at the
    suffix, and raises [ValueError]. *)
Theorem block_count_one_digit_raises :
  BenchmarkCount.block_count "2"
  = Raise (Exn ValueError "could not convert string to float: ''").
Proof. reflexivity. Qed.

Section RaidCreation.
Import Sys Gtk RaidWizard.

(** The path of the array numbered [i]. *)
Definition md_path (i : nat) : string := "/dev/md" +:+ pretty i.

Lemma scan_names_first_free candidates used :
  (exists before i after,
      candidates = before ++ i :: after
      /\ scan_names candidates used = "md" +:+ pretty i
      /\ (md_path i ∉ used)
      /\ Forall (fun j => md_path j ∈ used) before)
  \/ (scan_names candidates used = "md10"
      /\ Forall (fun j => md_path j ∈ used) candidates).
Proof.
  induction candidates as [|i rest IH]; cbn [scan_names].
  - right. by split.
  - destruct (decide (("/dev/" +:+ "md" +:+ pretty i) ∉ used)) as [Hfree|Hused].
    + left. exists [], i, rest. repeat split; try done.
    + apply dec_stable in Hused.
      destruct IH as [(before & k & after & -> & Hn & Hk & Hb)|[Hn Hall]].
      * left. exists (i :: before), k, after. repeat split; try done.
        by constructor.
      * right. split; [done|]. by constructor.
Qed.

(** The name chosen among md0 .. md9, or md10. *)
Lemma choose_array_name_spec w :
  let discovered := map RaidManager.name (RaidManager.get_raid_arrays w) in
  (exists i, (i < 10)%nat
     /\ choose_array_name w = "md" +:+ pretty i
     /\ (md_path i ∉ discovered)
     /\ forall j, (j < i)%nat -> md_path j ∈ discovered)
  \/ (choose_array_name w = "md10"
      /\ forall j, (j < 10)%nat -> md_path j ∈ discovered).
Proof.
  cbv zeta. unfold choose_array_name.
  destruct (scan_names_first_free (seq 0 10)
              (list_to_set (map RaidManager.name
                              (RaidManager.get_raid_arrays w))))
    as [(before & i & after & Hseq & Hn & Hfree & Hb)|[Hn Hall]].
  - left. exists i.
    assert (Hlen : before = seq 0 i /\ (i < 10)%nat).
    { assert (Hi : seq 0 10 !! length before = Some i)
        by (rewrite Hseq; apply list_lookup_middle; done).
      apply lookup_seq in Hi as [Hi Hlt]. cbn in Hi. subst i.
      split; [|done].
      apply (f_equal (take (length before))) in Hseq.
      rewrite take_app_length, take_seq, Nat.min_l in Hseq by lia.
      done. }
    destruct Hlen as [-> Hlt]. repeat split; try done.
    + by rewrite elem_of_list_to_set in Hfree.
    + intros j Hj. rewrite Forall_forall in Hb.
      apply (elem_of_list_to_set (C:=gset string)), Hb.
      apply elem_of_seq. lia.
  - right. split; [done|]. intros j Hj. rewrite Forall_forall in Hall.
    apply (elem_of_list_to_set (C:=gset string)), Hall.
    apply elem_of_seq. lia.
Qed.

(** A path made of letters, digits and [_@%+=:,./-] is passed to the
    shell as it is. *)
Lemma shlex_quote_plain path :
  path <> EmptyString ->
  forallb is_safe_char (list_ascii_of_string path) = true ->
  shlex_quote path = path.
Proof.
  intros Hne Hsafe. unfold shlex_quote. destruct path; [done|].
  cbn [str_truthy negb]. by rewrite Hsafe.
Qed.

End RaidCreation.

(** C5.  Confirming the Review step of the RAID wizard moves to the
    result step and, when a terminal is found, launches in it the command
    [sudo mdadm --create /dev/NAME --level=LEVEL --raid-devices=2 DEV0
    DEV1] (devices quoted for the shell, followed by the wait for a key),
    where NAME is the first of md0 .. md9 whose /dev path is not the name
    of a discovered array, and md10 when all ten are. *)
Theorem raid_creation_command
    (w : Sys.World) (st : RaidWizard.State)
    (term device0 device1 : string) (more : list string) (level : Z) :
  RaidWizard.current_step st = 4 ->
  Sys.detect_terminal w = Some term ->
  RaidWizard.selected_level st = Some level ->
  RaidWizard.selected_drives st = device0 :: device1 :: more ->
  let discovered := map RaidManager.name (RaidManager.get_raid_arrays w) in
  exists array_name,
    ((exists i, (i < 10)%nat
        /\ array_name = "md" +:+ pretty i
        /\ (md_path i ∉ discovered)
        /\ forall j, (j < i)%nat -> md_path j ∈ discovered)
     \/ (array_name = "md10"
         /\ forall j, (j < 10)%nat -> md_path j ∈ discovered))
    /\ RaidWizard.current_step (fst (RaidWizard.on_next w st)) = 5
    /\ head (snd (RaidWizard.on_next w st))
       = Some (Sys.Launch
                 (Sys.terminal_command term
                    ("sudo mdadm --create /dev/" +:+ array_name
                     +:+ " --level=" +:+ pretty level
                     +:+ " --raid-devices=2 " +:+ shlex_quote device0
                     +:+ " " +:+ shlex_quote device1 +:+ Sys.pause))).
Proof.
  intros Hstep Hterm Hlevel Hdrives discovered.
  exists (RaidWizard.choose_array_name w).
  split.
  { destruct (choose_array_name_spec w) as [(i & H)|H]; [left; by exists i|].
    by right. }
  unfold RaidWizard.on_next. rewrite Hstep.
  unfold RaidWizard.run_raid_creation. cbn [fst snd].
  split.
  { by destruct st. }
  unfold RaidWizard.worker. rewrite Hterm.
  replace (RaidWizard.selected_drives _) with (device0 :: device1 :: more)
    by (by destruct st; cbn in *).
  replace (RaidWizard.selected_level _) with (Some level)
    by (by destruct st; cbn in *).
  unfold RaidWizard.mdadm_cmd, RaidWizard.level_str.
  by destruct (subprocess_run _ true).
Qed.

(** ** The wizards *)

(** Case analysis on a step number, as far as the handlers look at
    it. *)
Ltac case_step z :=
  let p := fresh "p" in
  let Hs := fresh "Hs" in
  destruct z as [|p|p] eqn:Hs;
  [ | do 3 (try destruct p as [p|p|]) | ].

Section RaidWizardFacts.
Import Sys Gtk RaidWizard.

(** The result step as [_show_step(5)] leaves it. *)
Definition raid_entered (st : State) : Prop :=
  current_step st = 5 /\ visible_child st = result_box
  /\ btn_sensitive (back_btn st) = false
  /\ btn_sensitive (next_btn st) = false.

Lemma raid_enters_result w st : raid_entered (show_step w 5 st).
Proof. by destruct st. Qed.

Lemma raid_confirm_enters_result w st :
  current_step st = 4 -> raid_entered (fst (on_next w st)).
Proof. intros H. unfold on_next. rewrite H. by destruct st. Qed.

Lemma raid_entered_stable has_refresh w st ev :
  raid_entered st -> raid_entered (fst (handle has_refresh w st ev)).
Proof.
  intros (Hstep & Hpage & Hback & Hnext).
  destruct st; cbn in *; subst.
  unfold handle, enabled, clickable, on_page; cbn.
  destruct ev; cbn; try done.
  all: try (by destruct (btn_sensitive _ && _)%bool).
  all: try (by destruct (btn_visible _)).
Qed.

Lemma raid_entered_forever has_refresh evs st :
  raid_entered st -> raid_entered (run_events has_refresh evs st).
Proof.
  revert st. induction evs as [|[w ev] evs IH]; intros st H; [done|].
  apply IH. by apply raid_entered_stable.
Qed.

(** The gates of the RAID wizard: a blocked Next changes nothing. *)
Lemma raid_level_gate_blocks w st :
  current_step st = 1 -> level_gate st = false ->
  on_next w st = (st, [ShowError "Please select a RAID level to continue."]).
Proof.
  intros Hs Hg. unfold on_next, level_gate in *. rewrite Hs.
  destruct (get_selected_index _); [|done].
  by rewrite bool_decide_eq_false in Hg; destruct Hg.
Qed.

Lemma raid_drives_gate_blocks w st :
  current_step st = 2 -> drives_gate st = false ->
  on_next w st = (st, [ShowError "Please select exactly two drives."]).
Proof.
  intros Hs Hg. unfold on_next, drives_gate in *. by rewrite Hs, Hg.
Qed.

Lemma raid_cleanse_gate_blocks w st :
  current_step st = 3 -> cleanse_gate st = false ->
  on_next w st
  = (st, [ShowError "You must wipe both drives before proceeding."]).
Proof.
  intros Hs Hg. unfold on_next, cleanse_gate in *. rewrite Hs.
  apply negb_false_iff in Hg. by rewrite Hg.
Qed.

(** The cleanse step as [_show_step(3)] leaves it. *)
Definition raid_cleanse_fresh (st : State) : Prop :=
  current_step st = 3
  /\ drive1_wiped st = false /\ drive2_wiped st = false
  /\ lbl_text (wipe_drive1_status st) = "Not wiped yet."
  /\ lbl_text (wipe_drive2_status st) = "Not wiped yet."
  /\ btn_sensitive (next_btn st) = false.

Lemma raid_cleanse_entry w st : raid_cleanse_fresh (show_step w 3 st).
Proof. by destruct st. Qed.

(** Whatever event brings the wizard to the cleanse step from another
    step does so through [_show_step(3)]. *)
Lemma raid_cleanse_entered_by_event has_refresh w st ev :
  current_step st <> 3 ->
  current_step (fst (handle has_refresh w st ev)) = 3 ->
  raid_cleanse_fresh (fst (handle has_refresh w st ev)).
Proof.
  intros Hne. unfold handle. destruct (enabled st ev); [|done].
  destruct ev; cbn [fst].
  - unfold on_next. case_step (current_step st); cbn [fst]; try done;
      try (intros; congruence); try (by destruct st).
    all: first [ destruct (get_selected_index _); cbn [fst];
                 [by destruct st|intros; congruence]
               | destruct (negb _); cbn [fst];
                 [intros; congruence|intros _; apply raid_cleanse_entry]
               | destruct (_ || _)%bool; cbn [fst];
                 [intros; congruence|by destruct st] ].
  - unfold on_back. case_step (current_step st);
      try (intros; congruence); by destruct st.
  - intros; congruence.
  - intros; congruence.
  - unfold on_wipe_drive, launch_wipefs.
    destruct (_ !! _); [|done]. destruct (detect_terminal w); [|done].
    destruct (subprocess_run _ _); intros H; exfalso; by destruct st.
  - unfold on_wipe_drive, launch_wipefs.
    destruct (_ !! _); [|done]. destruct (detect_terminal w); [|done].
    destruct (subprocess_run _ _); intros H; exfalso; by destruct st.
  - intros H; exfalso; by destruct st.
  - intros H; exfalso; by destruct st.
  - intros H; exfalso; by destruct st.
Qed.

Lemma raid_cleanse_fresh_blocks w st :
  raid_cleanse_fresh st ->
  on_next w st
  = (st, [ShowError "You must wipe both drives before proceeding."]).
Proof.
  intros (Hs & H1 & _). apply raid_cleanse_gate_blocks; [done|].
  unfold cleanse_gate. by rewrite H1.
Qed.

End RaidWizardFacts.

Section BcacheWizardFacts.
Import Sys Gtk BcacheWizard.

(** The result step as [_show_step(6)] leaves it. *)
Definition bcache_entered (st : State) : Prop :=
  current_step st = 6 /\ visible_child st = result_box
  /\ btn_sensitive (back_btn st) = false
  /\ btn_sensitive (next_btn st) = false.

Lemma bcache_enters_result w st : bcache_entered (show_step w 6 st).
Proof. by destruct st. Qed.

Lemma bcache_confirm_enters_result w st :
  current_step st = 5 -> bcache_entered (fst (on_next w st)).
Proof. intros H. unfold on_next. rewrite H. by destruct st. Qed.

Lemma bcache_entered_stable w st ev :
  bcache_entered st -> bcache_entered (fst (handle w st ev)).
Proof.
  intros (Hstep & Hpage & Hback & Hnext).
  destruct st; cbn in *; subst.
  unfold handle, enabled, clickable, on_page; cbn.
  destruct ev; cbn; try done.
  all: try (by destruct (btn_sensitive _ && _)%bool).
  all: try (by destruct (btn_visible _)).
Qed.

Lemma bcache_entered_forever evs st :
  bcache_entered st -> bcache_entered (run_events evs st).
Proof.
  revert st. induction evs as [|[w ev] evs IH]; intros st H; [done|].
  apply IH. by apply bcache_entered_stable.
Qed.

Lemma bcache_backing_gate_blocks w st :
  current_step st = 1 -> backing_gate st = false ->
  on_next w st
  = (st, [ShowError "Please select a backing device (HDD) to continue."]).
Proof.
  intros Hs Hg. unfold on_next, backing_gate in *. rewrite Hs.
  destruct (get_selected_row _); [|done].
  by rewrite bool_decide_eq_false in Hg; destruct Hg.
Qed.

Lemma bcache_detach_gate_blocks w st :
  current_step st = 3 -> detach_gate st = false ->
  on_next w st
  = (st, [ShowError "You must detach all devices from bcache before proceeding."]).
Proof.
  intros Hs Hg. unfold on_next, detach_gate in *. rewrite Hs.
  apply negb_false_iff in Hg. by rewrite Hg.
Qed.

Lemma bcache_cleanse_gate_blocks w st :
  current_step st = 4 -> cleanse_gate st = false ->
  on_next w st
  = (st, [ShowError "You must wipe both devices before proceeding."]).
Proof.
  intros Hs Hg. unfold on_next, cleanse_gate in *. rewrite Hs.
  apply negb_false_iff in Hg. by rewrite Hg.
Qed.

(** The test made by Next at the cleanse step agrees with the one that
    sets the sensitivity of the button, unless the cache device is the
    empty string. *)
Lemma bcache_cleanse_gate_can_next st :
  selected_cache st <> Some EmptyString ->
  cleanse_gate st = cleanse_can_next st.
Proof.
  intros Hne. unfold cleanse_gate, cleanse_can_next, chosen.
  destruct (backing_wiped st), (cache_wiped st),
    (selected_cache st) as [[|c d]|]; done.
Qed.

Lemma bcache_detach_gate_can_next st :
  detach_gate st = detach_can_next st.
Proof.
  unfold detach_gate, detach_can_next.
  by destruct (backing_needs_detach st), (backing_detached st),
    (cache_needs_detach st), (cache_detached st).
Qed.

(** The cleanse step as [_show_step(4)] leaves it. *)
Definition bcache_cleanse_fresh (st : State) : Prop :=
  current_step st = 4
  /\ backing_wiped st = false /\ cache_wiped st = false
  /\ lbl_text (wipe_backing_status st) = "Not wiped yet."
  /\ lbl_text (wipe_cache_status st) = "Not wiped yet."
  /\ btn_sensitive (next_btn st) = false.

Lemma bcache_cleanse_entry w st : bcache_cleanse_fresh (show_step w 4 st).
Proof.
  destruct st. unfold bcache_cleanse_fresh. cbn.
  unfold update_cleanse_ui. cbn. by destruct (chosen _).
Qed.

Lemma bcache_current_step_show w n st :
  current_step (show_step w n st) = n.
Proof.
  unfold show_step.
  assert (Hnav : forall pg b nx c s,
             current_step (navigate pg b nx c s) = current_step s)
    by (intros pg b nx c s; by destruct s).
  case_step n; rewrite ?Hnav; try by destruct st.
  - unfold update_detach_ui. cbv zeta.
    repeat match goal with
           | |- context [match ?x with Some _ => _ | None => _ end] =>
               destruct x
           | |- context [match ?x with [] => _ | _ :: _ => _ end] =>
               destruct x
           | |- context [if ?c then _ else _] => destruct c
           end; by destruct st.
  - unfold update_cleanse_ui. cbv zeta. destruct (chosen _); by destruct st.
Qed.

Lemma bcache_cleanse_entered_by_event w st ev :
  current_step st <> 4 ->
  current_step (fst (handle w st ev)) = 4 ->
  bcache_cleanse_fresh (fst (handle w st ev)).
Proof.
  intros Hne. unfold handle.
  destruct (enabled st ev); cbn [fst]; [|cbn [fst]; intros; congruence].
  destruct ev; cbn [fst]; try (intros; congruence).
  - unfold on_next. case_step (current_step st); cbn [fst];
      try (intros; congruence);
      try (rewrite bcache_current_step_show; intros; congruence).
    all: first [ destruct (get_selected_row _); cbn [fst];
                 [rewrite bcache_current_step_show|]; intros; congruence
               | destruct (_ || _)%bool; cbn [fst];
                 [intros; congruence|];
                 first [ intros _; apply bcache_cleanse_entry
                       | rewrite bcache_current_step_show;
                         intros; congruence ]
               | by destruct st ].
  - unfold on_back. case_step (current_step st);
      try (intros; congruence);
      try (rewrite bcache_current_step_show; intros; congruence).
    intros _. apply bcache_cleanse_entry.
  - unfold on_skip_cache. rewrite bcache_current_step_show.
    intros; congruence.
  - unfold launch_wipefs. destruct (detect_terminal w); [|cbn [fst]; intros; congruence].
    destruct (selected_backing st); [|cbn [fst]; intros; congruence].
    destruct (subprocess_run _ _); cbn [fst]; intros H; exfalso; by destruct st.
  - unfold launch_wipefs. destruct (detect_terminal w); [|cbn [fst]; intros; congruence].
    destruct (selected_cache st); [|cbn [fst]; intros; congruence].
    destruct (subprocess_run _ _); cbn [fst]; intros H; exfalso; by destruct st.
  - unfold launch_detach. destruct (detect_terminal w); [|cbn [fst]; intros; congruence].
    destruct (selected_backing st); [|cbn [fst]; intros; congruence].
    destruct (slaves w _); [cbn [fst]; intros H; exfalso; by destruct st|].
    destruct (_ !! _); [|cbn [fst]; intros; congruence].
    destruct (subprocess_run _ _); cbn [fst]; intros H; exfalso; by destruct st.
  - unfold launch_detach. destruct (detect_terminal w); [|cbn [fst]; intros; congruence].
    destruct (selected_cache st); [|cbn [fst]; intros; congruence].
    destruct (slaves w _); [cbn [fst]; intros H; exfalso; by destruct st|].
    destruct (_ !! _); [|cbn [fst]; intros; congruence].
    destruct (subprocess_run _ _); cbn [fst]; intros H; exfalso; by destruct st.
  - cbn [fst]; intros H; exfalso; by destruct st.
  - cbn [fst]; intros H; exfalso; by destruct st.
  - cbn [fst]; intros H; exfalso; by destruct st.
Qed.

Lemma bcache_cleanse_fresh_blocks w st :
  bcache_cleanse_fresh st ->
  on_next w st
  = (st, [ShowError "You must wipe both devices before proceeding."]).
Proof.
  intros (Hs & H1 & _). apply bcache_cleanse_gate_blocks; [done|].
  unfold cleanse_gate. by rewrite H1.
Qed.

End BcacheWizardFacts.

Section FstabWizardFacts.
Import Sys Gtk FstabWizard.

(** A step number answers one test of the handlers only. *)
Lemma at_step_exclusive st p q :
  at_step st p = true -> Qeq_bool p q = false -> at_step st q = false.
Proof.
  unfold at_step. intros Hp Hpq.
  destruct (Qeq_bool (current_step st) q) eqn:Hq; [|done].
  apply Qeq_bool_iff in Hp, Hq.
  assert (Heq : Qeq_bool p q = true)
    by (apply Qeq_bool_iff; by rewrite <- Hp, Hq).
  congruence.
Qed.

(** Rewrites every step test of the goal, knowing [H : at_step st k =
    true]. *)
Ltac known_step H :=
  repeat match goal with
         | |- context [at_step ?st ?q] =>
             first [ rewrite H
                   | rewrite (at_step_exclusive st _ q H eq_refl) ]
         end.

Lemma fstab_current_step_show w n st :
  current_step (show_step w n st) = n.
Proof.
  unfold show_step.
  repeat match goal with
         | |- context [if Qeq_bool ?a ?b then _ else _] =>
             destruct (Qeq_bool a b)
         end; by destruct st.
Qed.

(** The result step as [_show_step(7)] leaves it. *)
Definition fstab_entered (st : State) : Prop :=
  at_step st 7 = true /\ visible_child st = done_box
  /\ btn_sensitive (back_btn st) = false
  /\ btn_sensitive (next_btn st) = false.

Lemma fstab_enters_result w st : fstab_entered (show_step w 7 st).
Proof. by destruct st. Qed.

Lemma fstab_confirm_enters_result w st term :
  at_step st 6 = true -> detect_terminal w = Some term ->
  fstab_entered (fst (on_next w st)).
Proof.
  intros H Ht. unfold on_next. known_step H. rewrite Ht. cbn [fst].
  apply fstab_enters_result.
Qed.

Lemma fstab_entered_stable w st ev :
  fstab_entered st -> fstab_entered (fst (handle w st ev)).
Proof.
  intros (Hstep & Hpage & Hback & Hnext).
  unfold handle, enabled, clickable, on_page.
  rewrite Hpage, Hback, Hnext.
  destruct ev; cbn [andb fst].
  all: try rewrite bool_decide_eq_false_2 by done.
  all: cbn [andb fst].
  all: try (by repeat split).
  destruct (_ && _)%bool; by repeat split.
Qed.

Lemma fstab_entered_forever evs st :
  fstab_entered st -> fstab_entered (run_events evs st).
Proof.
  revert st. induction evs as [|[w ev] evs IH]; intros st H; [done|].
  apply IH. by apply fstab_entered_stable.
Qed.

Lemma fstab_drive_gate_blocks w st :
  at_step st 1 = true -> drive_gate st = false ->
  on_next w st = (st, [ShowError "Please select a drive to continue."]).
Proof.
  intros Hs Hg. unfold on_next, drive_gate in *. known_step Hs.
  destruct (get_selected_row _); [|done].
  by rewrite bool_decide_eq_false in Hg; destruct Hg.
Qed.

Lemma fstab_format_gate_blocks w st :
  at_step st 1.5 = true -> format_gate st = false ->
  on_next w st
  = (st, [ShowError "You must format the bcache device before proceeding."]).
Proof.
  intros Hs Hg. unfold on_next, format_gate in *. known_step Hs.
  by rewrite Hg.
Qed.

Lemma fstab_mount_point_gate_blocks w st :
  at_step st 2 = true -> mount_point_gate st = false ->
  on_next w st
  = (st, [ShowError "Please enter a valid mount point (must start with /)."]).
Proof.
  intros Hs Hg. unfold on_next, mount_point_gate in *. known_step Hs.
  apply negb_false_iff in Hg. by rewrite Hg.
Qed.

(** A mount point that passes the gate is not empty and starts with a
    slash. *)
Lemma fstab_mount_point_gate_spec st :
  mount_point_gate st = true <->
  strip (mp_entry st) <> EmptyString
  /\ startswith (strip (mp_entry st)) "/" = true.
Proof.
  unfold mount_point_gate. cbv zeta.
  destruct (strip (mp_entry st)) as [|c s]; cbn [str_truthy negb orb].
  - split; [done|by intros []].
  - destruct (startswith (String c s) "/"); cbn [negb]; split; try done.
    by intros [].
Qed.

Lemma fstab_terminal_gate_blocks w st :
  at_step st 6 = true -> detect_terminal w = None ->
  on_next w st = (st, [ShowError no_terminal]).
Proof. intros Hs Ht. unfold on_next. known_step Hs. by rewrite Ht. Qed.

(** The format step as [_show_step(1.5)] leaves it. *)
Definition fstab_format_fresh (st : State) : Prop :=
  at_step st 1.5 = true
  /\ visible_child st = format_box
  /\ format_done st = false
  /\ lbl_text (format_status st) = "Not formatted yet."
  /\ btn_sensitive (next_btn st) = false.

Lemma fstab_format_entry w st : fstab_format_fresh (show_step w 1.5 st).
Proof. by destruct st. Qed.

Lemma fstab_format_fresh_blocks w st :
  fstab_format_fresh st ->
  on_next w st
  = (st, [ShowError "You must format the bcache device before proceeding."]).
Proof. intros (Hs & _ & Hd & _). by apply fstab_format_gate_blocks. Qed.

End FstabWizardFacts.

Section FstabFormatStep.
Import Sys Gtk FstabWizard.

Ltac known_step H :=
  repeat match goal with
         | |- context [at_step ?st ?q] =>
             first [ rewrite H
                   | rewrite (at_step_exclusive st _ q H eq_refl) ]
         end.

Lemma fstab_at_step_show w n q st :
  at_step (show_step w n st) q = Qeq_bool n q.
Proof. unfold at_step. by rewrite fstab_current_step_show. Qed.

(** Whatever event brings the wizard to the format step from another
    step does so through [_show_step(1.5)]. *)
Lemma fstab_format_entered_by_event w st ev :
  at_step st 1.5 = false ->
  at_step (fst (handle w st ev)) 1.5 = true ->
  fstab_format_fresh (fst (handle w st ev)).
Proof.
  intros Hne. unfold handle.
  destruct (enabled st ev); cbn [fst]; [|intros; congruence].
  destruct ev; cbn [fst]; try (intros; congruence).
  - unfold on_next.
    repeat match goal with
           | |- context [if at_step st ?q then _ else _] =>
               destruct (at_step st q) eqn:?
           end;
    repeat match goal with
           | |- context [match get_selected_row ?l with _ => _ end] =>
               destruct (get_selected_row l)
           | |- context [if check_needs_format ?a ?b then _ else _] =>
               destruct (check_needs_format a b)
           | |- context [if negb ?c then _ else _] => destruct (negb c)
           | |- context [if (?a || ?b)%bool then _ else _] =>
               destruct (a || b)%bool
           | |- context [match detect_terminal ?x with _ => _ end] =>
               destruct (detect_terminal x)
           end;
    cbn [fst]; rewrite ?fstab_at_step_show;
    first [ intros; congruence
          | intros H; vm_compute in H; congruence
          | intros _; apply fstab_format_entry ].
  - unfold on_back.
    repeat match goal with
           | |- context [if at_step st ?q then _ else _] =>
               destruct (at_step st q) eqn:?
           end; rewrite ?fstab_at_step_show;
    first [ intros; congruence | intros H; vm_compute in H; congruence ].
  - unfold on_format_bcache.
    destruct (detect_terminal w); cbn [fst]; [|intros; congruence].
    destruct (subprocess_run _ _); cbn [fst]; intros H; exfalso;
      revert H Hne; unfold at_step; destruct st; cbn; congruence.
  - intros H; exfalso; revert H Hne; unfold at_step; destruct st; cbn; congruence.
  - intros H; exfalso; revert H Hne; unfold at_step; destruct st; cbn; congruence.
  - intros H; exfalso; revert H Hne; unfold at_step; destruct st; cbn; congruence.
  - intros H; exfalso; revert H Hne; unfold at_step; destruct st; cbn; congruence.
  - intros H; exfalso; revert H Hne; unfold at_step; destruct st; cbn; congruence.
Qed.

(** Choosing a bcache device for which lsblk reports no filesystem
    leads to the format step. *)
Lemma fstab_bcache_device_needs_format w st dev res :
  at_step st 1 = true ->
  get_selected_row (drive_list st) = Some dev ->
  startswith dev "/dev/bcache" = true ->
  run w ["lsblk"; "-no"; "FSTYPE"; dev] = Ok res ->
  strip (stdout res) = EmptyString ->
  on_next w st
  = (show_step w 1.5
       (set_needs_format true (set_selected_drive (Some dev) st)), []).
Proof.
  intros Hs Hsel Hb Hrun Hfs. unfold on_next. known_step Hs.
  rewrite Hsel. unfold check_needs_format. rewrite Hb, Hrun. cbn.
  by rewrite Hfs.
Qed.

(** At the format step, waiting for the format. *)
Definition fstab_waiting (st : State) : Prop :=
  at_step st 1.5 = true /\ visible_child st = format_box
  /\ format_done st = false.

Lemma fstab_fresh_waiting st : fstab_format_fresh st -> fstab_waiting st.
Proof. intros (? & ? & ? & _). by repeat split. Qed.

(** While the format has not been done, an event either leaves the
    wizard waiting at the format step or is the format action, launched
    in a terminal and ended successfully, which marks the format as done
    and enables Next. *)
Lemma fstab_waiting_step w st ev :
  fstab_waiting st ->
  fstab_waiting (fst (handle w st ev))
  \/ (ev = FormatBcache
      /\ (exists term cmd,
            detect_terminal w = Some term
            /\ snd (handle w st ev) = [Launch cmd]
            /\ exists res, subprocess_run (run w cmd) true = Ok res)
      /\ at_step (fst (handle w st ev)) 1.5 = true
      /\ format_done (fst (handle w st ev)) = true
      /\ btn_sensitive (next_btn (fst (handle w st ev))) = true).
Proof.
  intros (Hs & Hpage & Hdone).
  unfold handle, enabled, on_page. rewrite Hpage.
  destruct ev; cbn [andb fst snd];
    try rewrite bool_decide_eq_false_2 by done; cbn [andb fst snd];
    try (by left; repeat split).
  - destruct (clickable _); [|by left]. left.
    rewrite fstab_format_gate_blocks by done. by repeat split.
  - destruct (clickable _); [|by left]. left.
    unfold on_back. known_step Hs. by repeat split.
  - rewrite bool_decide_eq_true_2 by done. cbn [andb].
    destruct (clickable _); [|by left].
    unfold on_format_bcache.
    destruct (detect_terminal w) as [term|] eqn:Ht; [|by left].
    match goal with
    | |- context [subprocess_run (run w ?c) true] =>
        destruct (subprocess_run (run w c) true) as [res|e] eqn:Hr
    end; cbn [fst snd].
    + right. split; [done|]. split.
      { eexists term, _. split; [done|]. split; [done|]. by exists res. }
      revert Hs. unfold at_step. by destruct st.
    + left. revert Hs Hpage Hdone. unfold fstab_waiting, at_step.
      by destruct st.
Qed.

(** Events other than the format action leave the wizard waiting. *)
Lemma fstab_waiting_without_format evs st :
  Forall (fun we => snd we <> FormatBcache) evs ->
  fstab_waiting st -> fstab_waiting (run_events evs st).
Proof.
  revert st. induction evs as [|[w ev] evs IH]; intros st Hall Hw; [done|].
  inversion Hall as [|? ? Hne Hrest]; subst. cbn in Hne.
  apply IH; [done|].
  destruct (fstab_waiting_step w st ev Hw) as [H|[H _]]; done.
Qed.

(** Once the format is done, Next proceeds to the mount point. *)
Lemma fstab_format_done_proceeds w st :
  at_step st 1.5 = true -> format_done st = true ->
  on_next w st = (show_step w 2 st, []).
Proof. intros Hs Hd. unfold on_next. known_step Hs. by rewrite Hd. Qed.

(** The command launched at the confirmation appends the persisted
    line to /etc/fstab. *)
Lemma fstab_confirm_launches w st term :
  at_step st 6 = true -> detect_terminal w = Some term ->
  snd (on_next w st)
  = [Launch (terminal_command term
               (join "; " (compose_cmds w st) +:+ pause))]
  /\ last (compose_cmds w st) = Some "sudo mount -a"
  /\ ("echo '" +:+ persisted_line w st +:+ "' | sudo tee -a /etc/fstab")
     ∈ compose_cmds w st.
Proof.
  intros Hs Ht. unfold on_next. known_step Hs. rewrite Ht. cbn [snd].
  split; [done|]. unfold compose_cmds. cbv zeta.
  split.
  - rewrite !app_assoc. by rewrite last_app.
  - rewrite !elem_of_app. right. right. apply list_elem_of_here.
Qed.

Lemma fstab_line_uses_uuid w st res :
  run w ["blkid"; "-s"; "UUID"; "-o"; "value"; fmt (selected_drive st)]
  = Ok res ->
  strip (stdout res) <> EmptyString ->
  persisted_line w st = fstab_line ("UUID=" +:+ strip (stdout res)) st.
Proof.
  intros Hrun Hne. unfold persisted_line, resolve_uuid. rewrite Hrun. cbn.
  by destruct (strip (stdout res)).
Qed.

Lemma fstab_line_falls_back w st :
  match run w ["blkid"; "-s"; "UUID"; "-o"; "value";
               fmt (selected_drive st)] with
  | Ok res => strip (stdout res) = EmptyString
  | Raise _ => True
  end ->
  persisted_line w st = fstab_line (fmt (selected_drive st)) st.
Proof.
  unfold persisted_line, resolve_uuid.
  destruct (run w _) as [res|e]; cbn; [|done]. by intros ->.
Qed.

End FstabFormatStep.
